(** * Liferay headless-API collector: a shallow embedding and its properties

    The development embeds [liferay_collector.py] (class [LiferayAPICollector])
    and [main.py] as executable Rocq functions and proves the properties of
    the paginated collection engine, the request executor, the ordered
    authentication fallback and the command-line entry point.

    Modelling choices.
    - Parsed JSON bodies are values of type [json]; the dynamic operations the
      source applies to them ([.get], truth tests, [==], [>=], iteration, item
      assignment) are written out with the exceptions Python raises.  JSON
      numbers are integers (the counters of the remote API are); bodies with
      a number that is not an integer are outside the model.
    - The headers of a response are looked up by name without regard to
      case, as [requests] does ([header_get]).
    - [os.makedirs] on the empty path raises [FileNotFoundError]; other
      failures of the file system are not modelled.
    - A Python [str] is a [string]; a character whose code is above 127 is a
      non-ASCII character, which is what [str.encode('ascii')] rejects.
    - The collector object, the [requests.Session] it owns and the remote
      server are one explicit state [World], threaded by a state monad that
      also carries Python exceptions and produces the list of observable
      events of a run: log records, HTTP exchanges, sleeps, file writes and
      console lines, in the order in which they happen.
    - The remote server is a parameter: any transition function from a server
      state and a request to an outcome and a new server state.
    - [re.findall], [re.sub], [str.lower] and [str()] of a parsed value are
      parameters too.  Clock values ([datetime.now()]) are left out of the
      summary document. *)

From Stdlib Require Import ZArith List String Ascii Bool Lia QArith.
From Stdlib Require Import DecimalString.
Import ListNotations.

Open Scope string_scope.
Open Scope Z_scope.

(** ** Python values *)

Set Warnings "-register-all".

Inductive json : Type :=
| JNull
| JBool (b : bool)
| JNum (n : Z)
| JStr (s : string)
| JArr (l : list json)
| JObj (kvs : list (string * json)).

Inductive exn : Type :=
| AttributeError
| TypeError
| UnicodeEncodeError
| SSLError
| HTTPError (status : Z)
| ConnectionError
| JSONDecodeError
| FileNotFoundError
| LoopFuel. (* not a Python exception: the bound of the page loop was hit;
               [collect_paginated_data_fuel] shows that it never is *)

Inductive result (A : Type) : Type :=
| Ok (a : A)
| Raise (e : exn).

Arguments Ok {A} a.
Arguments Raise {A} e.

(** Python dictionaries keep insertion order: an assignment to an existing
    key replaces the value in place, a new key goes to the end. *)
Fixpoint dict_get {V : Type} (k : string) (d : list (string * V)) : option V :=
  match d with
  | [] => None
  | (k', v) :: r => if String.eqb k k' then Some v else dict_get k r
  end.

Fixpoint dict_set {V : Type} (k : string) (v : V) (d : list (string * V))
  : list (string * V) :=
  match d with
  | [] => [(k, v)]
  | (k', v') :: r =>
      if String.eqb k k' then (k, v) :: r else (k', v') :: dict_set k v r
  end.

(** [response.headers.get(k)]: the headers of a response are a
    case-insensitive dictionary, the names are compared in lower case *)
Definition ascii_lower (c : ascii) : ascii :=
  let n := nat_of_ascii c in
  if (65 <=? n)%nat && (n <=? 90)%nat then ascii_of_nat (n + 32) else c.

Fixpoint lower_name (s : string) : string :=
  match s with
  | EmptyString => EmptyString
  | String c r => String (ascii_lower c) (lower_name r)
  end.

Fixpoint header_get (k : string) (h : list (string * string))
  : option string :=
  match h with
  | [] => None
  | (k', v) :: rest =>
      if String.eqb (lower_name k) (lower_name k') then Some v
      else header_get k rest
  end.

Definition is_nil {A : Type} (l : list A) : bool :=
  match l with [] => true | _ => false end.

Definition str_truthy (s : string) : bool := negb (String.eqb s "").

Definition opt_truthy (o : option string) : bool :=
  match o with Some s => str_truthy s | None => false end.

(** [bool(v)] *)
Definition truthy (v : json) : bool :=
  match v with
  | JNull => false
  | JBool b => b
  | JNum n => negb (n =? 0)
  | JStr s => str_truthy s
  | JArr l => negb (is_nil l)
  | JObj kvs => negb (is_nil kvs)
  end.

(** [d.get(k, default)] *)
Definition py_get (d : json) (k : string) (default : json) : result json :=
  match d with
  | JObj kvs =>
      Ok (match dict_get k kvs with Some v => v | None => default end)
  | _ => Raise AttributeError
  end.

Definition bool_int (b : bool) : Z := if b then 1 else 0.

(** [v == n] for an integer literal [n]; [True == 1] and [False == 0]. *)
Definition py_eq_int (v : json) (n : Z) : bool :=
  match v with
  | JNum m => m =? n
  | JBool b => bool_int b =? n
  | _ => false
  end.

(** [a >= v] for an integer [a] *)
Definition py_int_ge (a : Z) (v : json) : result bool :=
  match v with
  | JNum m => Ok (a >=? m)
  | JBool b => Ok (a >=? bool_int b)
  | _ => Raise TypeError
  end.

Fixpoint str_chars (s : string) : list json :=
  match s with
  | EmptyString => []
  | String c r => JStr (String c EmptyString) :: str_chars r
  end.

(** the elements [list.extend(v)] appends *)
Definition py_iter (v : json) : result (list json) :=
  match v with
  | JArr l => Ok l
  | JObj kvs => Ok (map (fun kv => JStr (fst kv)) kvs)
  | JStr s => Ok (str_chars s)
  | _ => Raise TypeError
  end.

(** [d[k] = v] for a string key *)
Definition py_setitem (d : json) (k : string) (v : json) : result json :=
  match d with
  | JObj kvs => Ok (JObj (dict_set k v kvs))
  | _ => Raise TypeError
  end.

Definition opt_json (o : option string) : json :=
  match o with Some s => JStr s | None => JNull end.

(** [f"{o}"] for an optional string *)
Definition opt_str (o : option string) : string :=
  match o with Some s => s | None => "None" end.

(** ** Strings *)

Fixpoint contains (needle hay : string) : bool :=
  if String.prefix needle hay then true
  else match hay with
       | EmptyString => false
       | String _ r => contains needle r
       end.

(** [s[:n]] *)
Definition str_take (n : nat) (s : string) : string := String.substring 0 n s.

(** [s.rstrip('/')] *)
Fixpoint rstrip_slash (s : string) : string :=
  match s with
  | EmptyString => EmptyString
  | String c r =>
      let r' := rstrip_slash r in
      if Ascii.eqb c "/"%char && String.eqb r' "" then EmptyString
      else String c r'
  end.

(** [os.path.join(dir, name)] for a relative [name] *)
Definition path_join (dir name : string) : string :=
  if String.eqb dir "" then name
  else if String.eqb (String.substring (String.length dir - 1) 1 dir) "/"
       then dir ++ name
       else dir ++ "/" ++ name.

Fixpoint str_forallb (p : ascii -> bool) (s : string) : bool :=
  match s with
  | EmptyString => true
  | String c r => p c && str_forallb p r
  end.

Definition is_ascii_char (c : ascii) : bool := (N_of_ascii c <? 128)%N.

Definition is_ascii (s : string) : bool := str_forallb is_ascii_char s.

(** [s.encode('ascii')] *)
Definition encode_ascii (s : string) : result (list N) :=
  if is_ascii s
  then Ok (map N_of_ascii (list_ascii_of_string s))
  else Raise UnicodeEncodeError.

Definition b64_alphabet : string :=
  "ABCDEFGHIJKLMNOPQRSTUVWXYZabcdefghijklmnopqrstuvwxyz0123456789+/".

Definition b64_char (n : N) : ascii :=
  match String.get (N.to_nat n) b64_alphabet with
  | Some c => c
  | None => "="%char
  end.

(** [base64.b64encode(bytes).decode('ascii')] *)
Fixpoint b64encode (l : list N) : string :=
  match l with
  | [] => EmptyString
  | [a] =>
      String (b64_char (a / 4))
        (String (b64_char ((a mod 4) * 16)) "==")
  | [a; b] =>
      String (b64_char (a / 4))
        (String (b64_char ((a mod 4) * 16 + b / 16))
           (String (b64_char ((b mod 16) * 4)) "="))
  | a :: b :: c :: r =>
      String (b64_char (a / 4))
        (String (b64_char ((a mod 4) * 16 + b / 16))
           (String (b64_char ((b mod 16) * 4 + c / 64))
              (String (b64_char (c mod 64)) (b64encode r))))
  end%N.

(** the value of the Basic credential for a user and a password *)
Definition basic_credential (user pass : option string) : result string :=
  match encode_ascii (opt_str user ++ ":" ++ opt_str pass) with
  | Ok bytes => Ok ("Basic " ++ b64encode bytes)
  | Raise e => Raise e
  end.

(** ** HTTP exchanges *)

Inductive Method : Type := GET | POST.

Record Request : Type := mkRequest {
  req_method : Method;
  req_url : string;
  req_params : list (string * Z);          (* query parameters *)
  req_headers : list (string * string);    (* session headers merged with the call's *)
  req_data : list (string * option string);(* form body *)
  req_timeout : option Z;
  req_verify : bool
}.

Record Response : Type := mkResponse {
  status_code : Z;
  resp_url : string;                        (* final URL, after redirects *)
  resp_text : string;
  resp_json : option json;                  (* [None]: the body is not JSON *)
  resp_headers : list (string * string)
}.

Inductive Outcome : Type :=
| OSSLError                                 (* [requests.exceptions.SSLError] *)
| ONetworkError                             (* any other transport exception *)
| OResponse (r : Response).

(** [response.json()] *)
Definition response_json (r : Response) : result json :=
  match resp_json r with Some j => Ok j | None => Raise JSONDecodeError end.

(** [response.raise_for_status()] *)
Definition raise_for_status (r : Response) : result unit :=
  if (400 <=? status_code r) && (status_code r <? 600)
  then Raise (HTTPError (status_code r))
  else Ok tt.

(** per-call headers override the session's *)
Definition merge_headers (session extra : list (string * string))
  : list (string * string) :=
  fold_left (fun acc kv => dict_set (fst kv) (snd kv) acc) extra session.

(** ** Observable events *)

Inductive Level : Type := DEBUG | INFO | WARNING | ERROR.

Inductive Strategy : Type := Basic | WebLogin | JsonWS | OAuth2.

(** the four strategies in the order of [authenticate_comprehensive] *)
Definition strategy_order : list Strategy := [Basic; WebLogin; JsonWS; OAuth2].

Inductive Pattern : Type :=
| PatPAuth          (* the p_auth token of the login page *)
| PatCsrf           (* the csrf token of the login page, IGNORECASE *)
| PatAuthenticity   (* the authenticity_token of the login page *)
| PatCsrfLong.      (* a csrf token of at least 10 characters, IGNORECASE *)

Inductive Msg : Type :=
(* __init__ *)
| MSslDisabled | MSslEnabled
(* authenticate_comprehensive and the strategies *)
| MAuthStart
| MAuthWorked (s : Strategy)
| MNoStrategyWorked
| MTrying (s : Strategy)
| MSucceeded (s : Strategy) (user : string)
| MWebSeemsOk
| MTokensFound (p_auth csrf : string)
| MStrategyFailed (s : Strategy) (e : exn)
(* find_csrf_token *)
| MCsrfHeaderFound (tok : string)
| MCsrfContentFound (tok : string)
| MCsrfSourceError (url : string) (e : exn)
| MCsrfNotFound
(* make_request *)
| MDebugUrl (url : string)
| MDebugParams (params : list (string * Z))
| MDebugHeaders (headers : list (string * string))
| MDebugStatus (status : Z)
| MDebugResponseHeaders (headers : list (string * string))
| MDebugPreview (text : string)
| MSslError
| MSslHint
| MAccessDenied (url : string)
| MUnauthorized (url : string)
| MReauth
| MHttpError (status : Z) (url : string)
| MAttemptError (attempt : Z) (url : string) (e : exn)
(* test_api_access *)
| MTestingAccess
| MApiAccessible (url : string)
| MNoApiAccessible
(* collect_paginated_data *)
| MCollectStart (data_key : string)
| MTotals (data_key : string) (total_count total_pages : json)
| MNoRecords (data_key : string)
| MPageCollected (page : Z) (total_pages : json) (n : nat)
| MPageFailed (data_key : string) (page : Z)
| MCollectDone (data_key : string) (n : nat)
(* resource collectors *)
| MSaved (what : string) (n : nat) (filename : string)
| MFolderProgress (i : Z) (n : nat) (folder_name : string)
(* generate_summary_report *)
| MSummaryRule
| MSummaryTitle
| MSummaryStat (name : string) (value : Z)
| MSummarySavedAt (filename : string)
(* run_full_collection *)
| MRunStart
| MAccessAbort
| MRunDone
| MRunError (e : exn)
| MTraceback.

(** console lines of [main.py] *)
Inductive Out : Type :=
| PCredentialsRequired | PCredentialsHint
| PUsingCredentials (user : string)
| PCsrfGiven (prefix : string) | PCsrfAutomatic
| PSslOn | PSslOff
| PNothingSelected | PNothingSelectedHint | PNothingSelectedHelp
| PDryRun (selected : list string)
| PStarting | PSelected (n total : nat)
| PStep (what : string)
| PNoFoldersWarning | PNoFoldersHint
| PReport | PFinished (output_dir : string)
| PExecutionError (e : exn)
| PTraceback.

Inductive Event : Type :=
| EvLog (lvl : Level) (m : Msg)
| EvHttp (req : Request) (o : Outcome)
| EvSleep (seconds : Q)
| EvWrite (path : string) (content : json)
| EvMkdir (path : string)
| EvPrint (line : Out).

(** ** Observations on the events of a run *)

Definition level_eqb (a b : Level) : bool :=
  match a, b with
  | DEBUG, DEBUG | INFO, INFO | WARNING, WARNING | ERROR, ERROR => true
  | _, _ => false
  end.

(** the messages logged at a level, in order *)
Definition logged (lvl : Level) (evs : list Event) : list Msg :=
  flat_map (fun ev => match ev with
                      | EvLog l m => if level_eqb l lvl then [m] else []
                      | _ => []
                      end) evs.

(** the runs of [authenticate_comprehensive] that were started *)
Definition auth_runs (evs : list Event) : nat :=
  List.length
    (flat_map (fun ev => match ev with
                         | EvLog _ MAuthStart => [tt]
                         | _ => []
                         end) evs).

Definition is_auth_start (ev : Event) : bool :=
  match ev with EvLog _ MAuthStart => true | _ => false end.

(** the strategies that were attempted, in order *)
Definition attempted (evs : list Event) : list Strategy :=
  flat_map (fun ev => match ev with
                      | EvLog _ (MTrying s) => [s]
                      | _ => []
                      end) evs.

(** the strategies that reported success, in order *)
Definition succeeded (evs : list Event) : list Strategy :=
  flat_map (fun ev => match ev with
                      | EvLog _ (MSucceeded s _) => [s]
                      | EvLog _ MWebSeemsOk => [WebLogin]
                      | _ => []
                      end) evs.

(** the durations slept, in order *)
Definition sleeps (evs : list Event) : list Q :=
  flat_map (fun ev => match ev with EvSleep q => [q] | _ => [] end) evs.

(** the requests sent, in order *)
Definition requests (evs : list Event) : list Request :=
  flat_map (fun ev => match ev with EvHttp req _ => [req] | _ => [] end) evs.

(** the files written, in order *)
Definition writes (evs : list Event) : list (string * json) :=
  flat_map (fun ev => match ev with
                      | EvWrite path content => [(path, content)]
                      | _ => []
                      end) evs.

(** the requests that were sent with what came back, in order *)
Definition exchanges (evs : list Event) : list (Request * Outcome) :=
  flat_map (fun ev => match ev with
                      | EvHttp req o => [(req, o)]
                      | _ => []
                      end) evs.

(** the directories that were created *)
Definition mkdirs (evs : list Event) : list string :=
  flat_map (fun ev => match ev with
                      | EvMkdir path => [path]
                      | _ => []
                      end) evs.

(** the lines printed on the console *)
Definition printed (evs : list Event) : list Out :=
  flat_map (fun ev => match ev with
                      | EvPrint line => [line]
                      | _ => []
                      end) evs.

(** a request of [make_request]: the only ones sent with a timeout *)
Definition is_api_request (req : Request) : bool :=
  match req_timeout req with Some _ => true | None => false end.

(** the attempts of [make_request] with what the server answered *)
Definition api_attempts (evs : list Event) : list (Request * Outcome) :=
  flat_map (fun ev => match ev with
                      | EvHttp req o =>
                          if is_api_request req then [(req, o)] else []
                      | _ => []
                      end) evs.

(** the pages for which an API request was sent, one entry per attempt *)
Definition pages_attempted (evs : list Event) : list Z :=
  flat_map (fun ro => match dict_get "page" (req_params (fst ro)) with
                      | Some page => [page]
                      | None => []
                      end) (api_attempts evs).

(** the status of a response lets [raise_for_status] pass *)
Definition status_ok (r : Response) : bool :=
  negb ((400 <=? status_code r) && (status_code r <? 600)).

(** the body an attempt of [make_request] hands back, if it does *)
Definition fetched_body (o : Outcome) : option json :=
  match o with
  | OResponse r => if status_ok r then resp_json r else None
  | _ => None
  end.

(** the attempts of [make_request] that handed a body back *)
Definition fetches (evs : list Event) : list (Request * json) :=
  flat_map (fun ro => match fetched_body (snd ro) with
                      | Some j => [(fst ro, j)]
                      | None => []
                      end) (api_attempts evs).

(** how [make_request] reads what the server answered to an attempt *)
Definition tls_failure (o : Outcome) : bool :=
  match o with OSSLError => true | _ => false end.

(** a failure that is not a TLS failure: an HTTP error status, a transport
    exception or a body that does not parse *)
Definition retryable (o : Outcome) : bool :=
  negb (tls_failure o)
  && match fetched_body o with Some _ => false | None => true end.

(** the answer is a 401 or a 403 *)
Definition denied (o : Outcome) : bool :=
  match o with
  | OResponse r => (status_code r =? 403) || (status_code r =? 401)
  | _ => false
  end.

(** the events of [make_request] other than its attempts: log records that
    are not page reports, requests of the helpers, sleeps *)
Definition executor_event (ev : Event) : bool :=
  match ev with
  | EvLog _ (MPageCollected _ _ _) | EvLog _ (MPageFailed _ _) => false
  | EvLog _ _ => true
  | EvHttp req _ => is_nil (req_params req) && negb (is_api_request req)
  | EvSleep _ => true
  | _ => false
  end.

(** an event of [make_request url params]: an attempt, which carries the URL
    and the parameters, or one of the other events of the executor *)
Definition request_event (url : string) (params : list (string * Z))
    (ev : Event) : Prop :=
  executor_event ev = true
  \/ exists req o, ev = EvHttp req o /\ is_api_request req = true
                   /\ req_url req = url /\ req_params req = params.

(** the shape of an API request of [make_request url params] under the
    configuration [c]: a GET of the URL with the parameters, no form data, a
    timeout of 30 seconds, the configured certificate check, and the JSON
    [Accept] and [Content-Type] headers *)
Definition api_request_shape (verify : bool) (url : string)
    (params : list (string * Z)) (req : Request) : Prop :=
  req_method req = GET /\ req_url req = url /\ req_params req = params
  /\ req_data req = [] /\ req_timeout req = Some 30
  /\ req_verify req = verify
  /\ dict_get "Accept" (req_headers req) = Some "application/json"
  /\ dict_get "Content-Type" (req_headers req) = Some "application/json".

(** the sleep after the attempt number [k] *)
Definition backoff (k : nat) : Q := inject_Z (2 ^ Z.of_nat k).

(** the query parameter [page] of a request *)
Definition page_of (req : Request) : option Z := dict_get "page" (req_params req).

(** the envelope reports no record: [totalCount] is 0 or is missing *)
Definition zero_total (body : json) : bool :=
  truthy body
  && match py_get body "totalCount" (JNum 0) with
     | Ok total_count => py_eq_int total_count 0
     | Raise _ => false
     end.

(** the items [collect_paginated_data] takes from the body of a page: none
    from a body that is false or that, on page 1, reports no record *)
Definition items_taken (page : Z) (body : json) : list json :=
  if negb (truthy body) then []
  else if (page =? 1)
          && match py_get body "totalCount" (JNum 0) with
             | Ok total_count => py_eq_int total_count 0
             | Raise _ => false
             end
  then []
  else match py_get body "items" (JArr []) with
       | Ok v => match py_iter v with Ok l => l | Raise _ => [] end
       | Raise _ => []
       end.

Definition fetch_items (f : Request * json) : list json :=
  match page_of (fst f) with
  | Some page => items_taken page (snd f)
  | None => []
  end.

(** the items taken from the bodies that were handed back, in order *)
Definition items_fetched (evs : list Event) : list json :=
  flat_map fetch_items (fetches evs).

(** the pages whose body was handed back and is true, in order *)
Definition pages_fetched (evs : list Event) : list Z :=
  flat_map (fun f => match page_of (fst f) with
                     | Some page => if truthy (snd f) then [page] else []
                     | None => []
                     end) (fetches evs).

(** the pages reported as collected with their item counts, in order *)
Definition pages_collected (evs : list Event) : list (Z * nat) :=
  flat_map (fun ev => match ev with
                      | EvLog _ (MPageCollected page _ n) => [(page, n)]
                      | _ => []
                      end) evs.

(** the pages reported as failed with the level of the report, in order *)
Definition pages_failed (evs : list Event) : list (Level * Z) :=
  flat_map (fun ev => match ev with
                      | EvLog lvl (MPageFailed _ page) => [(lvl, page)]
                      | _ => []
                      end) evs.

(** the [k] pages from [first] on, and the pages 1, 2, ..., k *)
Definition pages_from (first : Z) (k : nat) : list Z :=
  map (fun i => first + Z.of_nat i) (seq 0 k).

Definition first_pages (k : nat) : list Z := pages_from 1 k.

(** the events of the helpers (authentication and token discovery): log
    records of their own and requests without query parameters and without
    a timeout *)
Definition helper_msg (m : Msg) : bool :=
  match m with
  | MAuthStart | MAuthWorked _ | MNoStrategyWorked | MTrying _
  | MSucceeded _ _ | MWebSeemsOk | MTokensFound _ _ | MStrategyFailed _ _
  | MCsrfHeaderFound _ | MCsrfContentFound _ | MCsrfSourceError _ _
  | MCsrfNotFound => true
  | _ => false
  end.

Definition helper_event (ev : Event) : bool :=
  match ev with
  | EvLog lvl m => helper_msg m && negb (level_eqb lvl ERROR)
  | EvHttp req _ => is_nil (req_params req) && negb (is_api_request req)
  | _ => false
  end.

(** a well-formed page envelope: an object whose [lastPage], when present, is
    a number and whose [items], when present, is an array of objects; a body
    that is false is handled as a failed fetch *)
Definition is_object (v : json) : bool :=
  match v with JObj _ => true | _ => false end.

Definition wf_envelope (body : json) : bool :=
  negb (truthy body)
  || match body with
     | JObj kvs =>
         match dict_get "lastPage" kvs with
         | Some (JNum _) | None => true
         | _ => false
         end
         && match dict_get "items" kvs with
            | Some (JArr l) => forallb is_object l
            | None => true
            | _ => false
            end
     | _ => false
     end.

Definition wf_outcome (o : Outcome) : bool :=
  match o with
  | OResponse r =>
      match resp_json r with Some body => wf_envelope body | None => true end
  | _ => true
  end.


(** every body that was handed back is a well-formed envelope *)
Definition bodies_wf (evs : list Event) : bool :=
  forallb (fun f => wf_envelope (snd f)) (fetches evs).

(** every page for which a request was sent was fetched or is reported as
    failed at level ERROR, and a page that is reported as failed is one for
    which a request was sent *)
Definition requested_ok (evs : list Event) : Prop :=
  Forall (fun p => In p (pages_fetched evs) \/ pages_failed evs = [(ERROR, p)])
    (pages_attempted evs)
  /\ (pages_failed evs = []
      \/ exists p, pages_failed evs = [(ERROR, p)]
                   /\ In p (pages_attempted evs)).

(** what a part of the page loop that starts at page [first] with the list
    [all] has done when it leaves the list [result]: [k] pages were fetched,
    in order; their items were appended, in order; the counts it logged add
    up to them; if a fetch failed, it is the one of the next page and it is
    reported at level ERROR; no file was written *)
Definition collected (first : Z) (all result : list json)
    (evs : list Event) (k : nat) : Prop :=
  result = (all ++ items_fetched evs)%list
  /\ pages_fetched evs = pages_from first k
  /\ List.length (items_fetched evs)
     = list_sum (map snd (pages_collected evs))
  /\ (pages_failed evs = []
      \/ pages_failed evs = [(ERROR, first + Z.of_nat k)])
  /\ writes evs = [].

(** ** The collector, its session and the remote server *)

Record Config : Type := mkConfig {
  base_url : string;
  site_id : string;
  username : option string;
  password : option string;
  output_dir : string;
  verify_ssl : bool
}.

(** [self.stats] (the start time is left out) *)
Record Stats : Type := mkStats {
  structured_contents : Z;
  content_folders : Z;
  site_pages : Z;
  document_folders : Z;
  documents : Z;
  errors : Z
}.

Definition stats_zero : Stats := mkStats 0 0 0 0 0 0.

(** the headers installed on the session by [__init__] *)
Definition default_headers : list (string * string) :=
  [("User-Agent",
    "Mozilla/5.0 (X11; Linux x86_64) AppleWebKit/537.36 (KHTML, like Gecko) Chrome/120.0.0.0 Safari/537.36");
   ("Accept", "application/json, text/plain, */*");
   ("Accept-Language", "pt-BR,pt;q=0.9,en;q=0.8");
   ("Accept-Encoding", "gzip, deflate, br");
   ("Connection", "keep-alive");
   ("Sec-Fetch-Dest", "empty");
   ("Sec-Fetch-Mode", "cors");
   ("Sec-Fetch-Site", "same-origin")].

(** the parsed command line of [main.py] *)
Record Args : Type := mkArgs {
  arg_base_url : string;
  arg_site_id : string;
  arg_username : option string;
  arg_password : option string;
  arg_csrf_token : option string;
  arg_output_dir : string;
  arg_verify_ssl : bool;
  arg_all : bool;
  arg_structured_contents : bool;
  arg_content_folders : bool;
  arg_site_pages : bool;
  arg_document_folders : bool;
  arg_documents : bool;
  arg_verbose : bool;
  arg_dry_run : bool
}.

(** one iteration of the page loop either leaves the loop or goes on *)
Inductive PageStep : Type :=
| Break (all_data : list json)
| Continue (total_pages : json) (all_data : list json).

(** what the collector runs against: the remote server and the library
    functions that are not modelled *)
Class Env : Type := mkEnv {
  ServerState : Type;
  (** the remote server: the outcome of a request and the state after it *)
  transport : ServerState -> Request -> Outcome * ServerState;
  (** [re.findall(pattern, text)] with the group of the pattern *)
  re_findall : Pattern -> string -> list string;
  (** [re.sub(r'[^\w\-_]', '_', s)] *)
  re_sub_nonword : string -> string;
  (** [s.lower()] *)
  str_lower : string -> string;
  (** [str(v)], as an f-string formats a parsed value *)
  py_str : json -> string
}.

Section Collector.

Context {env : Env}.

Record World : Type := mkWorld {
  cfg : Config;
  csrf_token : option string;
  session_headers : list (string * string);
  stats : Stats;
  remote : ServerState
}.

Definition set_csrf (tok : option string) (w : World) : World :=
  mkWorld (cfg w) tok (session_headers w) (stats w) (remote w).

Definition set_headers (h : list (string * string)) (w : World) : World :=
  mkWorld (cfg w) (csrf_token w) h (stats w) (remote w).

Definition set_stats (s : Stats) (w : World) : World :=
  mkWorld (cfg w) (csrf_token w) (session_headers w) s (remote w).

Definition set_remote (s : ServerState) (w : World) : World :=
  mkWorld (cfg w) (csrf_token w) (session_headers w) (stats w) s.

(** *** The monad: state, Python exceptions, events *)

Definition M (A : Type) : Type := World -> result A * World * list Event.

Definition ret {A : Type} (a : A) : M A := fun w => (Ok a, w, []).

Definition bind {A B : Type} (m : M A) (f : A -> M B) : M B :=
  fun w =>
    match m w with
    | (Ok a, w1, e1) =>
        match f a w1 with
        | (r, w2, e2) => (r, w2, (e1 ++ e2)%list)
        end
    | (Raise x, w1, e1) => (Raise x, w1, e1)
    end.

Definition raise {A : Type} (x : exn) : M A := fun w => (Raise x, w, []).

Definition lift {A : Type} (r : result A) : M A := fun w => (r, w, []).

(** [try: m  except Exception as e: h e] *)
Definition try_except {A : Type} (m : M A) (h : exn -> M A) : M A :=
  fun w =>
    match m w with
    | (Ok a, w1, e1) => (Ok a, w1, e1)
    | (Raise x, w1, e1) =>
        match h x w1 with
        | (r, w2, e2) => (r, w2, (e1 ++ e2)%list)
        end
    end.

Notation "x <- c1 ;; c2" := (bind c1 (fun x => c2))
  (at level 61, c1 at next level, right associativity).
Notation "c1 ;; c2" := (bind c1 (fun _ => c2))
  (at level 61, right associativity).

Definition get_world : M World := fun w => (Ok w, w, []).

Definition modify (f : World -> World) : M unit := fun w => (Ok tt, f w, []).

Definition emit (e : Event) : M unit := fun w => (Ok tt, w, [e]).

Definition log (lvl : Level) (m : Msg) : M unit := emit (EvLog lvl m).

Definition sleep (seconds : Q) : M unit := emit (EvSleep seconds).

(** [with open(path, 'w') as f: json.dump(content, f, ...)] *)
Definition write_json (path : string) (content : json) : M unit :=
  emit (EvWrite path content).

Definition when (b : bool) (m : M unit) : M unit := if b then m else ret tt.

(** [self.session.headers[k] = v] *)
Definition set_session_header (k v : string) : M unit :=
  modify (fun w => set_headers (dict_set k v (session_headers w)) w).

Definition bump_errors (s : Stats) : Stats :=
  mkStats (structured_contents s) (content_folders s) (site_pages s)
    (document_folders s) (documents s) (errors s + 1).

(** [self.stats['errors'] += 1] *)
Definition inc_errors : M unit :=
  modify (fun w => set_stats (bump_errors (stats w)) w).

(** [self.session.get/post(url, params=, headers=, data=, timeout=,
    verify=self.verify_ssl)] *)
Definition session_request (meth : Method) (url : string)
    (params : list (string * Z)) (extra : list (string * string))
    (data : list (string * option string)) (timeout : option Z) : M Response :=
  fun w =>
    let req := mkRequest meth url params
                 (merge_headers (session_headers w) extra) data timeout
                 (verify_ssl (cfg w)) in
    match transport (remote w) req with
    | (o, s') =>
        (match o with
         | OSSLError => Raise SSLError
         | ONetworkError => Raise ConnectionError
         | OResponse r => Ok r
         end, set_remote s' w, [EvHttp req o])
    end.

Definition session_get (url : string) : M Response :=
  session_request GET url [] [] [] None.

Definition has_credentials (w : World) : bool :=
  opt_truthy (username (cfg w)) && opt_truthy (password (cfg w)).

Definition current_user_url (w : World) : string :=
  base_url (cfg w) ++ "/api/jsonws/user/get-current-user".

(** *** Authentication strategies *)

Definition try_basic_auth : M bool :=
  try_except
    (log INFO (MTrying Basic) ;;
     w <- get_world ;;
     let auth_string :=
       opt_str (username (cfg w)) ++ ":" ++ opt_str (password (cfg w)) in
     auth_bytes <- lift (encode_ascii auth_string) ;;
     let auth_b64 := b64encode auth_bytes in
     set_session_header "Authorization" ("Basic " ++ auth_b64) ;;
     response <- session_get (current_user_url w) ;;
     if status_code response =? 200 then
       user_data <- lift (response_json response) ;;
       name <- lift (py_get user_data "screenName" (JStr "N/A")) ;;
       log INFO (MSucceeded Basic (py_str name)) ;;
       ret true
     else ret false)
    (fun e => log DEBUG (MStrategyFailed Basic e) ;; ret false).

Definition first_match (l : list string) : string := hd "" l.

Definition try_web_login : M bool :=
  try_except
    (log INFO (MTrying WebLogin) ;;
     w <- get_world ;;
     let login_url := base_url (cfg w) ++ "/c/portal/login" in
     response <- session_get login_url ;;
     if negb (status_code response =? 200) then ret false
     else
       let html := resp_text response in
       let p_auth := first_match (re_findall PatPAuth html) in
       let csrf := first_match (re_findall PatCsrf html) in
       let auth_token := first_match (re_findall PatAuthenticity html) in
       log DEBUG (MTokensFound (str_take 10 p_auth) (str_take 10 csrf)) ;;
       let login_data :=
         [("login", username (cfg w)); ("password", password (cfg w));
          ("rememberMe", Some "false")] in
       let login_data :=
         if str_truthy p_auth
         then dict_set "p_auth" (Some p_auth) login_data else login_data in
       let login_data :=
         if str_truthy csrf
         then dict_set "csrf_token" (Some csrf) login_data else login_data in
       when (str_truthy csrf) (modify (set_csrf (Some csrf))) ;;
       let login_data :=
         if str_truthy auth_token
         then dict_set "authenticity_token" (Some auth_token) login_data
         else login_data in
       let login_headers :=
         [("Content-Type", "application/x-www-form-urlencoded");
          ("Referer", login_url); ("Origin", base_url (cfg w))] in
       login_response <-
         session_request POST login_url [] login_headers login_data None ;;
       if (status_code login_response =? 200)
          && negb (contains "error" (resp_url login_response))
       then
         user_response <- session_get (current_user_url w) ;;
         confirmed <-
           (if status_code user_response =? 200 then
              try_except
                (user_data <- lift (response_json user_response) ;;
                 name <- lift (py_get user_data "screenName" (JStr "N/A")) ;;
                 log INFO (MSucceeded WebLogin (py_str name)) ;;
                 ret true)
                (fun _ => ret false)
            else ret false) ;;
         if confirmed : bool then ret true
         else
           let page := str_lower (resp_text login_response) in
           if negb (contains "sign-in" page) && negb (contains "login" page)
           then log INFO MWebSeemsOk ;; ret true
           else ret false
       else ret false)
    (fun e => log DEBUG (MStrategyFailed WebLogin e) ;; ret false).

Definition try_jsonws_login : M bool :=
  try_except
    (log INFO (MTrying JsonWS) ;;
     w <- get_world ;;
     let login_url := base_url (cfg w) ++ "/api/jsonws/user/authenticate" in
     let user_agent :=
       match dict_get "User-Agent" (session_headers w) with
       | Some ua => ua
       | None => ""
       end in
     let login_data :=
       [("companyId", Some ""); ("login", username (cfg w));
        ("password", password (cfg w)); ("remoteAddr", Some "");
        ("remoteHost", Some ""); ("userAgent", Some user_agent)] in
     response <- session_request POST login_url [] [] login_data None ;;
     if status_code response =? 200 then
       log INFO (MSucceeded JsonWS "") ;; ret true
     else ret false)
    (fun e => log DEBUG (MStrategyFailed JsonWS e) ;; ret false).

Definition try_oauth2 : M bool :=
  try_except
    (log INFO (MTrying OAuth2) ;;
     w <- get_world ;;
     let oauth_url := base_url (cfg w) ++ "/o/oauth2/token" in
     let oauth_data :=
       [("grant_type", Some "password"); ("username", username (cfg w));
        ("password", password (cfg w)); ("client_id", Some "headless-server")] in
     response <- session_request POST oauth_url [] [] oauth_data None ;;
     if status_code response =? 200 then
       token_data <- lift (response_json response) ;;
       access_token <- lift (py_get token_data "access_token" JNull) ;;
       if truthy access_token then
         set_session_header "Authorization" ("Bearer " ++ py_str access_token) ;;
         log INFO (MSucceeded OAuth2 "") ;;
         ret true
       else ret false
     else ret false)
    (fun e => log DEBUG (MStrategyFailed OAuth2 e) ;; ret false).

Definition authenticate_comprehensive : M unit :=
  log INFO MAuthStart ;;
  b1 <- try_basic_auth ;;
  if b1 : bool then log INFO (MAuthWorked Basic)
  else
    b2 <- try_web_login ;;
    if b2 : bool then log INFO (MAuthWorked WebLogin)
    else
      b3 <- try_jsonws_login ;;
      if b3 : bool then log INFO (MAuthWorked JsonWS)
      else
        b4 <- try_oauth2 ;;
        if b4 : bool then log INFO (MAuthWorked OAuth2)
        else log WARNING MNoStrategyWorked.

(** *** CSRF token discovery *)

Definition csrf_sources (w : World) : list string :=
  [base_url (cfg w) ++ "/";
   base_url (cfg w) ++ "/web/guest";
   base_url (cfg w) ++ "/group/control_panel";
   base_url (cfg w) ++ "/api/jsonws"].

Definition install_csrf (tok : string) : M unit :=
  modify (set_csrf (Some tok)) ;;
  set_session_header "X-CSRF-Token" tok.

(** the body of the loop of [find_csrf_token]; [true] stands for [return] *)
Definition find_csrf_at (url : string) : M bool :=
  try_except
    (response <- session_get url ;;
     if status_code response =? 200 then
       let csrf_header :=
         match header_get "X-CSRF-Token" (resp_headers response) with
         | Some h => h
         | None => ""
         end in
       if str_truthy csrf_header then
         install_csrf csrf_header ;;
         log INFO (MCsrfHeaderFound (str_take 10 csrf_header)) ;;
         ret true
       else
         match re_findall PatCsrfLong (resp_text response) with
         | tok :: _ =>
             install_csrf tok ;;
             log INFO (MCsrfContentFound (str_take 10 tok)) ;;
             ret true
         | [] => ret false
         end
     else ret false)
    (fun e => log DEBUG (MCsrfSourceError url e) ;; ret false).

Fixpoint find_csrf_in (urls : list string) : M bool :=
  match urls with
  | [] => ret false
  | url :: rest =>
      found <- find_csrf_at url ;;
      if found : bool then ret true else find_csrf_in rest
  end.

Definition find_csrf_token : M unit :=
  w <- get_world ;;
  found <- find_csrf_in (csrf_sources w) ;;
  if found : bool then ret tt else log WARNING MCsrfNotFound.

(** *** The request executor *)

Definition api_headers (w : World) : list (string * string) :=
  let h := [("Accept", "application/json");
            ("Content-Type", "application/json")] in
  match csrf_token w with
  | Some tok => if str_truthy tok then dict_set "X-CSRF-Token" tok h else h
  | None => h
  end.

(** [if attempt < max_retries - 1: sleep(2 ** attempt)
     else: errors += 1; return None] *)
Definition backoff_or_give_up (max_retries attempt : Z) : M (option json) :=
  if attempt <? max_retries - 1 then
    sleep (inject_Z (2 ^ attempt)) ;; ret None
  else
    inc_errors ;; ret (Some JNull).

Definition reauthenticate (attempt : Z) : M unit :=
  when (attempt =? 0)
    (log INFO MReauth ;;
     w <- get_world ;;
     when (has_credentials w) authenticate_comprehensive).

(** one iteration of the loop of [make_request]: [Some j] stands for
    [return j], [None] for going on with the next attempt *)
Definition request_attempt (url : string) (params : list (string * Z))
    (max_retries attempt : Z) : M (option json) :=
  try_except
    (w <- get_world ;;
     response <- session_request GET url params (api_headers w) [] (Some 30) ;;
     when (negb (status_code response =? 200) && (attempt =? 0))
       (log DEBUG (MDebugUrl url) ;;
        log DEBUG (MDebugParams params) ;;
        log DEBUG (MDebugHeaders (api_headers w)) ;;
        log DEBUG (MDebugStatus (status_code response)) ;;
        log DEBUG (MDebugResponseHeaders (resp_headers response)) ;;
        log DEBUG (MDebugPreview (str_take 200 (resp_text response)))) ;;
     lift (raise_for_status response) ;;
     j <- lift (response_json response) ;;
     ret (Some j))
    (fun e =>
       match e with
       | SSLError =>
           log ERROR MSslError ;;
           w <- get_world ;;
           when (verify_ssl (cfg w)) (log WARNING MSslHint) ;;
           ret (Some JNull)
       | HTTPError status =>
           (if status =? 403 then
              log WARNING (MAccessDenied url) ;; reauthenticate attempt
            else if status =? 401 then
              log WARNING (MUnauthorized url) ;; reauthenticate attempt
            else log WARNING (MHttpError status url)) ;;
           backoff_or_give_up max_retries attempt
       | _ =>
           log WARNING (MAttemptError (attempt + 1) url e) ;;
           backoff_or_give_up max_retries attempt
       end).

(** [for attempt in range(max_retries)], from [attempt] on, [n] iterations
    left; falling off the loop returns [None] *)
Fixpoint request_attempts (url : string) (params : list (string * Z))
    (max_retries : Z) (n : nat) (attempt : Z) : M json :=
  match n with
  | O => ret JNull
  | S n' =>
      r <- request_attempt url params max_retries attempt ;;
      match r with
      | Some j => ret j
      | None => request_attempts url params max_retries n' (attempt + 1)
      end
  end.

(** [None] is [JNull] *)
Definition make_request (url : string) (params : list (string * Z))
    (max_retries : Z) : M json :=
  w <- get_world ;;
  when (negb (opt_truthy (csrf_token w))) find_csrf_token ;;
  request_attempts url params max_retries (Z.to_nat max_retries) 0.

Definition test_urls (w : World) : list string :=
  [base_url (cfg w) ++ "/o/headless-delivery/v1.0/sites/" ++ site_id (cfg w);
   base_url (cfg w) ++ "/o/headless-delivery/v1.0/sites";
   base_url (cfg w) ++ "/api/jsonws/user/get-current-user"].

Fixpoint test_api_access_in (urls : list string) : M bool :=
  match urls with
  | [] => log ERROR MNoApiAccessible ;; ret false
  | test_url :: rest =>
      response <- make_request test_url [] 3 ;;
      if truthy response then
        log INFO (MApiAccessible test_url) ;; ret true
      else test_api_access_in rest
  end.

Definition test_api_access : M bool :=
  log INFO MTestingAccess ;;
  w <- get_world ;;
  test_api_access_in (test_urls w).

(** *** The paginated collector *)

(** [{'page': page, 'pageSize': page_size}] *)
Definition page_params (page page_size : Z) : list (string * Z) :=
  [("page", page); ("pageSize", page_size)].

(** the first page, lines 422 to 430: the totals of the envelope; [None]
    stands for [break] *)
Definition read_totals (data_key : string) (data : json) : M (option json) :=
  total_count <- lift (py_get data "totalCount" (JNum 0)) ;;
  last_page <- lift (py_get data "lastPage" (JNum 1)) ;;
  log INFO (MTotals data_key total_count last_page) ;;
  if py_eq_int total_count 0 then
    log WARNING (MNoRecords data_key) ;; ret None
  else ret (Some last_page).

(** lines 432 to 443: the items of the page and the test for more pages *)
Definition take_items (data : json) (page : Z) (total_pages : json)
    (all_data : list json) : M PageStep :=
  items_value <- lift (py_get data "items" (JArr [])) ;;
  items <- lift (py_iter items_value) ;;
  let all_data := (all_data ++ items)%list in
  log INFO (MPageCollected page total_pages (List.length items)) ;;
  last <- lift (py_int_ge page total_pages) ;;
  if last : bool then ret (Break all_data)
  else sleep (1 # 2) ;; ret (Continue total_pages all_data).

(** the body of the [while True] loop of [collect_paginated_data] *)
Definition page_step (endpoint data_key : string) (page_size page : Z)
    (total_pages : json) (all_data : list json) : M PageStep :=
  w <- get_world ;;
  let url := base_url (cfg w) ++ endpoint in
  data <- make_request url (page_params page page_size) 3 ;;
  if negb (truthy data) then
    log ERROR (MPageFailed data_key page) ;; ret (Break all_data)
  else
    first <- (if page =? 1 then read_totals data_key data
              else ret (Some total_pages)) ;;
    match first with
    | None => ret (Break all_data)
    | Some total_pages => take_items data page total_pages all_data
    end.

(** the loop from the second page on; [fuel] bounds the iterations *)
Fixpoint page_loop (endpoint data_key : string) (page_size : Z) (fuel : nat)
    (page : Z) (total_pages : json) (all_data : list json) : M (list json) :=
  match fuel with
  | O => raise LoopFuel
  | S fuel' =>
      r <- page_step endpoint data_key page_size page total_pages all_data ;;
      match r with
      | Break d => ret d
      | Continue tp d =>
          page_loop endpoint data_key page_size fuel' (page + 1) tp d
      end
  end.

(** the pages after the first one, for the [lastPage] of the first page *)
Definition pages_left (total_pages : json) : nat :=
  match total_pages with
  | JNum n => Z.to_nat (n - 1)
  | _ => O
  end.

Definition collect_paginated_data (endpoint data_key : string)
    (page_size : Z) : M (list json) :=
  log INFO (MCollectStart data_key) ;;
  first <- page_step endpoint data_key page_size 1 JNull [] ;;
  all_data <-
    match first with
    | Break d => ret d
    | Continue tp d =>
        page_loop endpoint data_key page_size (pages_left tp) 2 tp d
    end ;;
  log INFO (MCollectDone data_key (List.length all_data)) ;;
  ret all_data.

(** *** Resource collectors *)

Definition len (l : list json) : Z := Z.of_nat (List.length l).

Definition set_structured_contents (n : Z) (s : Stats) : Stats :=
  mkStats n (content_folders s) (site_pages s) (document_folders s)
    (documents s) (errors s).

Definition set_content_folders (n : Z) (s : Stats) : Stats :=
  mkStats (structured_contents s) n (site_pages s) (document_folders s)
    (documents s) (errors s).

Definition set_site_pages (n : Z) (s : Stats) : Stats :=
  mkStats (structured_contents s) (content_folders s) n (document_folders s)
    (documents s) (errors s).

Definition set_document_folders (n : Z) (s : Stats) : Stats :=
  mkStats (structured_contents s) (content_folders s) (site_pages s) n
    (documents s) (errors s).

Definition set_documents (n : Z) (s : Stats) : Stats :=
  mkStats (structured_contents s) (content_folders s) (site_pages s)
    (document_folders s) n (errors s).

(** [if data:] write the file, record the count, log *)
Definition save_dataset (data : list json) (file what : string)
    (record : Z -> Stats -> Stats) : M unit :=
  when (negb (is_nil data))
    (w <- get_world ;;
     let filename := path_join (output_dir (cfg w)) file in
     write_json filename (JArr data) ;;
     modify (fun w => set_stats (record (len data) (stats w)) w) ;;
     log INFO (MSaved what (List.length data) filename)).

Definition site_endpoint (w : World) (resource : string) : string :=
  "/o/headless-delivery/v1.0/sites/" ++ site_id (cfg w) ++ "/" ++ resource.

Definition collect_structured_contents : M unit :=
  w <- get_world ;;
  data <- collect_paginated_data (site_endpoint w "structured-contents")
            "conteudos estruturados" 20 ;;
  save_dataset data "structured_contents.json" "conteudos estruturados"
    set_structured_contents.

Definition collect_content_folders : M unit :=
  w <- get_world ;;
  data <- collect_paginated_data (site_endpoint w "structured-content-folders")
            "pastas de conteudo" 10 ;;
  save_dataset data "content_folders.json" "pastas de conteudo"
    set_content_folders.

Definition collect_site_pages : M unit :=
  w <- get_world ;;
  data <- collect_paginated_data (site_endpoint w "site-pages")
            "paginas do site" 10 ;;
  save_dataset data "site_pages.json" "paginas do site" set_site_pages.

Definition collect_document_folders : M (list json) :=
  w <- get_world ;;
  folders <- collect_paginated_data (site_endpoint w "document-folders")
               "pastas de documentos" 20 ;;
  save_dataset folders "document_folders.json" "pastas de documentos"
    set_document_folders ;;
  ret folders.

(** the back-reference every document of a folder receives *)
Definition source_folder (folder_id folder_name : json) : json :=
  JObj [("id", folder_id); ("name", folder_name)].

(** [for doc in documents: doc['source_folder'] = {...}] *)
Fixpoint annotate (folder_id folder_name : json) (docs : list json)
  : result (list json) :=
  match docs with
  | [] => Ok []
  | doc :: rest =>
      match py_setitem doc "source_folder"
              (source_folder folder_id folder_name) with
      | Raise e => Raise e
      | Ok doc' =>
          match annotate folder_id folder_name rest with
          | Raise e => Raise e
          | Ok rest' => Ok (doc' :: rest')
          end
      end
  end.

(** [re.sub(...)] wants a string *)
Definition safe_name (folder_name : json) : result string :=
  match folder_name with
  | JStr s => Ok (str_take 50 (re_sub_nonword s))
  | _ => Raise TypeError
  end.

Definition folder_file (w : World) (folder_id : json) (safe : string) : string :=
  path_join (output_dir (cfg w))
    ("documents_folder_" ++ py_str folder_id ++ "_" ++ safe ++ ".json").

(** the loop of [collect_documents_from_folders], [i] the running index of
    [enumerate(folders, 1)] and [total] the number of folders *)
Fixpoint documents_loop (folders : list json) (i : Z) (total : nat)
    (all_documents : list json) : M (list json) :=
  match folders with
  | [] => ret all_documents
  | folder :: rest =>
      folder_id <- lift (py_get folder "id" JNull) ;;
      folder_name <-
        lift (py_get folder "name" (JStr ("Pasta_" ++ py_str folder_id))) ;;
      log INFO (MFolderProgress i total (py_str folder_name)) ;;
      let endpoint :=
        "/o/headless-delivery/v1.0/document-folders/" ++ py_str folder_id
        ++ "/documents" in
      collected <-
        collect_paginated_data endpoint
          ("documentos da pasta " ++ py_str folder_name) 20 ;;
      docs <- lift (annotate folder_id folder_name collected) ;;
      let all_documents := (all_documents ++ docs)%list in
      when (negb (is_nil docs))
        (safe <- lift (safe_name folder_name) ;;
         w <- get_world ;;
         write_json (folder_file w folder_id safe) (JArr docs)) ;;
      documents_loop rest (i + 1) total all_documents
  end.

Definition collect_documents_from_folders (folders : list json) : M unit :=
  all_documents <- documents_loop folders 1 (List.length folders) [] ;;
  save_dataset all_documents "all_documents.json" "documentos" set_documents.

(** *** Summary and the run coordinator *)

(** the report; the two entries that hold the time of the run and its
    duration, and the log line of the duration, are read from the clock and
    are left out *)
Definition summary (w : World) : json :=
  JObj
    [("estatisticas",
      JObj [("conteudos_estruturados", JNum (structured_contents (stats w)));
            ("pastas_de_conteudo", JNum (content_folders (stats w)));
            ("paginas_do_site", JNum (site_pages (stats w)));
            ("pastas_de_documentos", JNum (document_folders (stats w)));
            ("documentos", JNum (documents (stats w)));
            ("erros", JNum (errors (stats w)))]);
     ("configuracao",
      JObj [("base_url", JStr (base_url (cfg w)));
            ("site_id", JStr (site_id (cfg w)));
            ("output_dir", JStr (output_dir (cfg w)));
            ("username", opt_json (username (cfg w)));
            ("verify_ssl", JBool (verify_ssl (cfg w)));
            ("csrf_token_obtido", JBool (opt_truthy (csrf_token w)))])].

Definition summary_file (w : World) : string :=
  path_join (output_dir (cfg w)) "summary_report.json".

Definition generate_summary_report : M unit :=
  w <- get_world ;;
  write_json (summary_file w) (summary w) ;;
  log INFO MSummaryRule ;;
  log INFO MSummaryTitle ;;
  log INFO MSummaryRule ;;
  log INFO (MSummaryStat "structured_contents" (structured_contents (stats w))) ;;
  log INFO (MSummaryStat "content_folders" (content_folders (stats w))) ;;
  log INFO (MSummaryStat "site_pages" (site_pages (stats w))) ;;
  log INFO (MSummaryStat "document_folders" (document_folders (stats w))) ;;
  log INFO (MSummaryStat "documents" (documents (stats w))) ;;
  log INFO (MSummaryStat "errors" (errors (stats w))) ;;
  log INFO (MSummarySavedAt (summary_file w)).

(** steps 1 to 5 of [run_full_collection] *)
Definition collection_steps : M unit :=
  collect_structured_contents ;;
  collect_content_folders ;;
  collect_site_pages ;;
  document_folders <- collect_document_folders ;;
  when (negb (is_nil document_folders))
    (collect_documents_from_folders document_folders).

Definition run_full_collection : M bool :=
  log INFO MRunStart ;;
  accessible <- test_api_access ;;
  if negb accessible then
    log ERROR MAccessAbort ;; ret false
  else
    try_except
      (collection_steps ;;
       generate_summary_report ;;
       log INFO MRunDone ;;
       ret true)
      (fun e =>
         log ERROR (MRunError e) ;;
         log DEBUG MTraceback ;;
         ret false).

(** *** Construction and the command line *)

(** the object at the start of [__init__], before it authenticates *)
Definition fresh_collector (base site : string) (user pass csrf : option string)
    (out : string) (verify : bool) (server : ServerState) : World :=
  mkWorld (mkConfig (rstrip_slash base) site user pass out verify)
    csrf default_headers stats_zero server.

(** [LiferayAPICollector.__init__] past the field assignments;
    [os.makedirs] of the empty path raises [FileNotFoundError] *)
Definition init_collector : M unit :=
  w <- get_world ;;
  log INFO (if verify_ssl (cfg w) then MSslEnabled else MSslDisabled) ;;
  (if String.eqb (output_dir (cfg w)) "" then raise FileNotFoundError
   else emit (EvMkdir (output_dir (cfg w)))) ;;
  when (has_credentials w) authenticate_comprehensive ;;
  modify (set_stats stats_zero).

Definition collect_options (a : Args) : list (string * bool) :=
  if arg_all a then
    [("structured_contents", true); ("content_folders", true);
     ("site_pages", true); ("document_folders", true); ("documents", true)]
  else
    [("structured_contents", arg_structured_contents a);
     ("content_folders", arg_content_folders a);
     ("site_pages", arg_site_pages a);
     ("document_folders", arg_document_folders a);
     ("documents", arg_documents a)].

Definition option_on (name : string) (opts : list (string * bool)) : bool :=
  match dict_get name opts with Some b => b | None => false end.

Definition selected (opts : list (string * bool)) : list string :=
  map fst (filter snd opts).

(** the [try] block of [main] after the collector is built *)
Definition run_selected (opts : list (string * bool)) (out : string) : M unit :=
  emit (EvPrint PStarting) ;;
  emit (EvPrint (PSelected (List.length (selected opts)) (List.length opts))) ;;
  when (option_on "structured_contents" opts)
    (emit (EvPrint (PStep "structured_contents")) ;;
     collect_structured_contents) ;;
  when (option_on "content_folders" opts)
    (emit (EvPrint (PStep "content_folders")) ;; collect_content_folders) ;;
  when (option_on "site_pages" opts)
    (emit (EvPrint (PStep "site_pages")) ;; collect_site_pages) ;;
  document_folders <-
    (if option_on "document_folders" opts then
       emit (EvPrint (PStep "document_folders")) ;; collect_document_folders
     else ret []) ;;
  (if option_on "documents" opts && negb (is_nil document_folders) then
     emit (EvPrint (PStep "documents")) ;;
     collect_documents_from_folders document_folders
   else if option_on "documents" opts && is_nil document_folders then
     emit (EvPrint PNoFoldersWarning) ;; emit (EvPrint PNoFoldersHint)
   else ret tt) ;;
  emit (EvPrint PReport) ;;
  generate_summary_report ;;
  emit (EvPrint (PFinished out)).

(** [main()] of [main.py] on the parsed arguments: the exit status of the
    process, the server state it leaves and the events of the run.  A return
    from [main] ends the process with status 0, [sys.exit(1)] with status 1. *)
Definition main (a : Args) (server : ServerState)
  : Z * ServerState * list Event :=
  if negb (opt_truthy (arg_username a)) || negb (opt_truthy (arg_password a))
  then (0, server,
        [EvPrint PCredentialsRequired; EvPrint PCredentialsHint])
  else
    let banner :=
      [EvPrint (PUsingCredentials (opt_str (arg_username a)));
       EvPrint (if opt_truthy (arg_csrf_token a)
                then PCsrfGiven (str_take 10 (opt_str (arg_csrf_token a)))
                else PCsrfAutomatic);
       EvPrint (if arg_verify_ssl a then PSslOn else PSslOff)] in
    let opts := collect_options a in
    if negb (existsb snd opts) then
      (0, server,
       (banner ++ [EvPrint PNothingSelected; EvPrint PNothingSelectedHint;
                   EvPrint PNothingSelectedHelp])%list)
    else if arg_dry_run a then
      (0, server, (banner ++ [EvPrint (PDryRun (selected opts))])%list)
    else
      let w0 := fresh_collector (arg_base_url a) (arg_site_id a)
                  (arg_username a) (arg_password a) (arg_csrf_token a)
                  (arg_output_dir a) (arg_verify_ssl a) server in
      match (init_collector ;; run_selected opts (arg_output_dir a)) w0 with
      | (Ok _, w, evs) => (0, remote w, (banner ++ evs)%list)
      | (Raise e, w, evs) =>
          (1, remote w,
           (banner ++ evs ++ EvPrint (PExecutionError e)
              :: (if arg_verbose a then [EvPrint PTraceback] else []))%list)
      end.

(** *** The parts of a run *)

(** what the attempts of one [make_request] say about its result [j] and
    about the statistics before and after: all attempts but the last failed
    without a TLS failure; a body of the last one is the result; after a TLS
    failure the result is [None] and nothing is counted; after a last failure
    of another kind the budget of [n] attempts is used up and one error is
    counted *)
Definition attempts_verdict (n : nat) (atts : list (Request * Outcome))
    (j : json) (s s' : Stats) : Prop :=
  (atts = [] /\ n = O /\ j = JNull /\ s' = s)
  \/ exists init req o,
       atts = (init ++ [(req, o)])%list
       /\ forallb retryable (map snd init) = true
       /\ (List.length atts <= n)%nat
       /\ match fetched_body o with
          | Some b => j = b /\ s' = s
          | None =>
              j = JNull
              /\ if tls_failure o then s' = s
                 else s' = bump_errors s /\ List.length atts = n
          end.


Definition result_of {A : Type} (x : result A * World * list Event) : result A :=
  fst (fst x).

Definition world_of {A : Type} (x : result A * World * list Event) : World :=
  snd (fst x).

Definition events_of {A : Type} (x : result A * World * list Event)
  : list Event := snd x.

(** the method that carries out a strategy *)
Definition strategy_run (s : Strategy) : M bool :=
  match s with
  | Basic => try_basic_auth
  | WebLogin => try_web_login
  | JsonWS => try_jsonws_login
  | OAuth2 => try_oauth2
  end.

Definition returned_true (r : result bool * World * list Event) : bool :=
  match result_of r with Ok true => true | _ => false end.

(** the strategies [ss] carried out one after the other from the state [w],
    each from the state the one before it left, up to and including the
    first one that returns [True]: each strategy with its run *)
Fixpoint strategy_runs (ss : list Strategy) (w : World)
  : list (Strategy * (result bool * World * list Event)) :=
  match ss with
  | [] => []
  | s :: rest =>
      let r := strategy_run s w in
      (s, r) :: (if returned_true r then []
                 else strategy_runs rest (world_of r))
  end.

(** what one iteration of the page loop at [page] has done: it left the loop
    after at most one page, or it goes on after exactly one page and then
    [lastPage] is a number above [page], or it raised on a body that is not
    a well-formed envelope *)
Definition step_ok (page : Z) (total_pages : json) (all : list json)
    (r : result PageStep) (evs : list Event) : Prop :=
  match r with
  | Ok (Break d) => exists k, (k <= 1)%nat /\ collected page all d evs k
  | Ok (Continue tp d) =>
      collected page all d evs 1 /\ pages_failed evs = []
      /\ exists n, tp = JNum n /\ page < n /\ (page <> 1 -> tp = total_pages)
  | Raise e => e <> LoopFuel /\ bodies_wf evs = false
  end.

(** what the page loop from [page] on has done *)
Definition loop_ok (page : Z) (all : list json) (r : result (list json))
    (evs : list Event) : Prop :=
  match r with
  | Ok d => exists k, collected page all d evs k
  | Raise e => e <> LoopFuel /\ bodies_wf evs = false
  end.

(** the fields of an envelope as [.get] reads them *)
Definition field (kvs : list (string * json)) (k : string) (default : json)
  : json :=
  match dict_get k kvs with Some v => v | None => default end.

(** the identifier and the name [collect_documents_from_folders] reads from
    a folder record *)
Definition folder_id (folder : json) : json :=
  match folder with JObj kvs => field kvs "id" JNull | _ => JNull end.

Definition folder_name (folder : json) : json :=
  match folder with
  | JObj kvs => field kvs "name" (JStr ("Pasta_" ++ py_str (folder_id folder)))
  | _ => JNull
  end.





(** the token that the answer of a source of [find_csrf_token] yields:
    under status 200, the header [X-CSRF-Token] when it is not empty, else
    the first match of the pattern in the text; nothing otherwise *)
Definition source_token (o : Outcome) : option string :=
  match o with
  | OResponse r =>
      if status_code r =? 200 then
        let csrf_header :=
          match header_get "X-CSRF-Token" (resp_headers r) with
          | Some h => h
          | None => ""
          end in
        if str_truthy csrf_header then Some csrf_header
        else hd_error (re_findall PatCsrfLong (resp_text r))
      else None
  | _ => None
  end.

Definition yields_nothing (o : Outcome) : bool :=
  match source_token o with Some _ => false | None => true end.

(** the file a resource collector writes for the records [data]: none when
    there is no record *)
Definition dataset_write (c : Config) (file : string) (data : list json)
  : list (string * json) :=
  if is_nil data then [] else [(path_join (output_dir c) file, JArr data)].

(** what a resource collector that saves to [file] and records with [record]
    has done in [run], started in [w]: the records it fetched are written to
    the file, when there are any, and their number is recorded; besides that
    the statistics changed by at most one counted error *)
Definition dataset_saved {A : Type} (file : string)
    (record : Z -> Stats -> Stats) (w : World)
    (run : result A * World * list Event) : Prop :=
  let data := items_fetched (events_of run) in
  cfg (world_of run) = cfg w
  /\ writes (events_of run) = dataset_write (cfg w) file data
  /\ exists s,
       (s = stats w \/ s = bump_errors (stats w))
       /\ stats (world_of run)
          = if is_nil data then s else record (len data) s.

(** the collectors of the site resources that return nothing, each with its
    file and with the counter it records *)
Definition site_collectors
  : list (M unit * string * (Z -> Stats -> Stats)) :=
  [(collect_structured_contents, "structured_contents.json",
    set_structured_contents);
   (collect_content_folders, "content_folders.json", set_content_folders);
   (collect_site_pages, "site_pages.json", set_site_pages)].

(** [I] holds again after a run from a state with [I], and every event of
    the run has [E] *)
Definition keeps (I : World -> Prop) (E : Event -> Prop) {A : Type}
    (m : M A) : Prop :=
  forall w, I w -> I (world_of (m w)) /\ Forall E (events_of (m w)).

(** the header [Authorization] holds the Basic credential [cred], or a
    Bearer token that OAuth2 has put in its place *)
Definition auth_kept (cred : string) (headers : list (string * string))
  : Prop :=
  dict_get "Authorization" headers = Some cred
  \/ exists tok, dict_get "Authorization" headers = Some ("Bearer " ++ tok).

(** [cred] is the Basic credential of the collector and its session has it *)
Definition credential_kept (cred : string) (w : World) : Prop :=
  basic_credential (username (cfg w)) (password (cfg w)) = Ok cred
  /\ auth_kept cred (session_headers w).

(** an event that is a request carries the credential *)
Definition carries (cred : string) (ev : Event) : Prop :=
  match ev with
  | EvHttp req _ => auth_kept cred (req_headers req)
  | _ => True
  end.

Definition same_config (c : Config) (w : World) : Prop := cfg w = c.

(** an event that is a file write does not write the summary report *)
Definition not_summary (c : Config) (ev : Event) : Prop :=
  match ev with
  | EvWrite path _ => path <> path_join (output_dir c) "summary_report.json"
  | _ => True
  end.

(** the contents written to the summary report, in order *)
Definition summary_writes (c : Config) (evs : list Event) : list json :=
  map snd
    (filter
       (fun f => String.eqb (fst f)
                   (path_join (output_dir c) "summary_report.json"))
       (writes evs)).

(** a run of the selected steps of [main]: either a step raised before the
    report, and no event so far writes the summary report; or the steps
    returned and the run ends with the report: the line that announces it,
    the events of [generate_summary_report] and the closing line *)
Definition reported (c : Config) (out : string)
    (run : result unit * World * list Event) : Prop :=
  (exists x w1 pre,
     run = (Raise x, w1, pre) /\ Forall (not_summary c) pre)
  \/ (exists w1 pre,
        same_config c w1 /\ Forall (not_summary c) pre
        /\ run = (Ok tt, w1,
                  (pre ++ EvPrint PReport
                       :: events_of (generate_summary_report w1)
                       ++ [EvPrint (PFinished out)])%list)).

(** what a helper leaves untouched and what it may emit *)
Definition quiet (w w' : World) (evs : list Event) : Prop :=
  cfg w' = cfg w /\ stats w' = stats w
  /\ forallb helper_event evs = true.


End Collector.

(** ** Concrete environments and inputs *)

Definition show_Z (z : Z) : string := NilZero.string_of_int (Z.to_int z).

(** [str(v)] for the values the examples format *)
Definition show_json (v : json) : string :=
  match v with
  | JNull => "None"
  | JBool true => "True"
  | JBool false => "False"
  | JNum n => show_Z n
  | JStr s => s
  | JArr _ => "[...]"
  | JObj _ => "{...}"
  end.

(** a server without state that answers by the request alone; no pattern
    ever matches and names are left as they are *)
Definition stateless (answer : Request -> Outcome) : Env :=
  mkEnv unit (fun s req => (answer req, s)) (fun _ _ => []) (fun s => s)
    (fun s => s) show_json.

(** a server that answers the attempts of [make_request] from a script, one
    outcome per attempt, and everything else with [other] *)
Definition scripted (other : Outcome) : Env :=
  mkEnv (list Outcome)
    (fun s req =>
       if is_api_request req then
         match s with
         | o :: rest => (o, rest)
         | [] => (other, [])
         end
       else (other, s))
    (fun _ _ => []) (fun s => s) (fun s => s) show_json.

Definition http (status : Z) (body : option json) : Outcome :=
  OResponse (mkResponse status "" "" body []).

Definition not_found : Outcome := http 404 None.

Definition envelope (total last : Z) (items : list json) : json :=
  JObj [("items", JArr items); ("totalCount", JNum total);
        ("lastPage", JNum last)].

Definition record (id : Z) : json := JObj [("id", JNum id)].

(** a listing of [total] records on the given pages *)
Definition paged (total : Z) (pages : list (list json)) (req : Request)
  : Outcome :=
  match page_of req with
  | Some p =>
      match nth_error pages (Z.to_nat (p - 1)) with
      | Some items =>
          http 200 (Some (envelope total (Z.of_nat (List.length pages)) items))
      | None => not_found
      end
  | None => not_found
  end.

(** a collector with credentials and a CSRF token, so that no token is
    looked for *)
Definition collector_on (env : Env) (server : ServerState) : World :=
  fresh_collector "https://portal.example" "37101" (Some "user")
    (Some "secret") (Some "token") "out" false server.

(** the user name [jos] followed by the character of code 233, an accented
    letter outside ASCII *)
Definition accented_user : string := "jos" ++ String (ascii_of_N 233) EmptyString.

Definition accented_collector (env : Env) (server : ServerState) : World :=
  fresh_collector "https://portal.example" "37101" (Some accented_user)
    (Some "secret") (Some "token") "out" false server.

(** five records on three pages *)
Definition three_pages : Env :=
  stateless (paged 5 [[record 1; record 2]; [record 3; record 4]; [record 5]]).

(** two pages are announced; the request for the second one fails on TLS *)
Definition second_page_tls : Env :=
  stateless (fun req =>
    match page_of req with
    | Some 1 => http 200 (Some (envelope 3 2 [record 1; record 2]))
    | _ => OSSLError
    end).

(** an empty listing *)
Definition empty_listing : Env := stateless (paged 0 [[]]).

(** the transport raises a certificate error on every request *)
Definition broken_tls : Env := stateless (fun _ => OSSLError).

(** every request is answered with status 500 *)
Definition always_500 : Env := stateless (fun _ => http 500 None).

(** the access check passes; the listing of structured contents is answered
    with a JSON array instead of an envelope *)
Definition array_for_contents : Env :=
  stateless (fun req =>
    if contains "/structured-contents" (req_url req)
    then http 200 (Some (JArr [JNum 1]))
    else http 200 (Some (JObj [("ok", JBool true)]))).

(** no resource has a record, and the listing of site pages always fails *)
Definition pages_unavailable : Env :=
  stateless (fun req =>
    if contains "/site-pages" (req_url req) then http 500 None
    else match page_of req with
         | Some _ => http 200 (Some (envelope 0 1 []))
         | None => http 200 (Some (JObj [("ok", JBool true)]))
         end).

(** the first two attempts are answered with 403, the third with a body *)
Definition denied_twice : list Outcome :=
  [http 403 None; http 403 None; http 200 (Some (JObj [("ok", JBool true)]))].




(** a collector without credentials *)
Definition anonymous_collector (env : Env) (server : ServerState) : World :=
  fresh_collector "https://portal.example/" "37101" None None (Some "token")
    "out" false server.

(** two records on one page *)
Definition one_page : Env := stateless (paged 2 [[record 1; record 2]]).

(** every listing is one record, with a text for [lastPage] *)
Definition last_page_text : Env :=
  stateless (fun _ =>
    http 200 (Some (JObj [("items", JArr [record 1]); ("totalCount", JNum 1);
                          ("lastPage", JStr "1")]))).

(** parsed command lines *)
Definition all_selected : Args :=
  mkArgs "https://portal.example" "37101" (Some "user") (Some "secret") None
    "out" false true false false false false false false false.

Definition no_password : Args :=
  mkArgs "https://portal.example" "37101" (Some "user") None None
    "out" false true false false false false false false false.

Definition nothing_selected : Args :=
  mkArgs "https://portal.example" "37101" (Some "user") (Some "secret") None
    "out" false false false false false false false false false.

Definition dry_run_all : Args :=
  mkArgs "https://portal.example" "37101" (Some "user") (Some "secret") None
    "out" false true false false false false false false true.

Definition documents_only : Args :=
  mkArgs "https://portal.example" "37101" (Some "user") (Some "secret") None
    "out" false false false false false false true false false.

Section Properties.

Context {env : Env}.

(** ** Properties *)

(** *** Reading the events of a run *)

Lemma logged_app lvl e1 e2 :
  logged lvl (e1 ++ e2) = (logged lvl e1 ++ logged lvl e2)%list.
Proof. apply flat_map_app. Qed.

Lemma attempted_app e1 e2 :
  attempted (e1 ++ e2) = (attempted e1 ++ attempted e2)%list.
Proof. apply flat_map_app. Qed.

Lemma succeeded_app e1 e2 :
  succeeded (e1 ++ e2) = (succeeded e1 ++ succeeded e2)%list.
Proof. apply flat_map_app. Qed.

Lemma sleeps_app e1 e2 : sleeps (e1 ++ e2) = (sleeps e1 ++ sleeps e2)%list.
Proof. apply flat_map_app. Qed.

Lemma requests_app e1 e2 :
  requests (e1 ++ e2) = (requests e1 ++ requests e2)%list.
Proof. apply flat_map_app. Qed.

Lemma writes_app e1 e2 : writes (e1 ++ e2) = (writes e1 ++ writes e2)%list.
Proof. apply flat_map_app. Qed.

Lemma api_attempts_app e1 e2 :
  api_attempts (e1 ++ e2) = (api_attempts e1 ++ api_attempts e2)%list.
Proof. apply flat_map_app. Qed.

Lemma fetches_app e1 e2 : fetches (e1 ++ e2) = (fetches e1 ++ fetches e2)%list.
Proof. unfold fetches. rewrite api_attempts_app. apply flat_map_app. Qed.

Lemma pages_fetched_app e1 e2 :
  pages_fetched (e1 ++ e2) = (pages_fetched e1 ++ pages_fetched e2)%list.
Proof. unfold pages_fetched. rewrite fetches_app. apply flat_map_app. Qed.

Lemma items_fetched_app e1 e2 :
  items_fetched (e1 ++ e2) = (items_fetched e1 ++ items_fetched e2)%list.
Proof. unfold items_fetched. rewrite fetches_app. apply flat_map_app. Qed.

Lemma pages_collected_app e1 e2 :
  pages_collected (e1 ++ e2)
  = (pages_collected e1 ++ pages_collected e2)%list.
Proof. apply flat_map_app. Qed.

Lemma pages_failed_app e1 e2 :
  pages_failed (e1 ++ e2) = (pages_failed e1 ++ pages_failed e2)%list.
Proof. apply flat_map_app. Qed.

Lemma auth_runs_app e1 e2 :
  auth_runs (e1 ++ e2) = (auth_runs e1 + auth_runs e2)%nat.
Proof. unfold auth_runs. rewrite flat_map_app. apply length_app. Qed.

Lemma helper_app e1 e2 :
  forallb helper_event (e1 ++ e2)
  = forallb helper_event e1 && forallb helper_event e2.
Proof. apply forallb_app. Qed.

Ltac break_match :=
  match goal with
  | |- context [match ?x with _ => _ end] =>
      lazymatch x with
      | context [match _ with _ => _ end] => fail
      | _ => destruct x eqn:?
      end
  end.



Ltac run_leaf :=
  repeat (break_match; simpl in *; try discriminate);
  repeat match goal with
         | H : (_, _) = (_, _) |- _ => inversion H; subst; clear H
         end.

Ltac solve_leaf := try (do 3 eexists; repeat split; reflexivity).

Lemma try_basic_auth_spec w :
  exists b w' evs,
    try_basic_auth w = (Ok b, w', evs)
    /\ quiet w w' evs
    /\ attempted evs = [Basic]
    /\ succeeded evs = (if b then [Basic] else [])
    /\ auth_runs evs = 0%nat
    /\ logged WARNING evs = [].
Proof.
  unfold try_basic_auth, try_except, bind, log, emit, get_world, lift,
    set_session_header, modify, session_get, session_request, ret, quiet.
  run_leaf; solve_leaf.
Qed.

Lemma try_web_login_spec w :
  exists b w' evs,
    try_web_login w = (Ok b, w', evs)
    /\ quiet w w' evs
    /\ attempted evs = [WebLogin]
    /\ succeeded evs = (if b then [WebLogin] else [])
    /\ auth_runs evs = 0%nat
    /\ logged WARNING evs = [].
Proof.
  unfold try_web_login, try_except, bind, log, emit, get_world, lift, when,
    set_session_header, modify, session_get, session_request, ret, quiet.
  run_leaf; solve_leaf.
Qed.

Lemma try_jsonws_login_spec w :
  exists b w' evs,
    try_jsonws_login w = (Ok b, w', evs)
    /\ quiet w w' evs
    /\ attempted evs = [JsonWS]
    /\ succeeded evs = (if b then [JsonWS] else [])
    /\ auth_runs evs = 0%nat
    /\ logged WARNING evs = [].
Proof.
  unfold try_jsonws_login, try_except, bind, log, emit, get_world, lift, when,
    set_session_header, modify, session_get, session_request, ret, quiet.
  run_leaf; solve_leaf.
Qed.

Lemma try_oauth2_spec w :
  exists b w' evs,
    try_oauth2 w = (Ok b, w', evs)
    /\ quiet w w' evs
    /\ attempted evs = [OAuth2]
    /\ succeeded evs = (if b then [OAuth2] else [])
    /\ auth_runs evs = 0%nat
    /\ logged WARNING evs = [].
Proof.
  unfold try_oauth2, try_except, bind, log, emit, get_world, lift, when,
    set_session_header, modify, session_get, session_request, ret, quiet.
  run_leaf; solve_leaf.
Qed.
Lemma quiet_trans w w1 w2 e1 e2 :
  quiet w w1 e1 -> quiet w1 w2 e2 -> quiet w w2 (e1 ++ e2).
Proof.
  unfold quiet. intros (Hc1 & Hs1 & Hh1) (Hc2 & Hs2 & Hh2).
  rewrite helper_app, Hh1, Hh2. repeat split; congruence.
Qed.

Lemma helper_no_error evs :
  forallb helper_event evs = true -> logged ERROR evs = [].
Proof.
  unfold logged.
  induction evs as [|ev evs IH]; simpl; intros H; [reflexivity|].
  apply andb_true_iff in H. destruct H as [Hev H].
  rewrite (IH H), app_nil_r.
  destruct ev; simpl in *; try discriminate; try reflexivity.
  destruct lvl; simpl in *; try reflexivity.
  rewrite andb_false_r in Hev. discriminate.
Qed.

Lemma authenticate_comprehensive_spec w :
  exists w' evs k,
    authenticate_comprehensive w = (Ok tt, w', evs)
    /\ quiet w w' evs
    /\ auth_runs evs = 1%nat
    /\ (1 <= k <= 4)%nat
    /\ attempted evs = firstn k strategy_order
    /\ ((succeeded evs = [nth (k - 1) strategy_order Basic]
         /\ logged WARNING evs = [])
        \/ (k = 4%nat /\ succeeded evs = []
            /\ logged WARNING evs = [MNoStrategyWorked])).
Proof.
  unfold authenticate_comprehensive.
  destruct (try_basic_auth_spec w)
    as (b1 & w1 & e1 & R1 & Q1 & A1 & S1 & N1 & W1).
  destruct (try_web_login_spec w1)
    as (b2 & w2 & e2 & R2 & Q2 & A2 & S2 & N2 & W2).
  destruct (try_jsonws_login_spec w2)
    as (b3 & w3 & e3 & R3 & Q3 & A3 & S3 & N3 & W3).
  destruct (try_oauth2_spec w3)
    as (b4 & w4 & e4 & R4 & Q4 & A4 & S4 & N4 & W4).
  assert (Q0 : quiet w w [EvLog INFO MAuthStart]) by (repeat split).
  unfold bind, log, emit. rewrite R1.
  destruct b1.
  { exists w1, ([EvLog INFO MAuthStart] ++ e1 ++ [EvLog INFO (MAuthWorked Basic)])%list, 1%nat.
    split; [reflexivity|].
    split; [repeat (eapply quiet_trans; [eassumption|]); repeat split|].
    rewrite !auth_runs_app, !attempted_app, !succeeded_app, !logged_app,
      N1, A1, S1, W1. simpl. repeat split; auto. }
  simpl. rewrite R2. destruct b2.
  { exists w2, ([EvLog INFO MAuthStart] ++ e1 ++ e2
                ++ [EvLog INFO (MAuthWorked WebLogin)])%list, 2%nat.
    split; [reflexivity|].
    split; [repeat (eapply quiet_trans; [eassumption|]); repeat split|].
    rewrite !auth_runs_app, !attempted_app, !succeeded_app, !logged_app,
      N1, A1, S1, W1, N2, A2, S2, W2. simpl. repeat split; auto. }
  simpl. rewrite R3. destruct b3.
  { exists w3, ([EvLog INFO MAuthStart] ++ e1 ++ e2 ++ e3
                ++ [EvLog INFO (MAuthWorked JsonWS)])%list, 3%nat.
    split; [reflexivity|].
    split; [repeat (eapply quiet_trans; [eassumption|]); repeat split|].
    rewrite !auth_runs_app, !attempted_app, !succeeded_app, !logged_app,
      N1, A1, S1, W1, N2, A2, S2, W2, N3, A3, S3, W3.
    simpl. repeat split; auto. }
  simpl. rewrite R4.
  exists w4, ([EvLog INFO MAuthStart] ++ e1 ++ e2 ++ e3 ++ e4
              ++ [EvLog (if b4 then INFO else WARNING)
                    (if b4 then MAuthWorked OAuth2 else MNoStrategyWorked)])%list,
    4%nat.
  split; [destruct b4; reflexivity|].
  split; [destruct b4; repeat (eapply quiet_trans; [eassumption|]); repeat split|].
  rewrite !auth_runs_app, !attempted_app, !succeeded_app, !logged_app,
    N1, A1, S1, W1, N2, A2, S2, W2, N3, A3, S3, W3, N4, A4, S4, W4.
  destruct b4; simpl; repeat split; auto.
Qed.

Lemma find_csrf_at_spec url w :
  exists b w' evs,
    find_csrf_at url w = (Ok b, w', evs)
    /\ quiet w w' evs /\ auth_runs evs = 0%nat.
Proof.
  unfold find_csrf_at, install_csrf, try_except, bind, log, emit, get_world,
    lift, set_session_header, modify, session_get, session_request, ret, quiet.
  run_leaf; solve_leaf.
Qed.

Lemma find_csrf_in_spec urls : forall w,
  exists b w' evs,
    find_csrf_in urls w = (Ok b, w', evs)
    /\ quiet w w' evs /\ auth_runs evs = 0%nat.
Proof.
  induction urls as [|url urls IH]; intros w; simpl.
  - exists false, w, []. repeat split.
  - destruct (find_csrf_at_spec url w) as (b & w1 & e1 & R1 & Q1 & N1).
    unfold bind. rewrite R1. destruct b.
    + exists true, w1, (e1 ++ [])%list. split; [reflexivity|].
      rewrite app_nil_r. auto.
    + destruct (IH w1) as (b2 & w2 & e2 & R2 & Q2 & N2). rewrite R2.
      exists b2, w2, (e1 ++ e2)%list. split; [reflexivity|].
      split; [eapply quiet_trans; eassumption|].
      rewrite auth_runs_app, N1, N2. reflexivity.
Qed.

Lemma find_csrf_token_spec w :
  exists w' evs,
    find_csrf_token w = (Ok tt, w', evs)
    /\ quiet w w' evs /\ auth_runs evs = 0%nat.
Proof.
  unfold find_csrf_token, bind, get_world.
  destruct (find_csrf_in_spec (csrf_sources w) w)
    as (b & w1 & e1 & R1 & Q1 & N1).
  rewrite R1. destruct b; simpl.
  - exists w1, (e1 ++ [])%list. rewrite app_nil_r. auto.
  - exists w1, (e1 ++ [EvLog WARNING MCsrfNotFound])%list.
    split; [reflexivity|]. split.
    + eapply quiet_trans; [eassumption|]. repeat split.
    + rewrite auth_runs_app, N1. reflexivity.
Qed.

Lemma helper_executor evs :
  forallb helper_event evs = true -> forallb executor_event evs = true.
Proof.
  induction evs as [|ev evs IH]; simpl; intros H; [reflexivity|].
  apply andb_true_iff in H. destruct H as [Hev H]. rewrite (IH H), andb_true_r.
  destruct ev; simpl in *; try discriminate; auto.
  destruct m; simpl in *; try discriminate; reflexivity.
Qed.

Ltac run_auth :=
  match goal with
  | |- context [authenticate_comprehensive ?w] =>
      let w' := fresh "wa" in
      let evs := fresh "ea" in
      let k := fresh "k" in
      let R := fresh "Ra" in
      let Q := fresh "Qa" in
      let N := fresh "Na" in
      destruct (authenticate_comprehensive_spec w)
        as (w' & evs & k & R & Q & N & _);
      rewrite R
  end.

Lemma auth_runs_cons ev evs :
  auth_runs (ev :: evs)
  = ((if is_auth_start ev then 1 else 0) + auth_runs evs)%nat.
Proof.
  change (ev :: evs) with ([ev] ++ evs)%list. rewrite auth_runs_app.
  f_equal. destruct ev; try reflexivity. destruct m; reflexivity.
Qed.

Lemma helper_no_sleep evs :
  forallb helper_event evs = true -> sleeps evs = [].
Proof.
  unfold sleeps.
  induction evs as [|ev evs IH]; simpl; intros H; [reflexivity|].
  apply andb_true_iff in H. destruct H as [Hev H]. rewrite (IH H).
  destruct ev; simpl in *; try discriminate; reflexivity.
Qed.

Lemma request_attempt_spec url params max_retries attempt w :
  exists r w' req o rest,
    request_attempt url params max_retries attempt w
    = (Ok r, w', EvHttp req o :: rest)
    /\ req_url req = url /\ req_params req = params
    /\ is_api_request req = true
    /\ cfg w' = cfg w
    /\ forallb executor_event rest = true
    /\ match fetched_body o with
       | Some j =>
           r = Some j /\ stats w' = stats w /\ sleeps rest = []
           /\ auth_runs rest = 0%nat
       | None =>
           if tls_failure o then
             r = Some JNull /\ stats w' = stats w /\ sleeps rest = []
             /\ auth_runs rest = 0%nat
           else
             auth_runs rest
             = (if (attempt =? 0) && denied o && has_credentials w
                then 1%nat else 0%nat)
             /\ if attempt <? max_retries - 1
                then r = None /\ stats w' = stats w
                     /\ sleeps rest = [inject_Z (2 ^ attempt)]
                else r = Some JNull /\ stats w' = bump_errors (stats w)
                     /\ sleeps rest = []
       end.
Proof.
  unfold request_attempt, reauthenticate, backoff_or_give_up, try_except, bind,
    log, emit, sleep, get_world, lift, when, inc_errors, modify,
    session_request, ret, has_credentials, response_json, raise_for_status,
    fetched_body, status_ok, denied.
  repeat (first [run_auth | break_match]; simpl in *; try discriminate).
  all: repeat match goal with
         | H : (_, _) = (_, _) |- _ => inversion H; subst; clear H
         end.
  all: do 5 eexists; (split; [reflexivity|]); simpl.
  all: repeat match goal with
         | H : quiet _ _ _ |- _ => destruct H as (? & ? & ?)
         | H : ?b = true |- context [?b] => rewrite H
         | H : ?b = false |- context [?b] => rewrite H
         | H : ?x = Some _ |- context [?x] => rewrite H
         | H : ?x = None |- context [?x] => rewrite H
         end.
  all: rewrite ?andb_false_r, ?andb_true_r; simpl in *.
  all: rewrite ?forallb_app, ?sleeps_app, ?auth_runs_cons, ?auth_runs_app;
    simpl.
  all: repeat match goal with
         | H : forallb helper_event _ = true |- _ =>
             rewrite ?(helper_executor _ H), ?(helper_no_sleep _ H);
             clear H
         end.
  all: repeat split; auto; try congruence.
  all: repeat match goal with
         | H : auth_runs _ = _ |- _ => rewrite H
         | H : ?b = true |- context [?b] => rewrite H
         | H : ?b = false |- context [?b] => rewrite H
         end.
  all: rewrite ?orb_true_r, ?andb_false_r, ?andb_true_r; simpl;
    try reflexivity.
  all: match goal with
       | r : Response |- _ =>
           destruct (Z.eqb_spec (status_code r) 403) as [E|E];
           [rewrite E in *; simpl in *; discriminate|];
           destruct (Z.eqb_spec (status_code r) 401) as [E'|E'];
           [rewrite E' in *; simpl in *; discriminate|]
       end.
  all: rewrite ?andb_false_r; reflexivity.
Qed.

Lemma executor_no_api evs :
  forallb executor_event evs = true -> api_attempts evs = [].
Proof.
  unfold api_attempts.
  induction evs as [|ev evs IH]; simpl; intros H; [reflexivity|].
  apply andb_true_iff in H. destruct H as [Hev H]. rewrite (IH H).
  destruct ev; simpl in *; try discriminate; try reflexivity.
  apply andb_true_iff in Hev. destruct Hev as [_ Hev].
  destruct (is_api_request req); [discriminate|reflexivity].
Qed.

Lemma executor_request_events url params evs :
  forallb executor_event evs = true -> Forall (request_event url params) evs.
Proof.
  intros H. apply Forall_forall. intros ev Hin. left.
  rewrite forallb_forall in H. auto.
Qed.

Lemma api_attempts_attempt req o rest evs :
  is_api_request req = true -> forallb executor_event rest = true ->
  api_attempts (EvHttp req o :: rest ++ evs) = (req, o) :: api_attempts evs.
Proof.
  intros Hreq Hrest.
  change (EvHttp req o :: rest ++ evs)%list
    with ([EvHttp req o] ++ rest ++ evs)%list.
  rewrite !api_attempts_app, (executor_no_api _ Hrest).
  unfold api_attempts at 1. simpl. rewrite Hreq. reflexivity.
Qed.

Lemma sleeps_attempt req o rest evs :
  sleeps (EvHttp req o :: rest ++ evs) = (sleeps rest ++ sleeps evs)%list.
Proof.
  change (EvHttp req o :: rest ++ evs)%list
    with ([EvHttp req o] ++ rest ++ evs)%list.
  rewrite !sleeps_app. reflexivity.
Qed.

Lemma auth_runs_attempt req o rest evs :
  auth_runs (EvHttp req o :: rest ++ evs)
  = (auth_runs rest + auth_runs evs)%nat.
Proof. rewrite auth_runs_cons, auth_runs_app. reflexivity. Qed.

Lemma backoff_of_nat k : inject_Z (2 ^ Z.of_nat k) = backoff k.
Proof. reflexivity. Qed.

Lemma request_attempts_spec url params max_retries n : forall k w,
  Z.of_nat k + Z.of_nat n = max_retries ->
  exists j w' evs,
    request_attempts url params max_retries n (Z.of_nat k) w = (Ok j, w', evs)
    /\ cfg w' = cfg w
    /\ Forall (request_event url params) evs
    /\ sleeps evs
       = map backoff (seq k (List.length (api_attempts evs) - 1))
    /\ auth_runs evs
       = match api_attempts evs with
         | (_, o) :: _ =>
             if (Z.of_nat k =? 0) && denied o && has_credentials w
             then 1%nat else 0%nat
         | [] => 0%nat
         end
    /\ attempts_verdict n (api_attempts evs) j (stats w) (stats w')
    /\ exists e1 e2,
         evs = (e1 ++ e2)%list
         /\ api_attempts e1 = firstn 1 (api_attempts evs)
         /\ auth_runs e2 = 0%nat.
Proof.
  induction n as [|n IH]; intros k w Hmax.
  - exists JNull, w, []. simpl. repeat split; auto.
    + left. auto.
    + exists [], []. auto.
  - destruct (request_attempt_spec url params max_retries (Z.of_nat k) w)
      as (r & w1 & req & o & rest & Hrun & Hurl & Hpar & Hapi & Hcfg & Hex
          & Hcase).
    assert (Hev : request_event url params (EvHttp req o))
      by (right; exists req, o; auto).
    assert (Hone : api_attempts (EvHttp req o :: rest ++ []) = [(req, o)])
      by (apply api_attempts_attempt; auto).
    simpl. unfold bind. rewrite Hrun.
    assert (Hstop : forall j,
      r = Some j -> sleeps rest = [] ->
      auth_runs rest
      = (if (Z.of_nat k =? 0) && denied o && has_credentials w
         then 1%nat else 0%nat) ->
      attempts_verdict (S n) [(req, o)] j (stats w) (stats w1) ->
      exists j w' evs,
        (let (p, e2) :=
           match r with
           | Some j => ret j
           | None =>
               request_attempts url params max_retries n (Z.of_nat k + 1)
           end w1 in
         let (r0, w2) := p in (r0, w2, ((EvHttp req o :: rest) ++ e2)%list))
        = (Ok j, w', evs)
        /\ cfg w' = cfg w
        /\ Forall (request_event url params) evs
        /\ sleeps evs
           = map backoff (seq k (List.length (api_attempts evs) - 1))
        /\ auth_runs evs
           = match api_attempts evs with
             | (_, o) :: _ =>
                 if (Z.of_nat k =? 0) && denied o && has_credentials w
                 then 1%nat else 0%nat
             | [] => 0%nat
             end
        /\ attempts_verdict (S n) (api_attempts evs) j (stats w) (stats w')
        /\ exists e1 e2,
             evs = (e1 ++ e2)%list
             /\ api_attempts e1 = firstn 1 (api_attempts evs)
             /\ auth_runs e2 = 0%nat).
    { intros j -> Hsl Hau Hv.
      exists j, w1, (EvHttp req o :: rest ++ [])%list.
      split; [reflexivity|]. split; [assumption|]. rewrite Hone.
      split; [constructor; [assumption|];
              rewrite app_nil_r; apply executor_request_events; assumption|].
      split; [rewrite sleeps_attempt, Hsl; reflexivity|].
      split; [rewrite auth_runs_attempt, Hau; apply Nat.add_0_r|].
      split; [assumption|].
      exists (EvHttp req o :: rest ++ [])%list, [].
      split; [rewrite !app_nil_r; reflexivity|].
      split; [rewrite Hone; reflexivity|reflexivity]. }
    destruct (fetched_body o) as [b|] eqn:Fb.
    { destruct Hcase as (Hr & Hst & Hsl & Hau).
      apply (Hstop b); auto.
      - rewrite Hau. destruct o as [| |resp]; simpl in *; try discriminate.
        unfold retryable in *. 
        destruct (Z.of_nat k =? 0); simpl;
          [|reflexivity].
        unfold status_ok in Fb.
        destruct ((400 <=? status_code resp) && (status_code resp <? 600))
          eqn:Hrange; simpl in Fb; [discriminate|].
        destruct (Z.eqb_spec (status_code resp) 403) as [E|E];
          [rewrite E in Hrange; discriminate|].
        destruct (Z.eqb_spec (status_code resp) 401) as [E'|E'];
          [rewrite E' in Hrange; discriminate|]. reflexivity.
      - right. exists [], req, o. simpl. rewrite Fb, Hst.
        repeat split; auto; lia. }
    destruct (tls_failure o) eqn:Tls.
    { destruct Hcase as (Hr & Hst & Hsl & Hau).
      apply (Hstop JNull); auto.
      - rewrite Hau. destruct o; simpl in *; try discriminate.
        rewrite andb_false_r. reflexivity.
      - right. exists [], req, o. simpl. rewrite Fb, Tls, Hst.
        repeat split; auto; lia. }
    destruct Hcase as (Hau & Hcase).
    destruct (Z.of_nat k <? max_retries - 1) eqn:Hlt.
    + destruct Hcase as (-> & Hst & Hsl).
      apply Z.ltb_lt in Hlt.
      replace (Z.of_nat k + 1) with (Z.of_nat (S k)) by lia.
      destruct (IH (S k) w1 ltac:(lia))
        as (j & w2 & evs & Hrun2 & Hcfg2 & Hev2 & Hsl2 & Hau2 & Hv2 & _).
      rewrite Hrun2.
      assert (Hatts : api_attempts (EvHttp req o :: rest ++ evs)
                      = (req, o) :: api_attempts evs)
        by (apply api_attempts_attempt; auto).
      assert (Hau0 : auth_runs evs = 0%nat).
      { rewrite Hau2. replace (Z.of_nat (S k) =? 0) with false
          by (symmetry; apply Z.eqb_neq; lia).
        destruct (api_attempts evs) as [|[? ?] ?]; reflexivity. }
      assert (Hne : exists a atts', api_attempts evs = a :: atts').
      { destruct Hv2 as [(_ & Hn & _)|(init & rq & oo & Hi & _)]; [lia|].
        rewrite Hi. destruct init; simpl; eauto. }
      destruct Hne as (a & atts' & Hatts').
      exists j, w2, (EvHttp req o :: rest ++ evs)%list.
      split; [reflexivity|]. split; [congruence|].
      split; [constructor; [assumption|]; apply Forall_app; split;
              [apply executor_request_events|]; assumption|].
      rewrite Hatts.
      split.
      { rewrite sleeps_attempt, Hsl, Hsl2, Hatts'. simpl.
        rewrite Nat.sub_0_r, backoff_of_nat. reflexivity. }
      split; [rewrite auth_runs_attempt, Hau, Hau0; apply Nat.add_0_r|].
      split.
      { destruct Hv2 as [(_ & Hn & _)|(init & rq & oo & Hi & Hre & Hle & Hlast)];
          [lia|].
        right. exists ((req, o) :: init), rq, oo.
        split; [rewrite Hi; reflexivity|].
        split; [simpl; unfold retryable at 1; rewrite Tls, Fb; assumption|].
        split; [simpl; lia|].
        replace (stats w1) with (stats w) in Hlast by congruence.
        destruct (fetched_body oo); [assumption|].
        destruct Hlast as (Hj & Hlast). split; [assumption|].
        destruct (tls_failure oo); [assumption|].
        destruct Hlast. split; [assumption|simpl; lia]. }
      exists (EvHttp req o :: rest ++ [])%list, evs.
      split; [rewrite !app_nil_r; reflexivity|].
      split; [rewrite Hone; reflexivity|assumption].
    + destruct Hcase as (Hr & Hst & Hsl).
      apply Z.ltb_ge in Hlt.
      apply (Hstop JNull); auto.
      right. exists [], req, o. simpl. rewrite Fb, Tls.
      repeat split; auto; lia.
Qed.

Lemma make_request_spec url params max_retries w :
  exists j w' evs,
    make_request url params max_retries w = (Ok j, w', evs)
    /\ cfg w' = cfg w
    /\ Forall (request_event url params) evs
    /\ sleeps evs
       = map backoff (seq 0 (List.length (api_attempts evs) - 1))
    /\ auth_runs evs
       = match api_attempts evs with
         | (_, o) :: _ =>
             if denied o && has_credentials w then 1%nat else 0%nat
         | [] => 0%nat
         end
    /\ attempts_verdict (Z.to_nat max_retries) (api_attempts evs) j
         (stats w) (stats w')
    /\ exists e1 e2,
         evs = (e1 ++ e2)%list
         /\ api_attempts e1 = firstn 1 (api_attempts evs)
         /\ auth_runs e2 = 0%nat.
Proof.
  assert (Hcsrf : exists w0 e0,
    when (negb (opt_truthy (csrf_token w))) find_csrf_token w = (Ok tt, w0, e0)
    /\ quiet w w0 e0 /\ auth_runs e0 = 0%nat).
  { unfold when. destruct (negb (opt_truthy (csrf_token w))).
    - apply find_csrf_token_spec.
    - exists w, []. repeat split. }
  destruct Hcsrf as (w0 & e0 & R0 & (Hc0 & Hs0 & Hh0) & N0).
  assert (Hloop : exists j w' evs,
    request_attempts url params max_retries (Z.to_nat max_retries)
      (Z.of_nat 0) w0 = (Ok j, w', evs)
    /\ cfg w' = cfg w0
    /\ Forall (request_event url params) evs
    /\ sleeps evs = map backoff (seq 0 (List.length (api_attempts evs) - 1))
    /\ auth_runs evs
       = match api_attempts evs with
         | (_, o) :: _ =>
             if (Z.of_nat 0 =? 0) && denied o && has_credentials w0
             then 1%nat else 0%nat
         | [] => 0%nat
         end
    /\ attempts_verdict (Z.to_nat max_retries) (api_attempts evs) j
         (stats w0) (stats w')
    /\ exists e1 e2,
         evs = (e1 ++ e2)%list
         /\ api_attempts e1 = firstn 1 (api_attempts evs)
         /\ auth_runs e2 = 0%nat).
  { destruct (Z.to_nat max_retries) as [|m] eqn:Hm.
    - exists JNull, w0, []. simpl. repeat split; auto.
      + left; auto.
      + exists [], []. auto.
    - rewrite <- Hm. apply request_attempts_spec. lia. }
  destruct Hloop as (j & w' & evs & R & Hc & Hev & Hsl & Hau & Hv & e1 & e2
                     & Hsplit & Hfirst & Hau2).
  pose proof (helper_executor _ Hh0) as Hx0.
  pose proof (executor_no_api _ Hx0) as Ha0.
  exists j, w', (e0 ++ evs)%list.
  split.
  { unfold make_request, bind, get_world. rewrite R0.
    simpl in R. rewrite R. reflexivity. }
  rewrite api_attempts_app, Ha0. simpl.
  split; [congruence|].
  split; [apply Forall_app; split;
          [apply executor_request_events|]; assumption|].
  split; [rewrite sleeps_app, (helper_no_sleep _ Hh0); assumption|].
  split.
  { rewrite auth_runs_app, N0, Hau. simpl.
    unfold has_credentials. rewrite Hc0. reflexivity. }
  split; [rewrite <- Hs0; assumption|].
  exists (e0 ++ e1)%list, e2.
  split; [rewrite Hsplit, app_assoc; reflexivity|].
  split; [rewrite api_attempts_app, Ha0; assumption|assumption].
Qed.

Lemma request_event_facts url params evs :
  Forall (request_event url params) evs ->
  writes evs = [] /\ pages_collected evs = [] /\ pages_failed evs = []
  /\ Forall (fun req => req_params req = [] \/ req_params req = params)
       (requests evs)
  /\ Forall (fun ro => req_url (fst ro) = url /\ req_params (fst ro) = params)
       (api_attempts evs).
Proof.
  unfold writes, pages_collected, pages_failed, requests, api_attempts.
  induction 1 as [|ev evs Hev _ IH]; simpl; [repeat split; constructor|].
  destruct IH as (-> & -> & -> & Hreq & Hatt).
  destruct Hev as [Hev|(req & o & -> & Hapi & Hurl & Hpar)].
  - destruct ev; simpl in *; try discriminate.
    + destruct m; try discriminate; repeat split; auto.
    + apply andb_true_iff in Hev. destruct Hev as [Hnil Hno].
      destruct (is_api_request req); [discriminate|].
      repeat split; auto. constructor; [|assumption].
      left. destruct (req_params req); [reflexivity|discriminate].
    + repeat split; auto.
  - rewrite Hapi. repeat split; auto; constructor; auto.
Qed.

Lemma retryable_no_fetch (init : list (Request * Outcome)) :
  forallb retryable (map snd init) = true ->
  flat_map (fun ro => match fetched_body (snd ro) with
                      | Some j => [(fst ro, j)]
                      | None => []
                      end) init = [].
Proof.
  induction init as [|[req o] init IH]; simpl; intros H; [reflexivity|].
  apply andb_true_iff in H. destruct H as [Hr H]. rewrite (IH H).
  unfold retryable in Hr. apply andb_true_iff in Hr. destruct Hr as [_ Hr].
  destruct (fetched_body o); [discriminate|reflexivity].
Qed.

(** a call of [make_request] hands back the body of at most one attempt,
    the last one, and then counts no error *)
Lemma make_request_fetch url params max_retries w :
  exists j w' evs,
    make_request url params max_retries w = (Ok j, w', evs)
    /\ cfg w' = cfg w
    /\ Forall (request_event url params) evs
    /\ ((fetches evs = [] /\ j = JNull)
        \/ exists req, fetches evs = [(req, j)] /\ req_url req = url
                       /\ req_params req = params /\ stats w' = stats w).
Proof.
  destruct (make_request_spec url params max_retries w)
    as (j & w' & evs & R & Hc & Hev & _ & _ & Hv & _).
  exists j, w', evs. repeat (split; [assumption|]).
  destruct (request_event_facts _ _ _ Hev) as (_ & _ & _ & _ & Hatt).
  unfold fetches.
  destruct Hv as [(-> & _ & -> & _)|(init & req & o & Hi & Hre & _ & Hlast)].
  - left. auto.
  - rewrite Hi in *. rewrite flat_map_app, (retryable_no_fetch _ Hre). simpl.
    apply Forall_app in Hatt. destruct Hatt as [_ Hatt].
    inversion Hatt as [|x l [Hurl Hpar] _]; subst. simpl in *.
    destruct (fetched_body o) as [b|].
    + destruct Hlast as [-> Hst]. right. exists req. auto.
    + destruct Hlast as [-> _]. left. auto.
Qed.

Lemma bodies_wf_app e1 e2 : bodies_wf (e1 ++ e2) = bodies_wf e1 && bodies_wf e2.
Proof. unfold bodies_wf. rewrite fetches_app. apply forallb_app. Qed.

(** the observations on the events of one [make_request] for a page *)
Lemma page_fetch_facts url page page_size evs :
  Forall (request_event url (page_params page page_size)) evs ->
  forall j,
    (fetches evs = [] /\ j = JNull)
    \/ (exists req, fetches evs = [(req, j)] /\ req_url req = url
                    /\ req_params req = page_params page page_size
                    /\ True) ->
  items_fetched evs = items_taken page j
  /\ pages_fetched evs = (if truthy j then [page] else [])
  /\ bodies_wf evs = (wf_envelope j)
  /\ writes evs = [] /\ pages_collected evs = [] /\ pages_failed evs = [].
Proof.
  intros Hev j Hf.
  destruct (request_event_facts _ _ _ Hev) as (Hw & Hpc & Hpf & _ & _).
  unfold items_fetched, pages_fetched, bodies_wf.
  destruct Hf as [(-> & ->)|(req & -> & _ & Hpar & _)]; simpl.
  - repeat split; auto.
  - unfold fetch_items, page_of. simpl. rewrite Hpar. simpl.
    rewrite app_nil_r, andb_true_r. destruct (truthy j); repeat split; auto.
Qed.

Lemma read_totals_object data_key kvs w :
  let tc := field kvs "totalCount" (JNum 0) in
  let lp := field kvs "lastPage" (JNum 1) in
  read_totals data_key (JObj kvs) w
  = (Ok (if py_eq_int tc 0 then None else Some lp), w,
     EvLog INFO (MTotals data_key tc lp)
     :: (if py_eq_int tc 0 then [EvLog WARNING (MNoRecords data_key)]
         else [])).
Proof.
  unfold read_totals, bind, lift, log, emit, ret, py_get, field. simpl.
  destruct (py_eq_int _ 0); reflexivity.
Qed.

Lemma take_items_object kvs page tp all w :
  take_items (JObj kvs) page tp all w
  = match py_iter (field kvs "items" (JArr [])) with
    | Raise x => (Raise x, w, [])
    | Ok items =>
        let collected_log :=
          EvLog INFO (MPageCollected page tp (List.length items)) in
        match py_int_ge page tp with
        | Raise x => (Raise x, w, [collected_log])
        | Ok true => (Ok (Break (all ++ items)), w, [collected_log])
        | Ok false =>
            (Ok (Continue tp (all ++ items)), w,
             [collected_log; EvSleep (1 # 2)])
        end
    end.
Proof.
  unfold take_items, bind, lift, log, emit, sleep, ret, py_get, field. simpl.
  destruct (py_iter _); [|reflexivity].
  destruct (py_int_ge page tp) as [[|]|]; reflexivity.
Qed.

Lemma not_object_raises data_key j page tp all w :
  is_object j = false ->
  read_totals data_key j w = (Raise AttributeError, w, [])
  /\ take_items j page tp all w = (Raise AttributeError, w, []).
Proof. destruct j; try discriminate; intros _; split; reflexivity. Qed.

Lemma page_step_spec endpoint data_key page_size page total_pages all w :
  page = 1 \/ (exists n, total_pages = JNum n) ->
  exists r w' evs,
    page_step endpoint data_key page_size page total_pages all w = (r, w', evs)
    /\ cfg w' = cfg w
    /\ step_ok page total_pages all r evs.
Proof.
  intros Htp.
  destruct (make_request_fetch (base_url (cfg w) ++ endpoint)
              (page_params page page_size) 3 w)
    as (j & w1 & e1 & R1 & Hc1 & Hev1 & Hf).
  assert (Hf' : (fetches e1 = [] /\ j = JNull)
                \/ (exists req, fetches e1 = [(req, j)]
                     /\ req_url req = (base_url (cfg w) ++ endpoint)
                     /\ req_params req = page_params page page_size /\ True)).
  { destruct Hf as [Hf|(req & ? & ? & ? & _)]; [left; assumption|].
    right. exists req. auto. }
  destruct (page_fetch_facts _ _ _ _ Hev1 j Hf')
    as (Hitems & Hpages & Hwf & Hw & Hpc & Hpf).
  clear Hf Hf' Hev1.
  unfold page_step, bind at 1 2, get_world. rewrite R1. cbv beta iota.
  unfold items_taken in Hitems.
  destruct (truthy j) eqn:Tj; cbv beta iota delta [negb].
  2:{ exists (Ok (Break all)), w1,
        (e1 ++ [EvLog ERROR (MPageFailed data_key page)])%list.
      split; [reflexivity|]. split; [assumption|].
      exists 0%nat. split; [lia|]. unfold collected.
      rewrite items_fetched_app, pages_fetched_app, pages_collected_app,
        pages_failed_app, writes_app, Hitems, Hpages, Hpc, Hpf, Hw.
      simpl. rewrite !app_nil_r, Z.add_0_r.
      repeat split; try reflexivity; auto. }
  simpl in Hitems.
  assert (Hbad : wf_envelope j = false ->
                 forall tail, bodies_wf (e1 ++ tail) = false).
  { intros Hj tail. rewrite bodies_wf_app, Hwf, Hj. reflexivity. }
  destruct (is_object j) eqn:Oj.
  2:{ destruct (not_object_raises data_key j page total_pages all w1 Oj)
        as [E1 E2].
      assert (Hj : wf_envelope j = false)
        by (unfold wf_envelope; rewrite Tj; destruct j; try discriminate;
            reflexivity).
      destruct (page =? 1); unfold bind; cbv beta iota.
      - rewrite E1. do 3 eexists. split; [reflexivity|].
        split; [assumption|]. split; [discriminate|]. cbn [app]. auto.
      - unfold ret. rewrite E2. do 3 eexists. split; [reflexivity|].
        split; [assumption|]. split; [discriminate|]. cbn [app]. auto. }
  destruct j as [| | | | |kvs]; try discriminate. clear Oj.
  unfold wf_envelope in Hbad. rewrite Tj in Hbad. simpl in Hbad.
  fold (field kvs "lastPage" (JNum 1)) in Hbad.
  unfold py_get in Hitems. fold (field kvs "totalCount" (JNum 0)) in Hitems.
  fold (field kvs "items" (JArr [])) in Hitems.
  set (tc := field kvs "totalCount" (JNum 0)) in *.
  set (iv := field kvs "items" (JArr [])) in *.
  assert (Hrest : forall tp pre,
    (page =? 1) && py_eq_int tc 0 = false ->
    (page = 1 -> tp = field kvs "lastPage" (JNum 1)) ->
    (page <> 1 -> tp = total_pages) ->
    pages_collected pre = [] -> pages_failed pre = [] -> writes pre = [] ->
    fetches pre = [] ->
    exists r e2,
      take_items (JObj kvs) page tp all w1 = (r, w1, e2)
      /\ step_ok page total_pages all r (e1 ++ pre ++ e2)).
  { intros tp pre Hz Htp1 Htpn Hpc' Hpf' Hw' Hfe'. rewrite Hz in Hitems.
    assert (Hpre_items : items_fetched pre = [])
      by (unfold items_fetched; rewrite Hfe'; reflexivity).
    assert (Hpre_pages : pages_fetched pre = [])
      by (unfold pages_fetched; rewrite Hfe'; reflexivity).
    rewrite take_items_object. fold iv.
    destruct (py_iter iv) as [items|x] eqn:Hiter.
    2:{ do 2 eexists. split; [reflexivity|]. split.
        - destruct iv; simpl in Hiter; inversion Hiter; discriminate.
        - apply Hbad. apply andb_false_iff. right.
          subst iv. unfold field in Hiter.
          destruct (dict_get "items" kvs) as [v|];
            [destruct v; simpl in Hiter; try discriminate; reflexivity
            |simpl in Hiter; discriminate]. }
    cbv zeta.
    destruct (py_int_ge page tp) as [last|x] eqn:Hge.
    2:{ do 2 eexists. split; [reflexivity|]. split.
        - destruct tp; simpl in Hge; inversion Hge; discriminate.
        - destruct (Z.eq_dec page 1) as [P1|P1].
          + apply Hbad. apply andb_false_iff. left.
            rewrite (Htp1 P1) in Hge. unfold field in *.
            destruct (dict_get "lastPage" kvs) as [v|];
              [destruct v; simpl in Hge; try discriminate; reflexivity
              |simpl in Hge; discriminate].
          + destruct Htp as [Htp|(n & Htp)]; [contradiction|].
            rewrite (Htpn P1), Htp in Hge. discriminate. }
    assert (Hobs : forall tail,
      fetches tail = [] -> pages_failed tail = [] -> writes tail = [] ->
      pages_collected tail = [] ->
      collected page all (all ++ items)
        (e1 ++ pre ++
         EvLog INFO (MPageCollected page tp (Datatypes.length items))
         :: tail) 1).
    { intros tail Hft Hpft Hwt Hpct. unfold collected.
      assert (Hti : items_fetched tail = [])
        by (unfold items_fetched; rewrite Hft; reflexivity).
      assert (Htp' : pages_fetched tail = [])
        by (unfold pages_fetched; rewrite Hft; reflexivity).
      change (EvLog INFO (MPageCollected page tp (Datatypes.length items))
              :: tail)
        with ([EvLog INFO (MPageCollected page tp (Datatypes.length items))]
              ++ tail)%list.
      rewrite !items_fetched_app, !pages_fetched_app, !pages_collected_app,
        !pages_failed_app, !writes_app, Hitems, Hpages, Hpc, Hpf, Hw,
        Hpre_items, Hpre_pages, Hpc', Hpf', Hw', Hti, Htp', Hpft, Hwt, Hpct.
      unfold pages_from. simpl. rewrite !app_nil_r, Z.add_0_r, Nat.add_0_r.
      repeat split; try reflexivity; auto. }
    destruct last.
    - do 2 eexists. split; [reflexivity|].
      exists 1%nat. split; [lia|].
      apply (Hobs []); reflexivity.
    - do 2 eexists. split; [reflexivity|].
      split; [apply (Hobs [EvSleep (1 # 2)]); reflexivity|].
      split.
      { rewrite !pages_failed_app, Hpf, Hpf'. reflexivity. }
      destruct (Z.eq_dec page 1) as [P1|P1].
      + rewrite (Htp1 P1) in *. subst page.
        destruct (field kvs "lastPage" (JNum 1)) as [|b|n| | |];
          simpl in Hge; try discriminate.
        * destruct b; simpl in Hge; discriminate.
        * exists n. split; [reflexivity|]. split; [|intros; congruence].
          inversion Hge as [Hge'].
          destruct (Z.geb_spec 1 n); [discriminate|lia].
      + destruct Htp as [Htp|(n & Htp)]; [contradiction|].
        rewrite (Htpn P1), Htp in *. exists n. split; [reflexivity|].
        split; [|reflexivity]. simpl in Hge. inversion Hge as [Hge'].
        destruct (Z.geb_spec page n); [discriminate|lia]. }
  destruct (page =? 1) eqn:P1; unfold bind; cbv beta iota.
  - rewrite read_totals_object. fold tc. simpl in Hrest, Hitems.
    destruct (py_eq_int tc 0) eqn:Z0.
    + unfold ret. do 3 eexists. split; [reflexivity|]. split; [assumption|].
      exists 1%nat. split; [lia|]. unfold collected.
      cbn [app].
      rewrite ?items_fetched_app, ?pages_fetched_app, ?pages_collected_app,
        ?pages_failed_app, ?writes_app, Hitems, Hpages, Hpc, Hpf, Hw.
      unfold pages_from. simpl. rewrite ?app_nil_r, Z.add_0_r.
      repeat split; try reflexivity; auto.
    + apply Z.eqb_eq in P1.
      destruct (Hrest (field kvs "lastPage" (JNum 1))
                  [EvLog INFO
                     (MTotals data_key tc (field kvs "lastPage" (JNum 1)))])
        as (r & e2 & Ht & Hok); auto; try reflexivity;
        [intros; contradiction|].
      rewrite Ht. do 3 eexists. split; [reflexivity|]. split; [assumption|].
      exact Hok.
  - apply Z.eqb_neq in P1. unfold ret.
    destruct (Hrest total_pages []) as (r & e2 & Ht & Hok);
      auto; try reflexivity; [intros; contradiction|].
    rewrite Ht. do 3 eexists. split; [reflexivity|]. split; [assumption|].
    exact Hok.
Qed.

Lemma pages_from_cons first k :
  first :: pages_from (first + 1) k = pages_from first (S k).
Proof.
  unfold pages_from. simpl. rewrite Z.add_0_r. f_equal.
  rewrite <- seq_shift, map_map. apply map_ext. intros i. lia.
Qed.

Lemma collected_step page all d d' e1 e2 k :
  collected page all d e1 1 -> pages_failed e1 = [] ->
  collected (page + 1) d d' e2 k ->
  collected page all d' (e1 ++ e2) (S k).
Proof.
  intros (Hd & Hp & Hn & _ & Hw) Hf (Hd' & Hp' & Hn' & Hf' & Hw').
  unfold collected.
  rewrite items_fetched_app, pages_fetched_app, pages_collected_app,
    pages_failed_app, writes_app, map_app, list_sum_app, length_app,
    Hp, Hp', Hn, Hn', Hf, Hw, Hw'.
  split; [rewrite Hd', Hd, app_assoc; reflexivity|].
  split; [unfold pages_from at 1; simpl; rewrite Z.add_0_r;
          apply pages_from_cons|].
  split; [reflexivity|].
  split; [|reflexivity].
  simpl. replace (page + Z.pos (Pos.of_succ_nat k)) with (page + 1 + Z.of_nat k)
    by lia. assumption.
Qed.

Lemma page_loop_spec endpoint data_key page_size n :
  forall fuel page all w,
    1 < page -> page <= n -> Z.of_nat fuel = n - page + 1 ->
    exists r w' evs,
      page_loop endpoint data_key page_size fuel page (JNum n) all w
      = (r, w', evs)
      /\ cfg w' = cfg w
      /\ loop_ok page all r evs.
Proof.
  induction fuel as [|fuel IH]; intros page all w Hpage Hle Hfuel; [lia|].
  destruct (page_step_spec endpoint data_key page_size page (JNum n) all w)
    as (r & w1 & e1 & R1 & Hc1 & Hok); [right; eauto|].
  simpl. unfold bind. rewrite R1.
  destruct r as [[d|tp d]|x]; simpl in Hok.
  - destruct Hok as (k & _ & Hcol).
    exists (Ok d), w1, (e1 ++ [])%list. split; [reflexivity|].
    split; [assumption|]. rewrite app_nil_r. exists k. assumption.
  - destruct Hok as (Hcol & Hf & m & -> & Hlt & Hsame).
    assert (Hm : JNum m = JNum n) by (apply Hsame; lia).
    inversion Hm; subst m.
    destruct (IH (page + 1) d w1 ltac:(lia) ltac:(lia) ltac:(lia))
      as (r2 & w2 & e2 & R2 & Hc2 & Hok2).
    rewrite R2. exists r2, w2, (e1 ++ e2)%list. split; [reflexivity|].
    split; [congruence|].
    destruct r2 as [d'|x]; simpl in *.
    + destruct Hok2 as (k & Hcol2). exists (S k).
      eapply collected_step; eassumption.
    + destruct Hok2 as [Hx Hwf]. split; [assumption|].
      rewrite bodies_wf_app, Hwf. apply andb_false_r.
  - exists (Raise x), w1, e1. auto.
Qed.

Lemma collected_framed first all d evs k lvl1 m1 lvl2 m2 :
  collected first all d evs k ->
  pages_collected [EvLog lvl1 m1; EvLog lvl2 m2] = [] ->
  pages_failed [EvLog lvl1 m1; EvLog lvl2 m2] = [] ->
  collected first all d ([EvLog lvl1 m1] ++ evs ++ [EvLog lvl2 m2]) k.
Proof.
  intros (Hd & Hp & Hn & Hf & Hw) Hpc Hpf. unfold collected.
  rewrite !items_fetched_app, !pages_fetched_app, !pages_collected_app,
    !pages_failed_app, !writes_app.
  assert (Hpc1 : pages_collected [EvLog lvl1 m1] = [])
    by (destruct m1; try discriminate; reflexivity).
  assert (Hpc2 : pages_collected [EvLog lvl2 m2] = [])
    by (destruct m1; try discriminate; destruct m2; try discriminate;
        reflexivity).
  assert (Hpf1 : pages_failed [EvLog lvl1 m1] = [])
    by (destruct m1; try discriminate; reflexivity).
  assert (Hpf2 : pages_failed [EvLog lvl2 m2] = [])
    by (destruct m1; try discriminate; destruct m2; try discriminate;
        reflexivity).
  rewrite Hpc1, Hpc2, Hpf1, Hpf2. simpl. rewrite !app_nil_r.
  repeat split; assumption.
Qed.

Lemma collect_paginated_data_spec endpoint data_key page_size w :
  exists r w' evs,
    collect_paginated_data endpoint data_key page_size w = (r, w', evs)
    /\ cfg w' = cfg w
    /\ loop_ok 1 [] r evs.
Proof.
  destruct (page_step_spec endpoint data_key page_size 1 JNull [] w)
    as (r & w1 & e1 & R1 & Hc1 & Hok); [left; reflexivity|].
  unfold collect_paginated_data, bind, log, emit, ret. rewrite R1.
  assert (Hdone : forall d e k, collected 1 [] d e k ->
    loop_ok 1 [] (Ok d)
      ([EvLog INFO (MCollectStart data_key)] ++ e
       ++ [EvLog INFO (MCollectDone data_key (List.length d))])).
  { intros d e k Hcol. exists k. apply collected_framed; auto. }
  assert (Hfail : forall e tail, bodies_wf e = false ->
    bodies_wf ([EvLog INFO (MCollectStart data_key)] ++ e ++ tail) = false).
  { intros e tail He. rewrite !bodies_wf_app, He. reflexivity. }
  destruct r as [[d|tp d]|x]; simpl in Hok.
  - destruct Hok as (k & _ & Hcol).
    do 3 eexists. split; [reflexivity|]. split; [assumption|].
    pose proof (Hdone d e1 k Hcol) as H. simpl in *. exact H.
  - destruct Hok as (Hcol & Hf & n & -> & Hlt & _).
    destruct (page_loop_spec endpoint data_key page_size n
                (pages_left (JNum n)) 2 d w1 ltac:(lia) ltac:(lia)
                ltac:(simpl; lia))
      as (r2 & w2 & e2 & R2 & Hc2 & Hok2).
    rewrite R2. destruct r2 as [d'|x]; simpl in Hok2.
    + destruct Hok2 as (k & Hcol2).
      do 3 eexists. split; [reflexivity|]. split; [congruence|].
      pose proof (Hdone d' (e1 ++ e2)%list (S k)
                    (collected_step _ _ _ _ _ _ _ Hcol Hf Hcol2)) as H.
      simpl in *. rewrite <- ?app_assoc in *. exact H.
    + destruct Hok2 as [Hx Hwf].
      do 3 eexists. split; [reflexivity|]. split; [congruence|].
      split; [assumption|]. simpl.
      pose proof (Hfail (e1 ++ e2)%list [] ltac:(rewrite bodies_wf_app, Hwf;
                                                   apply andb_false_r)) as H.
      simpl in H. rewrite ?app_nil_r, <- ?app_assoc in *. exact H.
  - destruct Hok as [Hx Hwf].
    do 3 eexists. split; [reflexivity|]. split; [assumption|].
    split; [assumption|]. rewrite <- (app_nil_r e1) at 1. exact (Hfail e1 [] Hwf).
Qed.

(** *** The paginated collector *)

(** The bound of the page loop is never hit: the loop always ends by itself. *)
Lemma collect_paginated_data_fuel endpoint data_key page_size w :
  result_of (collect_paginated_data endpoint data_key page_size w)
  <> Raise LoopFuel.
Proof.
  destruct (collect_paginated_data_spec endpoint data_key page_size w)
    as (r & w' & evs & R & _ & Hok).
  rewrite R. unfold result_of. cbn [fst]. destruct r as [d|x]; [discriminate|].
  destruct Hok as [Hx _]. intros H. inversion H. contradiction.
Qed.

(** *** The pages that were requested *)

Lemma pages_attempted_app e1 e2 :
  pages_attempted (e1 ++ e2)
  = (pages_attempted e1 ++ pages_attempted e2)%list.
Proof. unfold pages_attempted. rewrite api_attempts_app. apply flat_map_app. Qed.

(** the attempts of a call of [make_request] with a budget of three: there
    is at least one, and each one asks for the page *)
Lemma page_request_attempts url page page_size w j w1 e1 :
  make_request url (page_params page page_size) 3 w = (Ok j, w1, e1) ->
  pages_attempted e1 <> [] /\ Forall (eq page) (pages_attempted e1).
Proof.
  intros R.
  destruct (make_request_spec url (page_params page page_size) 3 w)
    as (j0 & w0 & evs0 & R0 & _ & Hev & _ & _ & Hverdict & _).
  rewrite R in R0. injection R0 as <- <- <-.
  destruct (request_event_facts _ _ _ Hev) as (_ & _ & _ & _ & Hatt).
  unfold pages_attempted.
  assert (Hall : forall l : list (Request * Outcome),
    Forall (fun ro => req_url (fst ro) = url
                      /\ req_params (fst ro) = page_params page page_size) l ->
    flat_map (fun ro => match dict_get "page" (req_params (fst ro)) with
                        | Some p => [p]
                        | None => []
                        end) l = map (fun _ => page) l).
  { induction 1 as [|ro l [_ Hp] _ IH]; [reflexivity|].
    cbn [flat_map map]. rewrite Hp, IH. reflexivity. }
  rewrite (Hall _ Hatt).
  split.
  - destruct Hverdict as [(_ & Hn & _) | (init & req & o & -> & _)];
      [discriminate|].
    rewrite map_app. intros H. apply app_eq_nil in H. destruct H as [_ H].
    discriminate.
  - apply Forall_forall. intros p Hin. apply in_map_iff in Hin.
    destruct Hin as (ro & <- & _). reflexivity.
Qed.

(** one iteration of the page loop asks for its page, and for no other; the
    page is fetched, or it is reported as failed and the loop is left *)
Lemma page_step_attempts endpoint data_key page_size page total_pages all w :
  exists r w' evs,
    page_step endpoint data_key page_size page total_pages all w = (r, w', evs)
    /\ pages_attempted evs <> []
    /\ Forall (eq page) (pages_attempted evs)
    /\ ((pages_fetched evs = [page] /\ pages_failed evs = [])
        \/ (pages_fetched evs = []
            /\ pages_failed evs = [(ERROR, page)]
            /\ exists d, r = Ok (Break d))).
Proof.
  destruct (make_request_fetch (base_url (cfg w) ++ endpoint)
              (page_params page page_size) 3 w)
    as (j & w1 & e1 & R1 & _ & Hev1 & Hf).
  destruct (page_request_attempts _ _ _ _ _ _ _ R1) as [Hne Hall].
  assert (Hf' : (fetches e1 = [] /\ j = JNull)
                \/ (exists req, fetches e1 = [(req, j)]
                     /\ req_url req = (base_url (cfg w) ++ endpoint)
                     /\ req_params req = page_params page page_size /\ True)).
  { destruct Hf as [Hf|(req & ? & ? & ? & _)]; [left; assumption|].
    right. exists req. auto. }
  destruct (page_fetch_facts _ _ _ _ Hev1 j Hf')
    as (_ & Hpages & _ & _ & _ & Hpf).
  clear Hf Hf' Hev1.
  unfold page_step, bind at 1 2, get_world. rewrite R1. cbv beta iota.
  destruct (truthy j) eqn:Tj; cbv beta iota delta [negb].
  - unfold read_totals, take_items, bind, log, emit, lift, ret, sleep.
    run_leaf.
    all: do 3 eexists; split; [reflexivity|].
    all: rewrite ?pages_attempted_app, ?pages_fetched_app, ?pages_failed_app,
           Hpages, Hpf; cbn; rewrite ?app_nil_r.
    all: split; [assumption|]; split; [assumption|]; left; split; reflexivity.
  - do 3 eexists. split; [reflexivity|].
    rewrite ?pages_attempted_app, ?pages_fetched_app, ?pages_failed_app,
      Hpages, Hpf. cbn. rewrite ?app_nil_r.
    split; [assumption|]. split; [assumption|]. right.
    split; [reflexivity|]. split; [reflexivity|]. eexists. reflexivity.
Qed.

Lemma requested_ok_step page e1 :
  pages_attempted e1 <> [] -> Forall (eq page) (pages_attempted e1) ->
  (pages_fetched e1 = [page] /\ pages_failed e1 = [])
  \/ (pages_fetched e1 = [] /\ pages_failed e1 = [(ERROR, page)]) ->
  requested_ok e1.
Proof.
  intros Hne Hall H. unfold requested_ok.
  destruct H as [[Hp Hf]|[Hp Hf]]; rewrite Hp, Hf.
  - split; [|left; reflexivity].
    eapply Forall_impl; [|exact Hall]. intros p <-. left. left. reflexivity.
  - split.
    + eapply Forall_impl; [|exact Hall]. intros p <-. right. reflexivity.
    + right. exists page. split; [reflexivity|].
      destruct (pages_attempted e1) as [|p l]; [contradiction|].
      inversion Hall; subst. left. reflexivity.
Qed.

Lemma requested_ok_app page e1 e2 :
  Forall (eq page) (pages_attempted e1) ->
  pages_fetched e1 = [page] -> pages_failed e1 = [] ->
  requested_ok e2 -> requested_ok (e1 ++ e2).
Proof.
  intros Hall Hp Hf [H2 F2]. unfold requested_ok.
  rewrite pages_attempted_app, pages_fetched_app, pages_failed_app, Hp, Hf.
  cbn [app]. split.
  - apply Forall_app. split.
    + eapply Forall_impl; [|exact Hall]. intros p <-. left. left. reflexivity.
    + eapply Forall_impl; [|exact H2]. intros p [H|H]; [left; right|right];
        assumption.
  - destruct F2 as [F2|(p & F2 & Hin)]; [left; assumption|].
    right. exists p. split; [assumption|]. apply in_or_app. right. assumption.
Qed.

Lemma requested_ok_nil_r evs : requested_ok evs -> requested_ok (evs ++ []).
Proof. rewrite app_nil_r. auto. Qed.

Lemma page_loop_attempts endpoint data_key page_size fuel :
  forall page total_pages all w,
    requested_ok
      (events_of (page_loop endpoint data_key page_size fuel page total_pages
                    all w)).
Proof.
  induction fuel as [|fuel IH]; intros page total_pages all w;
    cbn [page_loop].
  - split; [constructor|left; reflexivity].
  - destruct (page_step_attempts endpoint data_key page_size page total_pages
                all w) as (r & w1 & e1 & R1 & Hne & Hall & H).
    unfold bind. rewrite R1.
    destruct r as [[d|tp d]|x].
    + unfold ret, events_of. cbn [snd]. apply requested_ok_nil_r.
      eapply requested_ok_step; [eassumption|eassumption|].
      destruct H as [H|(Hp & Hf & _)]; [left; assumption|right; auto].
    + specialize (IH (page + 1) tp d w1).
      destruct (page_loop endpoint data_key page_size fuel (page + 1) tp d w1)
        as [[r2 w2] e2].
      unfold events_of in *. cbn [snd] in *.
      destruct H as [[Hp Hf]|(_ & _ & d0 & Hd)]; [|discriminate].
      eapply requested_ok_app; eassumption.
    + unfold events_of. cbn [snd].
      eapply requested_ok_step; [eassumption|eassumption|].
      destruct H as [H|(Hp & Hf & _)]; [left; assumption|right; auto].
Qed.

Lemma requested_ok_same e e' :
  pages_attempted e = pages_attempted e' ->
  pages_fetched e = pages_fetched e' ->
  pages_failed e = pages_failed e' ->
  requested_ok e' -> requested_ok e.
Proof. unfold requested_ok. intros -> -> ->. auto. Qed.

Ltac same_pages :=
  rewrite ?pages_attempted_app, ?pages_fetched_app, ?pages_failed_app;
  cbn [pages_attempted pages_fetched pages_failed fetches api_attempts
         flat_map app];
  rewrite ?app_nil_r; reflexivity.

(** the requests of a whole call: page 1 is asked for, and every page that
    is asked for is fetched or reported as failed *)
Lemma collect_paginated_data_attempts endpoint data_key page_size w :
  let evs := events_of (collect_paginated_data endpoint data_key page_size w) in
  In 1 (pages_attempted evs) /\ requested_ok evs.
Proof.
  destruct (page_step_attempts endpoint data_key page_size 1 JNull [] w)
    as (r & w1 & e1 & R1 & Hne & Hall & H).
  assert (Hin : In 1 (pages_attempted e1)).
  { destruct (pages_attempted e1) as [|p l]; [contradiction|].
    inversion Hall; subst. left. reflexivity. }
  assert (Hstep : requested_ok e1).
  { eapply requested_ok_step; [eassumption|eassumption|].
    destruct H as [H|(Hp & Hf & _)]; [left; assumption|right; auto]. }
  cbv zeta. unfold collect_paginated_data, bind, log, emit, ret. rewrite R1.
  destruct r as [[d|tp d]|x].
  - unfold events_of. cbn [snd]. split.
    + rewrite !pages_attempted_app, !in_app_iff. tauto.
    + apply (requested_ok_same _ e1); [same_pages..|assumption].
  - pose proof (page_loop_attempts endpoint data_key page_size (pages_left tp)
                  2 tp d w1) as Hloop.
    destruct (page_loop endpoint data_key page_size (pages_left tp) 2 tp d w1)
      as [[r2 w2] e2].
    unfold events_of in *. cbn [snd] in *.
    destruct H as [[Hp Hf]|(_ & _ & d0 & Hd)]; [|discriminate].
    assert (Hboth : requested_ok (e1 ++ e2))
      by (eapply requested_ok_app; eassumption).
    destruct r2 as [d2|x2]; cbn [snd]; split.
    + rewrite !pages_attempted_app, !in_app_iff. tauto.
    + apply (requested_ok_same _ (e1 ++ e2)); [same_pages..|assumption].
    + rewrite !pages_attempted_app, !in_app_iff. tauto.
    + apply (requested_ok_same _ (e1 ++ e2)); [same_pages..|assumption].
  - unfold events_of. cbn [snd]. split.
    + rewrite !pages_attempted_app, !in_app_iff. tauto.
    + apply (requested_ok_same _ e1); [same_pages..|assumption].
Qed.

(** C1 (as amended).  For every run of [collect_paginated_data] in which the
    bodies handed back are well-formed envelopes, the call returns; the pages
    it fetched are 1, 2, ..., k in this order; the list it returns is the
    concatenation, in page order, of the items it took from them, each page's
    items in their order within the page; its length is the sum of the item
    counts the call reported for the pages it collected.  A request for page
    1 is always sent, and every page for which a request was sent was fetched
    or is reported as failed in a log record of level ERROR: if a page fetch
    failed, it is the fetch of page k + 1, nothing after it was fetched, and
    this page is the only one reported; and a page is reported as failed only
    if a request for it was sent. *)
Theorem collect_paginated_data_pages endpoint data_key page_size w :
  let run := collect_paginated_data endpoint data_key page_size w in
  bodies_wf (events_of run) = true ->
  exists result k,
    result_of run = Ok result
    /\ pages_fetched (events_of run) = first_pages k
    /\ result = items_fetched (events_of run)
    /\ List.length result
       = list_sum (map snd (pages_collected (events_of run)))
    /\ (pages_failed (events_of run) = []
        \/ pages_failed (events_of run) = [(ERROR, Z.of_nat k + 1)])
    /\ In 1 (pages_attempted (events_of run))
    /\ Forall (fun p => In p (pages_fetched (events_of run))
                        \/ pages_failed (events_of run) = [(ERROR, p)])
         (pages_attempted (events_of run))
    /\ (pages_failed (events_of run) = []
        \/ In (Z.of_nat k + 1) (pages_attempted (events_of run))).
Proof.
  intros run Hwf. subst run.
  destruct (collect_paginated_data_attempts endpoint data_key page_size w)
    as (Hfirst & Hreq & Hrep).
  destruct (collect_paginated_data_spec endpoint data_key page_size w)
    as (r & w' & evs & R & _ & Hok).
  rewrite R in *. unfold result_of, events_of in *. cbn [fst snd] in *.
  destruct r as [d|x]; cbn [loop_ok] in Hok.
  - destruct Hok as (k & Hd & Hp & Hn & Hf & _). simpl in Hd.
    subst d. exists (items_fetched evs), k. rewrite Z.add_comm.
    repeat (split; [solve [auto]|]).
    destruct Hrep as [Hrep|(p & Hrep & Hin)]; [left; assumption|].
    right. destruct Hf as [Hf|Hf]; rewrite Hf in Hrep; [discriminate|].
    injection Hrep as <-. assumption.
  - destruct Hok as [_ Hbad]. congruence.
Qed.

(** the four ways through the body of the page loop, after the call of
    [make_request] has returned [j] *)
Lemma page_step_failed endpoint data_key page_size page tp all w j w1 e1 :
  make_request (base_url (cfg w) ++ endpoint) (page_params page page_size) 3 w
  = (Ok j, w1, e1) ->
  truthy j = false ->
  page_step endpoint data_key page_size page tp all w
  = (Ok (Break all), w1, (e1 ++ [EvLog ERROR (MPageFailed data_key page)])%list).
Proof.
  intros R Tj. unfold page_step, bind at 1 2, get_world. rewrite R.
  cbv beta iota. rewrite Tj. reflexivity.
Qed.

Lemma page_step_not_object endpoint data_key page_size page tp all w j w1 e1 :
  make_request (base_url (cfg w) ++ endpoint) (page_params page page_size) 3 w
  = (Ok j, w1, e1) ->
  truthy j = true -> is_object j = false ->
  page_step endpoint data_key page_size page tp all w
  = (Raise AttributeError, w1, e1).
Proof.
  intros R Tj Oj. unfold page_step, bind at 1 2, get_world. rewrite R.
  cbv beta iota. rewrite Tj. cbv beta iota delta [negb].
  destruct (not_object_raises data_key j page tp all w1 Oj) as [E1 E2].
  destruct (page =? 1); unfold bind, ret; rewrite ?E1, ?E2;
    cbn [app]; rewrite ?app_nil_r; reflexivity.
Qed.

Lemma page_step_zero_total endpoint data_key page_size tp all w kvs w1 e1 :
  make_request (base_url (cfg w) ++ endpoint) (page_params 1 page_size) 3 w
  = (Ok (JObj kvs), w1, e1) ->
  truthy (JObj kvs) = true ->
  py_eq_int (field kvs "totalCount" (JNum 0)) 0 = true ->
  page_step endpoint data_key page_size 1 tp all w
  = (Ok (Break all), w1,
     (e1 ++ [EvLog INFO (MTotals data_key (field kvs "totalCount" (JNum 0))
                           (field kvs "lastPage" (JNum 1)));
             EvLog WARNING (MNoRecords data_key)])%list).
Proof.
  intros R Tj Z0. unfold page_step, bind at 1 2, get_world. rewrite R.
  cbv beta iota. rewrite Tj. cbv beta iota delta [negb].
  change (1 =? 1) with true. cbv beta iota. unfold bind, ret.
  rewrite read_totals_object, Z0. reflexivity.
Qed.

Lemma page_step_items endpoint data_key page_size page tp all w kvs w1 e1 :
  make_request (base_url (cfg w) ++ endpoint) (page_params page page_size) 3 w
  = (Ok (JObj kvs), w1, e1) ->
  truthy (JObj kvs) = true ->
  (page =? 1) && py_eq_int (field kvs "totalCount" (JNum 0)) 0 = false ->
  page_step endpoint data_key page_size page tp all w
  = (let tp' := if page =? 1 then field kvs "lastPage" (JNum 1) else tp in
     let pre :=
       if page =? 1
       then [EvLog INFO (MTotals data_key (field kvs "totalCount" (JNum 0))
                           (field kvs "lastPage" (JNum 1)))]
       else [] in
     match take_items (JObj kvs) page tp' all w1 with
     | (r, w2, e2) => (r, w2, (e1 ++ pre ++ e2)%list)
     end).
Proof.
  intros R Tj Z0. unfold page_step, bind at 1 2, get_world. rewrite R.
  cbv beta iota. rewrite Tj. cbv beta iota delta [negb].
  destruct (page =? 1); cbv beta iota zeta; unfold bind, ret.
  - rewrite read_totals_object. simpl in Z0. rewrite Z0.
    destruct (take_items _ _ _ _ w1) as [[r w2] e2]. reflexivity.
  - destruct (take_items _ _ _ _ w1) as [[r w2] e2]. reflexivity.
Qed.

Lemma requests_log lvl m evs : requests (EvLog lvl m :: evs) = requests evs.
Proof. reflexivity. Qed.

Lemma pages_failed_start data_key evs :
  pages_failed (EvLog INFO (MCollectStart data_key) :: evs) = pages_failed evs.
Proof. reflexivity. Qed.

Lemma fetches_start data_key evs :
  fetches (EvLog INFO (MCollectStart data_key) :: evs) = fetches evs.
Proof. reflexivity. Qed.

(** the first body handed back in a run of [collect_paginated_data] is the
    one of its first [make_request] *)
Lemma first_fetch endpoint data_key page_size w j w1 e1 :
  make_request (base_url (cfg w) ++ endpoint) (page_params 1 page_size) 3 w
  = (Ok j, w1, e1) ->
  exists tail,
    events_of (collect_paginated_data endpoint data_key page_size w)
    = (EvLog INFO (MCollectStart data_key) :: e1 ++ tail)%list
    /\ (fetches e1 = [] -> j = JNull -> fetches tail = []).
Proof.
  intros R.
  assert (Hstep : forall r w2 e2,
    page_step endpoint data_key page_size 1 JNull [] w = (r, w2, (e1 ++ e2)%list) ->
    (fetches e1 = [] -> j = JNull -> fetches e2 = []
                                     /\ exists d, r = Ok (Break d)) ->
    exists tail,
      events_of (collect_paginated_data endpoint data_key page_size w)
      = (EvLog INFO (MCollectStart data_key) :: e1 ++ tail)%list
      /\ (fetches e1 = [] -> j = JNull -> fetches tail = [])).
  { intros r w2 e2 Hs Hnone.
    unfold collect_paginated_data, bind, log, emit, ret. rewrite Hs.
    destruct r as [[d|tp d]|x]; cbn [app].
    - eexists. split; [unfold events_of; cbn [snd app];
                       rewrite <- app_assoc; reflexivity|].
      intros H1 H2. destruct (Hnone H1 H2) as [He2 _].
      rewrite fetches_app, He2. reflexivity.
    - destruct (page_loop _ _ _ _ _ _ _ w2) as [[r3 w3] e3].
      destruct r3; (eexists; split;
        [unfold events_of; cbn [snd app]; rewrite <- ?app_assoc; reflexivity|]);
        intros H1 H2; destruct (Hnone H1 H2) as [_ [d' Hd']]; discriminate.
    - eexists. split; [unfold events_of; cbn [snd app]; reflexivity|].
      intros H1 H2. destruct (Hnone H1 H2) as [_ [d' Hd']]. discriminate. }
  destruct (truthy j) eqn:Tj.
  2:{ eapply Hstep; [apply (page_step_failed _ _ _ _ _ _ _ _ _ _ R Tj)|].
      intros _ _. split; [reflexivity|eauto]. }
  destruct (is_object j) eqn:Oj.
  2:{ eapply Hstep;
        [rewrite (page_step_not_object _ _ _ _ _ _ _ _ _ _ R Tj Oj),
           <- (app_nil_r e1) at 1; reflexivity|].
      intros _ ->. discriminate. }
  destruct j as [| | | | |kvs]; try discriminate.
  destruct (py_eq_int (field kvs "totalCount" (JNum 0)) 0) eqn:Z0.
  - eapply Hstep; [apply (page_step_zero_total _ _ _ _ _ _ _ _ _ R Tj Z0)|].
    intros _ H. discriminate.
  - pose proof (page_step_items endpoint data_key page_size 1 JNull [] w
                  kvs w1 e1 R Tj Z0) as Hs.
    cbv zeta in Hs. change (1 =? 1) with true in Hs. cbv iota in Hs.
    destruct (take_items (JObj kvs) 1 (field kvs "lastPage" (JNum 1)) [] w1)
      as [[r w2] e2].
    eapply Hstep; [exact Hs|]. intros _ H. discriminate.
Qed.

(** C2.  When the body handed back for the first page reports no record,
    [collect_paginated_data] returns the empty list, every request it sent
    with a page number asked for page 1, no page failure is reported and the
    statistics, the error counter among them, are what they were. *)
Theorem collect_paginated_data_empty endpoint data_key page_size w :
  let run := collect_paginated_data endpoint data_key page_size w in
  option_map (fun f => zero_total (snd f)) (hd_error (fetches (events_of run)))
  = Some true ->
  result_of run = Ok []
  /\ Forall (fun req => page_of req = None \/ page_of req = Some 1)
       (requests (events_of run))
  /\ pages_failed (events_of run) = []
  /\ stats (world_of run) = stats w.
Proof.
  intros run. subst run.
  destruct (make_request_fetch (base_url (cfg w) ++ endpoint)
              (page_params 1 page_size) 3 w)
    as (j & w1 & e1 & R1 & Hc1 & Hev1 & Hf).
  destruct (request_event_facts _ _ _ Hev1) as (_ & _ & Hpf1 & Hreq1 & _).
  assert (Hpages : Forall (fun req => page_of req = None \/ page_of req = Some 1)
                     (requests e1)).
  { eapply Forall_impl; [|exact Hreq1]. intros req [Hp|Hp];
      unfold page_of; rewrite Hp; auto. }
  destruct (first_fetch endpoint data_key page_size w j w1 e1 R1)
    as (tail & Hevs & Hnone).
  intros Hz. rewrite Hevs, fetches_start, fetches_app in Hz.
  destruct Hf as [(Hfe & Hj)|(req & Hfe & _ & _ & Hst)].
  - rewrite Hfe, (Hnone Hfe Hj) in Hz. discriminate.
  - rewrite Hfe in Hz. cbn [app hd_error option_map snd] in Hz.
    injection Hz as Hz. unfold zero_total in Hz.
    apply andb_true_iff in Hz. destruct Hz as [Tj Hz].
    destruct j as [| | | | |kvs]; try discriminate.
    unfold py_get in Hz. fold (field kvs "totalCount" (JNum 0)) in Hz.
    pose proof (page_step_zero_total endpoint data_key page_size JNull []
                  w kvs w1 e1 R1 Tj Hz) as Hs.
    unfold collect_paginated_data, bind, log, emit, ret. rewrite Hs.
    unfold result_of, events_of, world_of. cbn [fst snd app].
    split; [reflexivity|].
    rewrite requests_log, pages_failed_start, !requests_app,
      !pages_failed_app, Hpf1.
    cbn. rewrite ?app_nil_r. auto.
Qed.

(** *** The authenticator *)

(** every strategy but Basic Auth sends at least one request *)
Lemma try_web_login_requests w : requests (events_of (try_web_login w)) <> [].
Proof.
  unfold try_web_login, try_except, bind, log, emit, get_world, lift, when,
    modify, session_get, session_request, ret, events_of.
  run_leaf. all: discriminate.
Qed.

Lemma try_jsonws_login_requests w :
  requests (events_of (try_jsonws_login w)) <> [].
Proof.
  unfold try_jsonws_login, try_except, bind, log, emit, get_world, lift,
    session_request, ret, events_of.
  run_leaf. all: discriminate.
Qed.

Lemma try_oauth2_requests w : requests (events_of (try_oauth2 w)) <> [].
Proof.
  unfold try_oauth2, try_except, bind, log, emit, get_world, lift,
    set_session_header, modify, session_request, ret, events_of.
  run_leaf. all: discriminate.
Qed.

Lemma try_basic_auth_requests w cred :
  basic_credential (username (cfg w)) (password (cfg w)) = Ok cred ->
  requests (events_of (try_basic_auth w)) <> [].
Proof.
  unfold basic_credential, try_basic_auth, try_except, bind, log, emit,
    get_world, lift, set_session_header, modify, session_get,
    session_request, ret, events_of.
  destruct (encode_ascii _) as [bytes|x]; [|discriminate].
  intros _. run_leaf. all: discriminate.
Qed.

Lemma length_pos {A : Type} (l : list A) : l <> [] -> (1 <= List.length l)%nat.
Proof. destruct l; [contradiction|simpl; lia]. Qed.

(** the run of [authenticate_comprehensive] is made of the runs of the
    strategies, in order, up to the first one that returns [True] *)
Lemma authenticate_comprehensive_runs w :
  let run := authenticate_comprehensive w in
  let runs := strategy_runs strategy_order w in
  (exists closing,
     events_of run
     = ([EvLog INFO MAuthStart]
        ++ List.concat (map (fun sr => events_of (snd sr)) runs)
        ++ [EvLog (fst closing) (snd closing)])%list)
  /\ world_of run = world_of (snd (last runs (Basic, (Ok false, w, []))))
  /\ attempted (events_of run) = map fst runs
  /\ succeeded (events_of run)
     = map fst (filter (fun sr => returned_true (snd sr)) runs)
  /\ (List.length runs - 1 <= List.length (requests (events_of run)))%nat
  /\ (forall cred,
        basic_credential (username (cfg w)) (password (cfg w)) = Ok cred ->
        (List.length runs <= List.length (requests (events_of run)))%nat).
Proof.
  destruct (try_basic_auth_spec w)
    as (b1 & w1 & e1 & R1 & (Hc1 & _) & A1 & S1 & _).
  destruct (try_web_login_spec w1)
    as (b2 & w2 & e2 & R2 & _ & A2 & S2 & _).
  destruct (try_jsonws_login_spec w2)
    as (b3 & w3 & e3 & R3 & _ & A3 & S3 & _).
  destruct (try_oauth2_spec w3)
    as (b4 & w4 & e4 & R4 & _ & A4 & S4 & _).
  pose proof (try_basic_auth_requests w) as Q1.
  pose proof (length_pos _ (try_web_login_requests w1)) as Q2.
  pose proof (length_pos _ (try_jsonws_login_requests w2)) as Q3.
  pose proof (length_pos _ (try_oauth2_requests w3)) as Q4.
  rewrite R1 in Q1. rewrite R2 in Q2. rewrite R3 in Q3. rewrite R4 in Q4.
  unfold events_of in Q1, Q2, Q3, Q4. cbn [snd] in Q1, Q2, Q3, Q4.
  assert (Q1' : forall cred,
            basic_credential (username (cfg w)) (password (cfg w)) = Ok cred ->
            (1 <= List.length (requests e1))%nat).
  { intros cred Hc. apply length_pos. eapply Q1. eassumption. }
  clear Q1.
  assert (Hruns : strategy_runs strategy_order w
    = (Basic, (Ok b1, w1, e1))
      :: (if b1 then [] else
          (WebLogin, (Ok b2, w2, e2))
          :: (if b2 then [] else
              (JsonWS, (Ok b3, w3, e3))
              :: (if b3 then [] else [(OAuth2, (Ok b4, w4, e4))])))).
  { unfold strategy_order. cbn [strategy_runs strategy_run]. cbv zeta.
    rewrite R1. unfold returned_true, result_of, world_of. cbn [fst snd].
    destruct b1; [reflexivity|]. rewrite R2. cbn [fst snd].
    destruct b2; [reflexivity|]. rewrite R3. cbn [fst snd].
    destruct b3; [reflexivity|]. rewrite R4. cbn [fst snd].
    destruct b4; reflexivity. }
  assert (Hauth : authenticate_comprehensive w
    = if b1 then
        (Ok tt, w1, ([EvLog INFO MAuthStart] ++ e1
                     ++ [EvLog INFO (MAuthWorked Basic)])%list)
      else if b2 then
        (Ok tt, w2, ([EvLog INFO MAuthStart] ++ e1 ++ e2
                     ++ [EvLog INFO (MAuthWorked WebLogin)])%list)
      else if b3 then
        (Ok tt, w3, ([EvLog INFO MAuthStart] ++ e1 ++ e2 ++ e3
                     ++ [EvLog INFO (MAuthWorked JsonWS)])%list)
      else if b4 then
        (Ok tt, w4, ([EvLog INFO MAuthStart] ++ e1 ++ e2 ++ e3 ++ e4
                     ++ [EvLog INFO (MAuthWorked OAuth2)])%list)
      else
        (Ok tt, w4, ([EvLog INFO MAuthStart] ++ e1 ++ e2 ++ e3 ++ e4
                     ++ [EvLog WARNING MNoStrategyWorked])%list)).
  { unfold authenticate_comprehensive, bind, log, emit. rewrite R1.
    destruct b1; [reflexivity|]. cbv beta iota. rewrite R2.
    destruct b2; [reflexivity|]. cbv beta iota. rewrite R3.
    destruct b3; [reflexivity|]. cbv beta iota. rewrite R4.
    destruct b4; reflexivity. }
  cbv zeta. rewrite Hruns, Hauth. clear Hruns Hauth R1 R2 R3 R4.
  unfold events_of, world_of, returned_true, result_of.
  destruct b1; [|destruct b2; [|destruct b3; [|destruct b4]]];
    cbn [fst snd map List.concat last filter];
    (split; [first [ exists (INFO, MAuthWorked Basic); cbn [fst snd];
                     rewrite ?app_nil_r, <- ?app_assoc; reflexivity
                   | exists (INFO, MAuthWorked WebLogin); cbn [fst snd];
                     rewrite ?app_nil_r, <- ?app_assoc; reflexivity
                   | exists (INFO, MAuthWorked JsonWS); cbn [fst snd];
                     rewrite ?app_nil_r, <- ?app_assoc; reflexivity
                   | exists (INFO, MAuthWorked OAuth2); cbn [fst snd];
                     rewrite ?app_nil_r, <- ?app_assoc; reflexivity
                   | exists (WARNING, MNoStrategyWorked); cbn [fst snd];
                     rewrite ?app_nil_r, <- ?app_assoc; reflexivity ]|]);
    (split; [reflexivity|]);
    rewrite !attempted_app, !succeeded_app, !requests_app, !length_app,
      ?A1, ?S1, ?A2, ?S2, ?A3, ?S3, ?A4, ?S4;
    repeat split; try reflexivity; intros; simpl; try lia;
    match goal with
    | H : basic_credential _ _ = Ok _ |- _ => specialize (Q1' _ H); lia
    end.
Qed.

(** C3.  [authenticate_comprehensive] always returns normally.  It carries
    out the strategies Basic, form login, JSON-WS, OAuth2 in this order, each
    from the state the one before it left, and stops after the first one
    that returns [True]: its events are the opening record, the events of
    these runs, requests included, and one closing record, and the state it
    leaves is that of the last run.  The strategies it attempts are therefore
    the first k of the four, each once, for some k between 1 and 4, and the
    ones that report success are the ones that returned [True]: either the
    last one attempted is the only one and no warning is logged, or all four
    were attempted, none returned [True] and the only warning is that no
    strategy worked.  Nothing is logged at level ERROR.  Every strategy but
    Basic sends at least one request, and Basic does when the credentials
    can be encoded. *)
Theorem authenticate_comprehensive_order w :
  let run := authenticate_comprehensive w in
  let runs := strategy_runs strategy_order w in
  exists k,
    result_of run = Ok tt
    /\ (1 <= k <= 4)%nat
    /\ attempted (events_of run) = firstn k strategy_order
    /\ logged ERROR (events_of run) = []
    /\ ((succeeded (events_of run) = [nth (k - 1) strategy_order Basic]
         /\ logged WARNING (events_of run) = [])
        \/ (k = 4%nat /\ succeeded (events_of run) = []
            /\ logged WARNING (events_of run) = [MNoStrategyWorked]))
    /\ map fst runs = firstn k strategy_order
    /\ (exists closing,
          events_of run
          = ([EvLog INFO MAuthStart]
             ++ List.concat (map (fun sr => events_of (snd sr)) runs)
             ++ [EvLog (fst closing) (snd closing)])%list)
    /\ world_of run = world_of (snd (last runs (Basic, (Ok false, w, []))))
    /\ succeeded (events_of run)
       = map fst (filter (fun sr => returned_true (snd sr)) runs)
    /\ (k - 1 <= List.length (requests (events_of run)))%nat
    /\ (forall cred,
          basic_credential (username (cfg w)) (password (cfg w)) = Ok cred ->
          (k <= List.length (requests (events_of run)))%nat).
Proof.
  intros run runs. subst run runs.
  destruct (authenticate_comprehensive_runs w)
    as (Hev & Hw & Hatt & Hsucc & Hreq & Hreq1).
  destruct (authenticate_comprehensive_spec w)
    as (w' & evs & k & R & (_ & _ & Hh) & _ & Hk & Ha & Hs).
  rewrite R in *. unfold result_of, events_of in *. cbn [fst snd] in *.
  assert (Hlen : List.length (strategy_runs strategy_order w) = k).
  { rewrite <- (length_map fst), <- Hatt, Ha, length_firstn.
    simpl. lia. }
  rewrite Hlen in Hreq, Hreq1.
  exists k. split; [reflexivity|]. split; [exact Hk|].
  split; [exact Ha|]. split; [apply helper_no_error; assumption|].
  split; [tauto|]. split; [rewrite <- Hatt; exact Ha|].
  repeat split; assumption.
Qed.

(** *** The request executor *)

(** the first attempt of a call, when it is answered with a 401 or a 403 and
    the collector has credentials: a full run of [authenticate_comprehensive]
    from the state the answer left is part of the attempt *)
Lemma request_attempt_denied url params max_retries w resp s' :
  has_credentials w = true ->
  transport (remote w)
    (mkRequest GET url params
       (merge_headers (session_headers w) (api_headers w)) [] (Some 30)
       (verify_ssl (cfg w)))
  = (OResponse resp, s') ->
  denied (OResponse resp) = true ->
  exists r w' post tail,
    request_attempt url params max_retries 0 w
    = (Ok r, w',
       (post ++ events_of (authenticate_comprehensive (set_remote s' w))
        ++ tail)%list)
    /\ auth_runs post = 0%nat /\ auth_runs tail = 0%nat
    /\ api_attempts tail = []
    /\ exists req o, api_attempts post = [(req, o)].
Proof.
  intros Hc Ht Hd.
  destruct (authenticate_comprehensive_spec (set_remote s' w))
    as (wa & ea & k & Ra & _).
  assert (Hc1 : has_credentials (set_remote s' w) = true) by exact Hc.
  assert (H200 : (status_code resp =? 200) = false).
  { unfold denied in Hd. apply orb_true_iff in Hd.
    destruct Hd as [E|E]; apply Z.eqb_eq in E; rewrite E; reflexivity. }
  assert (Hraise : raise_for_status resp = Raise (HTTPError (status_code resp))).
  { unfold denied in Hd. apply orb_true_iff in Hd. unfold raise_for_status.
    destruct Hd as [E|E]; apply Z.eqb_eq in E; rewrite E; reflexivity. }
  set (req := mkRequest GET url params
                (merge_headers (session_headers w) (api_headers w)) []
                (Some 30) (verify_ssl (cfg w))) in *.
  set (debug := [EvLog DEBUG (MDebugUrl url);
                 EvLog DEBUG (MDebugParams params);
                 EvLog DEBUG (MDebugHeaders (api_headers w));
                 EvLog DEBUG (MDebugStatus (status_code resp));
                 EvLog DEBUG (MDebugResponseHeaders (resp_headers resp));
                 EvLog DEBUG (MDebugPreview (str_take 200 (resp_text resp)))]).
  set (warning := if status_code resp =? 403
                  then EvLog WARNING (MAccessDenied url)
                  else EvLog WARNING (MUnauthorized url)).
  set (tail := if 0 <? max_retries - 1
               then [EvSleep (inject_Z (2 ^ 0))] else []).
  exists (if 0 <? max_retries - 1 then None else Some JNull),
    (if 0 <? max_retries - 1 then wa
     else set_stats (bump_errors (stats wa)) wa),
    (EvHttp req (OResponse resp) :: debug
       ++ [warning; EvLog INFO MReauth])%list,
    tail.
  split.
  - unfold request_attempt, try_except, bind, get_world, session_request,
      log, emit, lift, when, ret.
    fold req. rewrite Ht. cbv beta iota. rewrite H200.
    change (0 =? 0) with true. cbv beta iota delta [negb andb].
    rewrite Hraise. cbv beta iota.
    assert (Hre : reauthenticate 0 (set_remote s' w)
                  = (Ok tt, wa, EvLog INFO MReauth :: ea)).
    { unfold reauthenticate, when, bind, log, emit, get_world.
      change (0 =? 0) with true. cbv beta iota. rewrite Hc1, Ra. reflexivity. }
    rewrite Ra. unfold events_of. cbn [snd].
    unfold backoff_or_give_up, inc_errors, modify, sleep, bind, emit, ret.
    subst warning tail debug.
    unfold denied in Hd. apply orb_true_iff in Hd.
    destruct (status_code resp =? 403) eqn:E3.
    + rewrite Hre. destruct (0 <? max_retries - 1);
        cbn [app fst snd]; rewrite ?app_nil_r, <- ?app_assoc; reflexivity.
    + destruct Hd as [Hd|Hd]; [discriminate|]. rewrite Hd, Hre.
      destruct (0 <? max_retries - 1);
        cbn [app fst snd]; rewrite ?app_nil_r, <- ?app_assoc; reflexivity.
  - subst tail warning debug.
    split; [destruct (status_code resp =? 403); reflexivity|].
    split; [destruct (0 <? max_retries - 1); reflexivity|].
    split; [destruct (0 <? max_retries - 1); reflexivity|].
    exists req, (OResponse resp).
    destruct (status_code resp =? 403); reflexivity.
Qed.

(** the first event of an attempt is its request, with what the transport
    answered to it *)
Lemma request_attempt_first url params max_retries attempt w :
  let req := mkRequest GET url params
               (merge_headers (session_headers w) (api_headers w)) []
               (Some 30) (verify_ssl (cfg w)) in
  exists rest,
    events_of (request_attempt url params max_retries attempt w)
    = EvHttp req (fst (transport (remote w) req)) :: rest.
Proof.
  unfold request_attempt, reauthenticate, backoff_or_give_up, try_except, bind,
    log, emit, sleep, get_world, lift, when, inc_errors, modify,
    session_request, ret, events_of.
  repeat (first [run_auth | break_match]; simpl in *; try discriminate).
  all: repeat match goal with
         | H : (_, _) = (_, _) |- _ => inversion H; subst; clear H
         end.
  all: eexists; reflexivity.
Qed.

(** a call whose first attempt is answered with a 401 or a 403, on a
    collector with credentials: the events of a full run of
    [authenticate_comprehensive] follow the first attempt, and no other run
    starts *)
Lemma make_request_denied url params max_retries w req o rest :
  has_credentials w = true ->
  api_attempts (events_of (make_request url params max_retries w))
  = (req, o) :: rest ->
  denied o = true ->
  exists first w1 later,
    events_of (make_request url params max_retries w)
    = (first ++ events_of (authenticate_comprehensive w1) ++ later)%list
    /\ cfg w1 = cfg w
    /\ api_attempts first = [(req, o)]
    /\ auth_runs first = 0%nat
    /\ auth_runs later = 0%nat.
Proof.
  intros Hc Hatt Hd.
  assert (Hcsrf : exists w0 e0,
    when (negb (opt_truthy (csrf_token w))) find_csrf_token w = (Ok tt, w0, e0)
    /\ quiet w w0 e0 /\ auth_runs e0 = 0%nat).
  { unfold when. destruct (negb (opt_truthy (csrf_token w))).
    - apply find_csrf_token_spec.
    - exists w, []. repeat split. }
  destruct Hcsrf as (w0 & e0 & R0 & (Hc0 & Hs0 & Hh0) & N0).
  pose proof (executor_no_api _ (helper_executor _ Hh0)) as Ha0.
  assert (Hc' : has_credentials w0 = true)
    by (unfold has_credentials in *; rewrite Hc0; exact Hc).
  assert (E : events_of (make_request url params max_retries w)
              = (e0 ++ events_of (request_attempts url params max_retries
                                    (Z.to_nat max_retries) 0 w0))%list).
  { unfold make_request, bind, get_world. rewrite R0.
    destruct (request_attempts _ _ _ _ _ w0) as [[? ?] ?]. reflexivity. }
  rewrite E in *. clear E.
  rewrite api_attempts_app, Ha0 in Hatt. cbn [app] in Hatt.
  destruct (Z.to_nat max_retries) as [|n] eqn:Hn; [discriminate|].
  destruct (request_attempt_first url params max_retries 0 w0) as (rest0 & Hfirst).
  cbv zeta in Hfirst.
  destruct (transport (remote w0) _) as [o0 s'] eqn:Ht. cbn [fst] in Hfirst.
  destruct (request_attempt_spec url params max_retries 0 w0)
    as (r & w' & req1 & o1 & rest1 & Hrun & _ & _ & Hapi & _ & Hex & _).
  rewrite Hrun in Hfirst. unfold events_of in Hfirst. cbn [snd] in Hfirst.
  injection Hfirst as Hreq -> ->.
  rewrite <- Hreq in Ht.
  assert (E : exists e2,
    events_of (request_attempts url params max_retries (S n) 0 w0)
    = (EvHttp req1 o0 :: rest0 ++ e2)%list
    /\ auth_runs e2 = 0%nat).
  { cbn [request_attempts]. unfold bind. rewrite Hrun. destruct r as [j|].
    - exists []. split; reflexivity.
    - destruct (request_attempts_spec url params max_retries n 1 w')
        as (j & w3 & e3 & R3 & _ & _ & _ & Hau & _); [lia|].
      change (Z.of_nat 1) with (0 + 1) in R3. rewrite R3.
      exists e3. split; [reflexivity|]. rewrite Hau.
      destruct (api_attempts e3) as [|[? ?] ?]; reflexivity. }
  destruct E as (e2 & E & Hlater). rewrite E in *. clear E.
  rewrite (api_attempts_attempt _ _ _ _ Hapi Hex) in Hatt.
  injection Hatt as -> -> _.
  destruct o as [| |resp]; try discriminate.
  rewrite Hreq in Ht.
  destruct (request_attempt_denied url params max_retries w0 resp s' Hc' Ht Hd)
    as (r' & w'' & post & tail & Hrun' & Hp & Htl & Hatl & (rq & oq & Hap)).
  rewrite Hrun in Hrun'. injection Hrun' as _ _ Hev.
  exists (e0 ++ post)%list, (set_remote s' w0), (tail ++ e2)%list.
  split.
  { change (EvHttp req (OResponse resp) :: rest0 ++ e2)%list
      with ((EvHttp req (OResponse resp) :: rest0) ++ e2)%list.
    rewrite Hev, <- !app_assoc. reflexivity. }
  split; [exact Hc0|].
  rewrite api_attempts_app, Ha0, !auth_runs_app, N0, Hp, Htl, Hlater.
  cbn [app].
  split; [|split; reflexivity].
  rewrite Hap.
  assert (Hone : api_attempts (EvHttp req (OResponse resp) :: rest0)
                 = [(req, OResponse resp)]).
  { rewrite <- (app_nil_r rest0).
    apply (api_attempts_attempt _ _ _ [] Hapi Hex). }
  rewrite Hev, !api_attempts_app, Hap, Hatl in Hone.
  destruct (request_event_facts "" [] (events_of (authenticate_comprehensive
                                                    (set_remote s' w0))))
    as (_ & _ & _ & _ & _) ; [|].
  2:{ cbn [app] in Hone. injection Hone as -> ->. reflexivity. }
  destruct (authenticate_comprehensive_spec (set_remote s' w0))
    as (wa & ea & k & Ra & (_ & _ & Hh) & _).
  rewrite Ra. apply executor_request_events, helper_executor, Hh.
Qed.

(** C4.  On a collector with a user name and a password, the number of
    re-authentication runs during a call of [make_request] is 1 when the
    answer to the first attempt is a 401 or a 403 and 0 otherwise, whatever
    the later attempts are answered; the call makes at most [max_retries]
    attempts; the events of the call split into a first part with the
    first attempt alone and a second part, with all later attempts, in which
    no re-authentication run starts; and when the first attempt is answered
    with a 401 or a 403, the events of the call hold, after that attempt and
    before every retry, all the events of one run of
    [authenticate_comprehensive], requests of the strategies included, from
    a state with the configuration of the collector. *)
Theorem make_request_reauthentication url params max_retries w :
  has_credentials w = true ->
  let evs := events_of (make_request url params max_retries w) in
  auth_runs evs
  = match api_attempts evs with
    | (_, o) :: _ => if denied o then 1%nat else 0%nat
    | [] => 0%nat
    end
  /\ (List.length (api_attempts evs) <= Z.to_nat max_retries)%nat
  /\ (exists first later,
        evs = (first ++ later)%list
        /\ api_attempts first = firstn 1 (api_attempts evs)
        /\ auth_runs later = 0%nat)
  /\ (forall req o rest,
        api_attempts evs = (req, o) :: rest -> denied o = true ->
        exists first w1 later,
          evs = (first ++ events_of (authenticate_comprehensive w1)
                 ++ later)%list
          /\ cfg w1 = cfg w
          /\ api_attempts first = [(req, o)]
          /\ auth_runs first = 0%nat
          /\ auth_runs later = 0%nat).
Proof.
  intros Hcred evs. subst evs.
  split; [|split; [|split]].
  4:{ intros req o rest Hatt Hd.
      exact (make_request_denied url params max_retries w req o rest
               Hcred Hatt Hd). }
  all: destruct (make_request_spec url params max_retries w)
         as (j & w' & evs & R & _ & _ & _ & Hau & Hv & Hsplit);
       rewrite R; unfold events_of; cbn [snd].
  - rewrite Hau, Hcred. destruct (api_attempts evs) as [|[? o] ?];
      [reflexivity|]. rewrite andb_true_r. reflexivity.
  - destruct Hv as [(-> & _)|(init & req & o & _ & _ & Hle & _)];
      [simpl; lia|assumption].
  - assumption.
Qed.

(** C6.  In every call of [make_request] with a positive budget, every
    attempt that is followed by another one failed without a TLS failure and
    the sleep after the attempt number k lasts 2^k seconds; and when all the
    attempts of the call failed in this way, the call made [max_retries]
    attempts, returned [None] without raising, and counted exactly one
    error. *)
Theorem make_request_backoff url params max_retries w :
  0 < max_retries ->
  let run := make_request url params max_retries w in
  let atts := api_attempts (events_of run) in
  sleeps (events_of run) = map backoff (seq 0 (List.length atts - 1))
  /\ forallb retryable (map snd (removelast atts)) = true
  /\ (forallb retryable (map snd atts) = true ->
      result_of run = Ok JNull
      /\ List.length atts = Z.to_nat max_retries
      /\ errors (stats (world_of run)) = errors (stats w) + 1).
Proof.
  intros Hpos run atts. subst atts run.
  destruct (make_request_spec url params max_retries w)
    as (j & w' & evs & R & _ & _ & Hsl & _ & Hv & _).
  rewrite R. unfold events_of, result_of, world_of. cbn [fst snd].
  split; [assumption|].
  destruct Hv as [(-> & Hn & _)|(init & req & o & -> & Hre & _ & Hlast)];
    [lia|].
  split; [rewrite removelast_last; assumption|].
  rewrite map_app, forallb_app. simpl. rewrite Hre, andb_true_r. simpl.
  intros Ho. unfold retryable in Ho. apply andb_true_iff in Ho.
  destruct Ho as [Htls Hfb].
  destruct (fetched_body o); [discriminate|].
  destruct Hlast as [-> Hlast].
  destruct (tls_failure o); [discriminate|].
  destruct Hlast as [-> Hlen]. auto.
Qed.

(** *** Documents per folder *)

Lemma dict_get_set_same {V : Type} k (v : V) d :
  dict_get k (dict_set k v d) = Some v.
Proof.
  induction d as [|[k' v'] d IH]; simpl.
  - rewrite String.eqb_refl. reflexivity.
  - destruct (String.eqb k k') eqn:E; simpl.
    + rewrite String.eqb_refl. reflexivity.
    + rewrite E. assumption.
Qed.






Lemma save_dataset_run data file what record w :
  save_dataset data file what record w
  = if is_nil data then (Ok tt, w, [])
    else (Ok tt, set_stats (record (len data) (stats w)) w,
          [EvWrite (path_join (output_dir (cfg w)) file) (JArr data);
           EvLog INFO (MSaved what (List.length data)
                         (path_join (output_dir (cfg w)) file))]).
Proof.
  unfold save_dataset, when. destruct (is_nil data); reflexivity.
Qed.

Lemma bind_run {A B : Type} (m : M A) (f : A -> M B) w :
  bind m f w
  = match m w with
    | (Ok a, w1, e1) =>
        match f a w1 with
        | (r, w2, e2) => (r, w2, (e1 ++ e2)%list)
        end
    | (Raise x, w1, e1) => (Raise x, w1, e1)
    end.
Proof. reflexivity. Qed.




(** *** What every run keeps

    A property [I] of the collector that every step re-establishes and a
    property [E] that every event of a run has, for the steps of the
    collector up to the resource collectors.  The hypotheses say what [I] and
    [E] must allow; they are met by the invariants used below. *)

Section Keeps.

Variable I : World -> Prop.
Variable E : Event -> Prop.

Hypothesis I_remote : forall w s, I w -> I (set_remote s w).
Hypothesis I_stats : forall w s, I w -> I (set_stats s w).
Hypothesis I_csrf : forall w tok, I w -> I (set_csrf tok w).
Hypothesis I_csrf_header : forall w v,
  I w -> I (set_headers (dict_set "X-CSRF-Token" v (session_headers w)) w).
Hypothesis I_basic : forall w w0 bytes,
  I w -> I w0 ->
  encode_ascii (opt_str (username (cfg w0)) ++ ":"
                ++ opt_str (password (cfg w0))) = Ok bytes ->
  I (set_headers (dict_set "Authorization" ("Basic " ++ b64encode bytes)
                    (session_headers w)) w).
Hypothesis I_bearer : forall w tok,
  I w ->
  I (set_headers (dict_set "Authorization" ("Bearer " ++ tok)
                    (session_headers w)) w).
Hypothesis E_log : forall lvl m, E (EvLog lvl m).
Hypothesis E_sleep : forall q, E (EvSleep q).
Hypothesis E_write : forall w name content,
  I w -> name <> "summary_report.json" ->
  E (EvWrite (path_join (output_dir (cfg w)) name) content).
Hypothesis E_http : forall w meth url params extra data timeout o,
  I w -> dict_get "Authorization" extra = None ->
  E (EvHttp (mkRequest meth url params
               (merge_headers (session_headers w) extra) data timeout
               (verify_ssl (cfg w))) o).

Lemma keeps_ret {A : Type} (a : A) : keeps I E (ret a).
Proof. intros w Hw. split; [assumption|constructor]. Qed.

Lemma keeps_raise {A : Type} x : keeps I E (raise (A := A) x).
Proof. intros w Hw. split; [assumption|constructor]. Qed.

Lemma keeps_lift {A : Type} (r : result A) : keeps I E (lift r).
Proof. intros w Hw. split; [assumption|constructor]. Qed.

Lemma keeps_emit ev : E ev -> keeps I E (emit ev).
Proof. intros Hev w Hw. split; [assumption|]. repeat constructor. exact Hev. Qed.

Lemma keeps_modify f : (forall w, I w -> I (f w)) -> keeps I E (modify f).
Proof. intros Hf w Hw. split; [apply Hf; assumption|constructor]. Qed.

Lemma keeps_bind {A B : Type} (m : M A) (f : A -> M B) :
  keeps I E m -> (forall a, keeps I E (f a)) -> keeps I E (bind m f).
Proof.
  intros Hm Hf w Hw. rewrite bind_run.
  destruct (Hm w Hw) as [Hw1 He1].
  destruct (m w) as [[[a|x] w1] e1]; unfold world_of, events_of in *;
    cbn [fst snd] in *; [|auto].
  destruct (Hf a w1 Hw1) as [Hw2 He2].
  destruct (f a w1) as [[r w2] e2]; cbn [fst snd] in *.
  split; [assumption|]. apply Forall_app. auto.
Qed.

Lemma keeps_bind_get {B : Type} (f : World -> M B) :
  (forall w0, I w0 -> keeps I E (f w0)) -> keeps I E (bind get_world f).
Proof.
  intros Hf w Hw. rewrite bind_run. unfold get_world.
  destruct (Hf w Hw w Hw) as [Hw2 He2].
  destruct (f w w) as [[r w2] e2]; unfold world_of, events_of in *;
    cbn [fst snd app] in *. auto.
Qed.

Lemma keeps_bind_lift {A B : Type} (r : result A) (f : A -> M B) :
  (forall a, r = Ok a -> keeps I E (f a)) -> keeps I E (bind (lift r) f).
Proof.
  intros Hf w Hw. rewrite bind_run. unfold lift.
  destruct r as [a|x]; [|split; [assumption|constructor]].
  destruct (Hf a eq_refl w Hw) as [Hw2 He2].
  destruct (f a w) as [[r w2] e2]; unfold world_of, events_of in *;
    cbn [fst snd app] in *. auto.
Qed.

Lemma keeps_try {A : Type} (m : M A) (h : exn -> M A) :
  keeps I E m -> (forall x, keeps I E (h x)) -> keeps I E (try_except m h).
Proof.
  intros Hm Hh w Hw. unfold try_except.
  destruct (Hm w Hw) as [Hw1 He1].
  destruct (m w) as [[[a|x] w1] e1]; unfold world_of, events_of in *;
    cbn [fst snd] in *; [auto|].
  destruct (Hh x w1 Hw1) as [Hw2 He2].
  destruct (h x w1) as [[r w2] e2]; cbn [fst snd] in *.
  split; [assumption|]. apply Forall_app. auto.
Qed.

Lemma keeps_session_request meth url params extra data timeout :
  dict_get "Authorization" extra = None ->
  keeps I E (session_request meth url params extra data timeout).
Proof.
  intros Hextra w Hw. unfold session_request.
  destruct (transport (remote w) _) as [o s'] eqn:T.
  unfold world_of, events_of. cbn [fst snd].
  split; [apply I_remote; assumption|].
  repeat constructor. apply E_http; assumption.
Qed.

Ltac keeps_step :=
  cbv beta zeta;
  lazymatch goal with
  | |- keeps _ _ (ret _) => apply keeps_ret
  | |- keeps _ _ (raise _) => apply keeps_raise
  | |- keeps _ _ (lift _) => apply keeps_lift
  | |- keeps _ _ (bind get_world _) =>
      apply keeps_bind_get; intros ? ?
  | |- keeps _ _ (bind (lift _) _) =>
      apply keeps_bind_lift; intros ? ?
  | |- keeps _ _ (bind _ _) => apply keeps_bind; [|intros ?]
  | |- keeps _ _ (try_except _ _) => apply keeps_try; [|intros ?]
  | |- keeps _ _ (log _ _) => apply keeps_emit; apply E_log
  | |- keeps _ _ (sleep _) => apply keeps_emit; apply E_sleep
  | |- keeps _ _ (when ?b _) => unfold when; destruct b
  | |- keeps _ _ (if ?b then _ else _) => destruct b eqn:?
  | |- keeps _ _ (match ?x with _ => _ end) => destruct x eqn:?
  | |- keeps _ _ (session_get _) => apply keeps_session_request; reflexivity
  | |- keeps _ _ (session_request _ _ _ _ _ _) =>
      apply keeps_session_request
  | |- keeps _ _ (set_session_header _ _) =>
      apply keeps_modify; intros ? ?
  | |- keeps _ _ (modify _) => apply keeps_modify; intros ? ?
  | |- keeps _ _ (install_csrf _) => unfold install_csrf
  | |- keeps _ _ inc_errors => unfold inc_errors
  end.

Lemma api_headers_no_authorization w :
  dict_get "Authorization" (api_headers w) = None.
Proof.
  unfold api_headers. destruct (csrf_token w) as [tok|]; [|reflexivity].
  destruct (str_truthy tok); reflexivity.
Qed.

Ltac keeps_side :=
  first
    [ match goal with
      | H : encode_ascii (opt_str (username (cfg ?w0)) ++ _) = Ok _ |- _ =>
          eapply (I_basic _ w0); eassumption
      end
    | apply I_bearer; assumption
    | apply I_csrf_header; assumption
    | apply I_csrf; assumption
    | apply I_stats; assumption
    | apply api_headers_no_authorization
    | reflexivity
    | assumption
    | match goal with H : _ |- keeps _ _ _ => apply H end ].

Ltac keeps_auto := try keeps_side; repeat (keeps_step; try keeps_side).

Lemma try_basic_auth_keeps : keeps I E try_basic_auth.
Proof. unfold try_basic_auth. keeps_auto. Qed.

Lemma try_web_login_keeps : keeps I E try_web_login.
Proof. unfold try_web_login. keeps_auto. Qed.

Lemma try_jsonws_login_keeps : keeps I E try_jsonws_login.
Proof. unfold try_jsonws_login. keeps_auto. Qed.

Lemma try_oauth2_keeps : keeps I E try_oauth2.
Proof. unfold try_oauth2. keeps_auto. Qed.

Lemma authenticate_comprehensive_keeps : keeps I E authenticate_comprehensive.
Proof.
  pose proof try_basic_auth_keeps. pose proof try_web_login_keeps.
  pose proof try_jsonws_login_keeps. pose proof try_oauth2_keeps.
  unfold authenticate_comprehensive. keeps_auto.
Qed.

Lemma find_csrf_at_keeps url : keeps I E (find_csrf_at url).
Proof. unfold find_csrf_at. keeps_auto. Qed.

Lemma find_csrf_in_keeps urls : keeps I E (find_csrf_in urls).
Proof.
  induction urls as [|url urls IH]; cbn [find_csrf_in].
  - apply keeps_ret.
  - pose proof (find_csrf_at_keeps url). keeps_auto.
Qed.

Lemma find_csrf_token_keeps : keeps I E find_csrf_token.
Proof.
  unfold find_csrf_token. keeps_step. pose proof (find_csrf_in_keeps (csrf_sources w0)).
  keeps_auto.
Qed.

Lemma request_attempt_keeps url params max_retries attempt :
  keeps I E (request_attempt url params max_retries attempt).
Proof.
  pose proof authenticate_comprehensive_keeps.
  unfold request_attempt, reauthenticate, backoff_or_give_up. keeps_auto.
Qed.

Lemma request_attempts_keeps url params max_retries n : forall attempt,
  keeps I E (request_attempts url params max_retries n attempt).
Proof.
  induction n as [|n IH]; intros attempt; cbn [request_attempts].
  - apply keeps_ret.
  - pose proof (request_attempt_keeps url params max_retries attempt).
    keeps_auto; try apply IH.
Qed.

Lemma make_request_keeps url params max_retries :
  keeps I E (make_request url params max_retries).
Proof.
  pose proof find_csrf_token_keeps.
  pose proof (request_attempts_keeps url params max_retries).
  unfold make_request. keeps_auto.
Qed.

Lemma test_api_access_in_keeps urls : keeps I E (test_api_access_in urls).
Proof.
  induction urls as [|url urls IH]; cbn [test_api_access_in].
  - keeps_auto.
  - pose proof (make_request_keeps url [] 3). keeps_auto.
Qed.

Lemma test_api_access_keeps : keeps I E test_api_access.
Proof.
  unfold test_api_access. keeps_step; [keeps_auto|]. keeps_step.
  apply test_api_access_in_keeps.
Qed.

Lemma page_step_keeps endpoint data_key page_size page total_pages all :
  keeps I E (page_step endpoint data_key page_size page total_pages all).
Proof.
  unfold page_step, read_totals, take_items. keeps_step.
  pose proof (make_request_keeps (base_url (cfg w0) ++ endpoint)
                (page_params page page_size) 3).
  keeps_auto.
Qed.

Lemma page_loop_keeps endpoint data_key page_size fuel :
  forall page total_pages all,
    keeps I E (page_loop endpoint data_key page_size fuel page total_pages all).
Proof.
  induction fuel as [|fuel IH]; intros page total_pages all;
    cbn [page_loop].
  - apply keeps_raise.
  - pose proof (page_step_keeps endpoint data_key page_size page
                  total_pages all).
    keeps_auto; try apply IH.
Qed.

Lemma collect_paginated_data_keeps endpoint data_key page_size :
  keeps I E (collect_paginated_data endpoint data_key page_size).
Proof.
  pose proof (page_step_keeps endpoint data_key page_size 1 JNull []).
  unfold collect_paginated_data. keeps_auto; try apply page_loop_keeps.
Qed.

Lemma save_dataset_keeps data file what record :
  file <> "summary_report.json" ->
  keeps I E (save_dataset data file what record).
Proof.
  intros Hfile. unfold save_dataset, write_json. keeps_auto.
  apply keeps_emit. apply E_write; assumption.
Qed.

Lemma collect_structured_contents_keeps : keeps I E collect_structured_contents.
Proof.
  unfold collect_structured_contents. keeps_step.
  apply keeps_bind; [apply collect_paginated_data_keeps|intros data].
  apply save_dataset_keeps. discriminate.
Qed.

Lemma collect_content_folders_keeps : keeps I E collect_content_folders.
Proof.
  unfold collect_content_folders. keeps_step.
  apply keeps_bind; [apply collect_paginated_data_keeps|intros data].
  apply save_dataset_keeps. discriminate.
Qed.

Lemma collect_site_pages_keeps : keeps I E collect_site_pages.
Proof.
  unfold collect_site_pages. keeps_step.
  apply keeps_bind; [apply collect_paginated_data_keeps|intros data].
  apply save_dataset_keeps. discriminate.
Qed.

Lemma collect_document_folders_keeps : keeps I E collect_document_folders.
Proof.
  unfold collect_document_folders. keeps_step.
  apply keeps_bind; [apply collect_paginated_data_keeps|intros data].
  apply keeps_bind; [apply save_dataset_keeps; discriminate|intros _].
  apply keeps_ret.
Qed.

Lemma documents_loop_keeps total : forall folders i all,
  keeps I E (documents_loop folders i total all).
Proof.
  induction folders as [|folder folders IH]; intros i all;
    cbn [documents_loop].
  - apply keeps_ret.
  - keeps_step. keeps_step. keeps_step; [keeps_auto|].
    apply keeps_bind; [apply collect_paginated_data_keeps|intros collected].
    keeps_step. keeps_step; [|apply IH].
    unfold write_json, folder_file. keeps_auto.
    apply keeps_emit. apply E_write; [assumption|]. discriminate.
Qed.

Lemma collect_documents_from_folders_keeps folders :
  keeps I E (collect_documents_from_folders folders).
Proof.
  unfold collect_documents_from_folders.
  apply keeps_bind; [apply documents_loop_keeps|intros all].
  apply save_dataset_keeps. discriminate.
Qed.

Lemma collection_steps_keeps : keeps I E collection_steps.
Proof.
  unfold collection_steps.
  apply keeps_bind; [apply collect_structured_contents_keeps|intros _].
  apply keeps_bind; [apply collect_content_folders_keeps|intros _].
  apply keeps_bind; [apply collect_site_pages_keeps|intros _].
  apply keeps_bind; [apply collect_document_folders_keeps|intros folders].
  unfold when. destruct (negb (is_nil folders)).
  - apply collect_documents_from_folders_keeps.
  - apply keeps_ret.
Qed.

End Keeps.

(** *** The credential on the session *)

Lemma dict_get_set_other {V : Type} k k' (v : V) d :
  String.eqb k k' = false -> dict_get k (dict_set k' v d) = dict_get k d.
Proof.
  intros Hk. induction d as [|[k0 v0] d IH]; simpl.
  - rewrite Hk. reflexivity.
  - destruct (String.eqb k' k0) eqn:E; simpl.
    + apply String.eqb_eq in E. subst k0. rewrite Hk. reflexivity.
    + destruct (String.eqb k k0); [reflexivity|assumption].
Qed.

Lemma merge_headers_get k session extra :
  dict_get k extra = None ->
  dict_get k (merge_headers session extra) = dict_get k session.
Proof.
  unfold merge_headers. revert session.
  induction extra as [|[k' v'] extra IH]; simpl; intros session H;
    [reflexivity|].
  destruct (String.eqb k k') eqn:E; [discriminate|].
  rewrite (IH _ H). apply dict_get_set_other. assumption.
Qed.

Lemma auth_kept_other cred k v headers :
  String.eqb "Authorization" k = false ->
  auth_kept cred headers -> auth_kept cred (dict_set k v headers).
Proof.
  intros Hk H. unfold auth_kept. rewrite dict_get_set_other by assumption.
  assumption.
Qed.

Section Carries.

Variable cred : string.

Lemma kept_remote w s : credential_kept cred w -> credential_kept cred (set_remote s w).
Proof. auto. Qed.

Lemma kept_stats w s : credential_kept cred w -> credential_kept cred (set_stats s w).
Proof. auto. Qed.

Lemma kept_csrf w tok : credential_kept cred w -> credential_kept cred (set_csrf tok w).
Proof. auto. Qed.

Lemma kept_csrf_header w v :
  credential_kept cred w ->
  credential_kept cred
    (set_headers (dict_set "X-CSRF-Token" v (session_headers w)) w).
Proof.
  intros [Hc Hh]. split; [assumption|]. simpl.
  apply auth_kept_other; [reflexivity|assumption].
Qed.

Lemma kept_basic w w0 bytes :
  credential_kept cred w -> credential_kept cred w0 ->
  encode_ascii (opt_str (username (cfg w0)) ++ ":"
                ++ opt_str (password (cfg w0))) = Ok bytes ->
  credential_kept cred
    (set_headers (dict_set "Authorization" ("Basic " ++ b64encode bytes)
                    (session_headers w)) w).
Proof.
  intros [Hc _] [Hc0 _] Henc. split; [assumption|]. simpl. left.
  unfold basic_credential in Hc0. rewrite Henc in Hc0.
  injection Hc0 as <-. apply dict_get_set_same.
Qed.

Lemma kept_bearer w tok :
  credential_kept cred w ->
  credential_kept cred
    (set_headers (dict_set "Authorization" ("Bearer " ++ tok)
                    (session_headers w)) w).
Proof.
  intros [Hc _]. split; [assumption|]. simpl. right. exists tok.
  apply dict_get_set_same.
Qed.

Lemma carries_http w meth url params extra data timeout o :
  credential_kept cred w -> dict_get "Authorization" extra = None ->
  carries cred
    (EvHttp (mkRequest meth url params
               (merge_headers (session_headers w) extra) data timeout
               (verify_ssl (cfg w))) o).
Proof.
  intros [_ Hh] Hextra. unfold carries, auth_kept. simpl.
  rewrite merge_headers_get by assumption. assumption.
Qed.

Ltac carries_side :=
  first [ exact kept_remote | exact kept_stats | exact kept_csrf
        | exact kept_csrf_header | exact kept_basic | exact kept_bearer
        | exact carries_http | (intros; exact Logic.I) ].

Lemma authenticate_comprehensive_carries :
  keeps (credential_kept cred) (carries cred) authenticate_comprehensive.
Proof. apply authenticate_comprehensive_keeps; carries_side. Qed.

Lemma make_request_carries url params max_retries :
  keeps (credential_kept cred) (carries cred)
    (make_request url params max_retries).
Proof. apply make_request_keeps; carries_side. Qed.

Lemma collection_steps_carries :
  keeps (credential_kept cred) (carries cred) collection_steps.
Proof. apply collection_steps_keeps; carries_side. Qed.

End Carries.

Lemma carries_requests cred evs :
  Forall (carries cred) evs ->
  Forall (fun req => auth_kept cred (req_headers req)) (requests evs).
Proof.
  unfold requests. induction 1 as [|ev evs Hev _ IH]; simpl; [constructor|].
  destruct ev; simpl; auto.
Qed.

Lemma try_basic_auth_header w cred :
  basic_credential (username (cfg w)) (password (cfg w)) = Ok cred ->
  let run := try_basic_auth w in
  (exists probe,
     requests (events_of run) = [probe]
     /\ req_url probe = current_user_url w
     /\ dict_get "Authorization" (req_headers probe) = Some cred)
  /\ dict_get "Authorization" (session_headers (world_of run)) = Some cred
  /\ cfg (world_of run) = cfg w.
Proof.
  unfold basic_credential, try_basic_auth, try_except, bind, log, emit,
    get_world, lift, set_session_header, modify, session_get,
    session_request, ret, events_of, world_of.
  destruct (encode_ascii _) as [bytes|x]; [|discriminate].
  intros Hc. injection Hc as <-.
  repeat (break_match; simpl in *; try discriminate).
  all: repeat match goal with
         | H : (_, _) = (_, _) |- _ => inversion H; subst; clear H
         end.
  all: simpl; rewrite ?dict_get_set_same;
    (split; [eexists; split; [reflexivity|]; split; [reflexivity|];
             simpl; rewrite dict_get_set_same; reflexivity
            |split; reflexivity]).
Qed.

Lemma try_web_login_headers w :
  session_headers (world_of (try_web_login w)) = session_headers w.
Proof.
  unfold try_web_login, try_except, bind, log, emit, get_world, lift, when,
    set_session_header, modify, session_get, session_request, ret, world_of.
  repeat (break_match; simpl in *; try discriminate).
  all: repeat match goal with
         | H : (_, _) = (_, _) |- _ => inversion H; subst; clear H
         end.
  all: reflexivity.
Qed.

Lemma try_jsonws_login_headers w :
  session_headers (world_of (try_jsonws_login w)) = session_headers w.
Proof.
  unfold try_jsonws_login, try_except, bind, log, emit, get_world, lift, when,
    set_session_header, modify, session_get, session_request, ret, world_of.
  repeat (break_match; simpl in *; try discriminate).
  all: repeat match goal with
         | H : (_, _) = (_, _) |- _ => inversion H; subst; clear H
         end.
  all: reflexivity.
Qed.

Lemma try_oauth2_headers w :
  result_of (try_oauth2 w) = Ok false ->
  session_headers (world_of (try_oauth2 w)) = session_headers w.
Proof.
  unfold try_oauth2, try_except, bind, log, emit, get_world, lift, when,
    set_session_header, modify, session_get, session_request, ret, world_of,
    result_of.
  repeat (break_match; simpl in *; try discriminate).
  all: repeat match goal with
         | H : (_, _) = (_, _) |- _ => inversion H; subst; clear H
         end.
  all: simpl; intros; try discriminate; reflexivity.
Qed.

(** when no strategy reports success, the four of them ran and failed *)
Lemma authenticate_comprehensive_failed w :
  succeeded (events_of (authenticate_comprehensive w)) = [] ->
  exists w1 w2 w3 w4 e1 e2 e3 e4,
    try_basic_auth w = (Ok false, w1, e1)
    /\ try_web_login w1 = (Ok false, w2, e2)
    /\ try_jsonws_login w2 = (Ok false, w3, e3)
    /\ try_oauth2 w3 = (Ok false, w4, e4)
    /\ world_of (authenticate_comprehensive w) = w4.
Proof.
  destruct (try_basic_auth_spec w)
    as (b1 & w1 & e1 & R1 & _ & _ & S1 & _).
  destruct (try_web_login_spec w1)
    as (b2 & w2 & e2 & R2 & _ & _ & S2 & _).
  destruct (try_jsonws_login_spec w2)
    as (b3 & w3 & e3 & R3 & _ & _ & S3 & _).
  destruct (try_oauth2_spec w3)
    as (b4 & w4 & e4 & R4 & _ & _ & S4 & _).
  unfold authenticate_comprehensive, bind, log, emit. rewrite R1.
  destruct b1.
  { intros H. exfalso. revert H. unfold events_of. cbn [snd].
    change (EvLog INFO MAuthStart :: (e1 ++ [EvLog INFO (MAuthWorked Basic)]))%list
      with ([EvLog INFO MAuthStart] ++ e1 ++ [EvLog INFO (MAuthWorked Basic)])%list.
    rewrite !succeeded_app, S1. discriminate. }
  cbv beta iota. rewrite R2. destruct b2.
  { intros H. exfalso. revert H. unfold events_of. cbn [snd].
    rewrite !succeeded_app, S1, S2. discriminate. }
  cbv beta iota. rewrite R3. destruct b3.
  { intros H. exfalso. revert H. unfold events_of. cbn [snd].
    rewrite !succeeded_app, S1, S2, S3. discriminate. }
  cbv beta iota. rewrite R4. destruct b4.
  { intros H. exfalso. revert H. unfold events_of. cbn [snd].
    rewrite !succeeded_app, S1, S2, S3, S4. discriminate. }
  intros _. exists w1, w2, w3, w4, e1, e2, e3, e4.
  repeat (split; [first [assumption | reflexivity]|]). reflexivity.
Qed.

(** C10 (as amended): the Basic credential exists exactly when the user name
    and the password are ASCII.  When it exists, [try_basic_auth] puts
    [Authorization: cred] on the session before its single probe request,
    which carries it, and the header is still there when it returns, whatever
    the probe answered; when none of the four strategies succeeds, the
    session ends with that header, and from any state whose session has it
    (or a Bearer token put in its place by OAuth2) every request of
    [make_request] and of the collection steps carries it, and the state
    reached has it again.  When the user name or the password has a character
    that is not ASCII, for any collector, the encoding raises
    [UnicodeEncodeError]: [try_basic_auth] returns [False] after its two log
    records, sends no request and leaves the collector, its session headers
    included, as it was. *)
Theorem basic_credential_persists w :
  let auth_string :=
    (opt_str (username (cfg w)) ++ ":" ++ opt_str (password (cfg w)))%string in
  let probe_run := try_basic_auth w in
  let auth_run := authenticate_comprehensive w in
  basic_credential (username (cfg w)) (password (cfg w))
  = (if is_ascii auth_string
     then Ok ("Basic "
              ++ b64encode (map N_of_ascii (list_ascii_of_string auth_string)))
     else Raise UnicodeEncodeError)%string
  /\ match basic_credential (username (cfg w)) (password (cfg w)) with
     | Ok cred =>
         (exists probe,
            requests (events_of probe_run) = [probe]
            /\ dict_get "Authorization" (req_headers probe) = Some cred)
         /\ dict_get "Authorization" (session_headers (world_of probe_run))
            = Some cred
         /\ (succeeded (events_of auth_run) = [] ->
             dict_get "Authorization" (session_headers (world_of auth_run))
             = Some cred
             /\ credential_kept cred (world_of auth_run))
         /\ (forall w1, credential_kept cred w1 ->
             (forall url params max_retries,
                let run := make_request url params max_retries w1 in
                credential_kept cred (world_of run)
                /\ Forall (fun req => auth_kept cred (req_headers req))
                     (requests (events_of run)))
             /\ (let run := collection_steps w1 in
                 credential_kept cred (world_of run)
                 /\ Forall (fun req => auth_kept cred (req_headers req))
                      (requests (events_of run))))
     | Raise e =>
         is_ascii auth_string = false
         /\ result_of probe_run = Ok false
         /\ events_of probe_run
            = [EvLog INFO (MTrying Basic);
               EvLog DEBUG (MStrategyFailed Basic UnicodeEncodeError)]
         /\ requests (events_of probe_run) = []
         /\ world_of probe_run = w
         /\ session_headers (world_of probe_run) = session_headers w
     end.
Proof.
  intros auth_string probe_run auth_run.
  split.
  { unfold basic_credential, encode_ascii. fold auth_string.
    destruct (is_ascii auth_string); reflexivity. }
  destruct (basic_credential (username (cfg w)) (password (cfg w)))
    as [cred|e] eqn:Hcred.
  2:{ assert (Hascii : is_ascii auth_string = false).
      { unfold basic_credential, encode_ascii in Hcred. fold auth_string in Hcred.
        destruct (is_ascii auth_string); [discriminate|reflexivity]. }
      split; [exact Hascii|].
      assert (R : probe_run
                  = (Ok false, w,
                     [EvLog INFO (MTrying Basic);
                      EvLog DEBUG (MStrategyFailed Basic UnicodeEncodeError)])).
      { subst probe_run.
        unfold try_basic_auth, try_except, bind, log, emit, get_world, lift,
          ret, encode_ascii.
        fold auth_string. rewrite Hascii. reflexivity. }
      rewrite R. repeat split. }
  destruct (try_basic_auth_header w cred Hcred)
    as ((probe & Hprobe & _ & Hcarried) & Hheader & _).
  split; [exists probe; split; assumption|].
  split; [assumption|].
  split.
  - intros Hnone.
    destruct (authenticate_comprehensive_spec w)
      as (w' & evs & k & R & (Hcfg & _) & _).
    destruct (authenticate_comprehensive_failed w Hnone)
      as (w1 & w2 & w3 & w4 & e1 & e2 & e3 & e4
          & R1 & R2 & R3 & R4 & Hw).
    assert (H1 : dict_get "Authorization" (session_headers w1) = Some cred).
    { pose proof (try_basic_auth_header w cred Hcred) as (_ & H & _).
      rewrite R1 in H. exact H. }
    assert (H2 : session_headers w2 = session_headers w1).
    { pose proof (try_web_login_headers w1) as H. rewrite R2 in H. exact H. }
    assert (H3 : session_headers w3 = session_headers w2).
    { pose proof (try_jsonws_login_headers w2) as H. rewrite R3 in H. exact H. }
    assert (H4 : session_headers w4 = session_headers w3).
    { pose proof (try_oauth2_headers w3) as H. rewrite R4 in H.
      apply H. reflexivity. }
    assert (Hfinal : dict_get "Authorization"
                       (session_headers (world_of auth_run)) = Some cred).
    { subst auth_run. rewrite Hw, H4, H3, H2. exact H1. }
    split; [exact Hfinal|].
    split; [|left; exact Hfinal].
    subst auth_run. rewrite R. unfold world_of. cbn [fst snd].
    rewrite Hcfg. exact Hcred.
  - intros w1 Hkept. split.
    + intros url params max_retries run.
      destruct (make_request_carries cred url params max_retries w1 Hkept)
        as (Hw & Hevs).
      split; [exact Hw|]. apply carries_requests. exact Hevs.
    + intros run.
      destruct (collection_steps_carries cred w1 Hkept) as (Hw & Hevs).
      split; [exact Hw|]. apply carries_requests. exact Hevs.
Qed.

(** *** The summary report *)

Lemma append_cancel_l (p a b : string) :
  (p ++ a)%string = (p ++ b)%string -> a = b.
Proof.
  induction p as [|c p IH]; simpl; intros H; [exact H|].
  injection H as H. auto.
Qed.

Lemma path_join_inj dir a b : path_join dir a = path_join dir b -> a = b.
Proof.
  unfold path_join.
  destruct (String.eqb dir ""); [auto|].
  destruct (String.eqb _ "/"); intros H.
  - eapply append_cancel_l; eassumption.
  - apply append_cancel_l in H. injection H as H. exact H.
Qed.

Lemma summary_writes_app c e1 e2 :
  summary_writes c (e1 ++ e2)
  = (summary_writes c e1 ++ summary_writes c e2)%list.
Proof.
  unfold summary_writes. rewrite writes_app, filter_app, map_app. reflexivity.
Qed.

Lemma not_summary_writes c evs :
  Forall (not_summary c) evs -> summary_writes c evs = [].
Proof.
  induction 1 as [|ev evs Hev _ IH]; [reflexivity|].
  change (ev :: evs) with ([ev] ++ evs)%list.
  rewrite summary_writes_app, IH, app_nil_r.
  destruct ev as [| | |path content| |]; try reflexivity.
  unfold summary_writes. simpl in *.
  destruct (String.eqb_spec path
              (path_join (output_dir c) "summary_report.json"));
    [contradiction|reflexivity].
Qed.

Section SameConfig.

Variable c : Config.

Lemma same_config_write w name content :
  same_config c w -> name <> "summary_report.json" ->
  not_summary c (EvWrite (path_join (output_dir (cfg w)) name) content).
Proof.
  unfold same_config, not_summary. intros -> Hname Hpath.
  apply Hname. eapply path_join_inj. eassumption.
Qed.

Ltac same_config_side :=
  first [ exact same_config_write
        | (unfold same_config; intros; simpl; first [assumption | exact Logic.I]) ].

Lemma test_api_access_same_config :
  keeps (same_config c) (not_summary c) test_api_access.
Proof. apply test_api_access_keeps; same_config_side. Qed.

Lemma collection_steps_same_config :
  keeps (same_config c) (not_summary c) collection_steps.
Proof. apply collection_steps_keeps; same_config_side. Qed.

End SameConfig.

Lemma generate_summary_report_run w :
  exists logs,
    generate_summary_report w
    = (Ok tt, w, EvWrite (summary_file w) (summary w) :: logs)
    /\ writes logs = [] /\ logged ERROR logs = [].
Proof.
  eexists. split; [reflexivity|]. split; reflexivity.
Qed.

(** the run past a successful access check *)
Lemma run_full_collection_run w w1 e1 :
  test_api_access w = (Ok true, w1, e1) ->
  run_full_collection w
  = match collection_steps w1 with
    | (Ok _, w2, e2) =>
        (Ok true, w2,
         ([EvLog INFO MRunStart] ++ e1 ++ e2
          ++ events_of (generate_summary_report w2)
          ++ [EvLog INFO MRunDone])%list)
    | (Raise x, w2, e2) =>
        (Ok false, w2,
         ([EvLog INFO MRunStart] ++ e1 ++ e2
          ++ [EvLog ERROR (MRunError x); EvLog DEBUG MTraceback])%list)
    end.
Proof.
  intros R. unfold run_full_collection, bind, try_except, log, emit.
  rewrite R. cbv beta iota delta [negb].
  destruct (collection_steps w1) as [[[[]|x] w2] e2]; reflexivity.
Qed.

(** C7 (as amended): in a run that passes the access check, when the
    collection steps return, with or without recorded errors, the summary
    report is written once, with the statistics reached, and the run returns
    [True]; when a collection step raises, the error is caught and logged at
    ERROR, the run returns [False], and the summary report is not written. *)
Theorem run_full_collection_summary w :
  let check := test_api_access w in
  let steps := collection_steps (world_of check) in
  let run := run_full_collection w in
  result_of check = Ok true ->
  match result_of steps with
  | Ok _ =>
      result_of run = Ok true
      /\ summary_writes (cfg w) (events_of run) = [summary (world_of steps)]
      /\ logged ERROR (events_of run)
         = (logged ERROR (events_of check) ++ logged ERROR (events_of steps))%list
  | Raise e =>
      result_of run = Ok false
      /\ summary_writes (cfg w) (events_of run) = []
      /\ logged ERROR (events_of run)
         = (logged ERROR (events_of check) ++ logged ERROR (events_of steps)
            ++ [MRunError e])%list
  end.
Proof.
  intros check steps run Hcheck.
  destruct (test_api_access_same_config (cfg w) w eq_refl) as [Hcfg1 Hev1].
  destruct (collection_steps_same_config (cfg w) (world_of check) Hcfg1)
    as [Hcfg2 Hev2].
  apply not_summary_writes in Hev1. apply not_summary_writes in Hev2.
  fold check in Hev1. fold steps in Hev2, Hcfg2.
  subst run.
  destruct check as [[rc w1] e1] eqn:Rcheck.
  unfold result_of in Hcheck. cbn [fst] in Hcheck. subst rc.
  rewrite (run_full_collection_run w w1 e1 Rcheck).
  unfold world_of in steps. cbn [fst snd] in steps. fold steps.
  destruct steps as [[rs w2] e2].
  unfold world_of, events_of, result_of, same_config in *.
  cbn [fst snd] in *.
  destruct rs as [[]|x].
  - destruct (generate_summary_report_run w2) as (logs & -> & Hw & Hl).
    cbn [fst snd].
    change (EvWrite (summary_file w2) (summary w2) :: logs)
      with ([EvWrite (summary_file w2) (summary w2)] ++ logs)%list.
    split; [reflexivity|]. split.
    + rewrite !summary_writes_app, Hev1, Hev2.
      unfold summary_writes at 2 3 4. rewrite Hw.
      unfold summary_writes, summary_file. rewrite Hcfg2. simpl.
      rewrite String.eqb_refl. reflexivity.
    + rewrite !logged_app, Hl. simpl. rewrite !app_nil_r. reflexivity.
  - cbn [fst snd]. split; [reflexivity|]. split.
    + rewrite !summary_writes_app, Hev1, Hev2. reflexivity.
    + rewrite !logged_app. reflexivity.
Qed.

(** *** The command line *)

(** C8: what [main] does on a configuration error (it departs from the
    claim).  When the user name or the password is missing or empty, or when
    no resource is selected, [main] only prints: no request is sent and the
    server is left as it was, as the claim has it; but [main] returns, which
    ends the process with status 0, where the claim has a nonzero status. *)
Theorem main_configuration_error_status a server :
  opt_truthy (arg_username a) = false
  \/ opt_truthy (arg_password a) = false
  \/ existsb snd (collect_options a) = false ->
  let run := main a server in
  fst (fst run) = 0
  /\ snd (fst run) = server
  /\ requests (snd run) = []
  /\ forallb (fun ev => match ev with EvPrint _ => true | _ => false end)
       (snd run) = true.
Proof.
  intros H. unfold main.
  destruct (negb (opt_truthy (arg_username a))
            || negb (opt_truthy (arg_password a))) eqn:Hcred.
  - repeat split.
  - destruct H as [H | [H | H]].
    + rewrite H in Hcred. discriminate.
    + rewrite H, orb_true_r in Hcred. discriminate.
    + rewrite H. cbv beta iota zeta delta [negb].
      destruct (opt_truthy (arg_csrf_token a)), (arg_verify_ssl a);
        repeat split.
Qed.

(** C5: what the code does on a certificate error (it departs from the
    claim).  In any call of [make_request], an attempt that fails on TLS is
    the last one of the call, the call returns [None], and the statistics are
    as they were before the call: the error counter is not incremented, where
    the claim has it incremented by one. *)
Theorem tls_failure_is_not_counted url params max_retries w req :
  let run := make_request url params max_retries w in
  In (req, OSSLError) (api_attempts (events_of run)) ->
  result_of run = Ok JNull
  /\ (exists init,
        api_attempts (events_of run) = (init ++ [(req, OSSLError)])%list
        /\ forallb retryable (map snd init) = true)
  /\ stats (world_of run) = stats w.
Proof.
  destruct (make_request_spec url params max_retries w)
    as (j & w' & evs & R & _ & _ & _ & _ & Hverdict & _).
  intros run. subst run. rewrite R.
  unfold result_of, world_of, events_of. cbn [fst snd].
  intros Hin.
  destruct Hverdict as [(Hnil & _) | (init & req0 & o & Hatts & Hinit & _ & Hlast)].
  { rewrite Hnil in Hin. contradiction. }
  rewrite Hatts in Hin. apply in_app_or in Hin.
  destruct Hin as [Hin | [Heq | []]].
  - exfalso. rewrite forallb_forall in Hinit.
    specialize (Hinit OSSLError).
    assert (Hmem : In OSSLError (map snd init)).
    { apply in_map_iff. exists (req, OSSLError). split; [reflexivity|assumption]. }
    apply Hinit in Hmem. discriminate.
  - injection Heq as -> ->. simpl in Hlast. destruct Hlast as [-> ->].
    split; [reflexivity|]. split; [|reflexivity].
    exists init. split; assumption.
Qed.

(** ** Further properties of the request executor *)

(** X1: [make_request] never raises, leaves the configuration as it is, and
    changes the statistics by at most one counted error: no other counter is
    touched. *)
Theorem make_request_total url params max_retries w :
  let run := make_request url params max_retries w in
  (exists j, result_of run = Ok j)
  /\ cfg (world_of run) = cfg w
  /\ (stats (world_of run) = stats w
      \/ stats (world_of run) = bump_errors (stats w)).
Proof.
  destruct (make_request_spec url params max_retries w)
    as (j & w' & evs & R & Hcfg & _ & _ & _ & Hverdict & _).
  intros run. subst run. rewrite R.
  unfold result_of, world_of. cbn [fst snd].
  split; [exists j; reflexivity|]. split; [assumption|].
  destruct Hverdict as [(_ & _ & _ & ->) | (init & req & o & _ & _ & _ & Hlast)];
    [left; reflexivity|].
  destruct (fetched_body o); [destruct Hlast as [_ ->]; left; reflexivity|].
  destruct Hlast as [_ Hlast].
  destruct (tls_failure o); [left; assumption|right; apply Hlast].
Qed.

(** X2: in a call of [make_request], an attempt that is answered with a body
    (a status outside 400..599 and a body that parses) is the last attempt of
    the call; the call returns that body, whatever its value, and counts no
    error. *)
Theorem make_request_success url params max_retries w req o body :
  let run := make_request url params max_retries w in
  In (req, o) (api_attempts (events_of run)) ->
  fetched_body o = Some body ->
  result_of run = Ok body
  /\ stats (world_of run) = stats w
  /\ exists init,
       api_attempts (events_of run) = (init ++ [(req, o)])%list
       /\ forallb retryable (map snd init) = true.
Proof.
  destruct (make_request_spec url params max_retries w)
    as (j & w' & evs & R & _ & _ & _ & _ & Hverdict & _).
  intros run. subst run. rewrite R.
  unfold result_of, world_of, events_of. cbn [fst snd].
  intros Hin Hbody.
  destruct Hverdict as [(Hnil & _) | (init & req0 & o0 & Hatts & Hinit & _ & Hlast)].
  { rewrite Hnil in Hin. contradiction. }
  rewrite Hatts in Hin. apply in_app_or in Hin.
  destruct Hin as [Hin | [Heq | []]].
  - exfalso. rewrite forallb_forall in Hinit.
    assert (Hmem : In o (map snd init)).
    { apply in_map_iff. exists (req, o). split; [reflexivity|assumption]. }
    apply Hinit in Hmem. unfold retryable in Hmem. rewrite Hbody in Hmem.
    rewrite andb_false_r in Hmem. discriminate.
  - injection Heq as -> ->. rewrite Hbody in Hlast. destruct Hlast as [-> ->].
    split; [reflexivity|]. split; [reflexivity|].
    exists init. rewrite Hatts. split; [reflexivity|assumption].
Qed.

(** X3: with a budget of zero attempts or less the loop of [make_request] is
    not entered: no API request is sent, nothing is slept or counted, no
    authentication runs, and the call returns [None]. *)
Theorem make_request_no_budget url params max_retries w :
  max_retries <= 0 ->
  let run := make_request url params max_retries w in
  result_of run = Ok JNull
  /\ api_attempts (events_of run) = []
  /\ sleeps (events_of run) = []
  /\ auth_runs (events_of run) = 0%nat
  /\ stats (world_of run) = stats w.
Proof.
  intros Hn.
  destruct (make_request_spec url params max_retries w)
    as (j & w' & evs & R & _ & _ & Hsleeps & Hauth & Hverdict & _).
  intros run. subst run. rewrite R.
  unfold result_of, world_of, events_of. cbn [fst snd].
  assert (Hz : Z.to_nat max_retries = 0%nat) by lia.
  rewrite Hz in Hverdict.
  assert (Hatts : api_attempts evs = []).
  { destruct Hverdict as [(H & _) | (init & req & o & H & _ & Hlen & _)];
      [assumption|].
    rewrite H, length_app in Hlen. simpl in Hlen. lia. }
  rewrite Hatts in Hsleeps, Hauth. simpl in Hsleeps.
  destruct Hverdict as [(_ & _ & -> & ->) | (init & req & o & H & _)].
  - repeat split; assumption.
  - rewrite Hatts in H. destruct init; discriminate.
Qed.

(** X4: a collector without a user name or without a password never
    authenticates again inside [make_request], whatever the server
    answers. *)
Theorem make_request_without_credentials url params max_retries w :
  has_credentials w = false ->
  auth_runs (events_of (make_request url params max_retries w)) = 0%nat.
Proof.
  intros Hc.
  destruct (make_request_spec url params max_retries w)
    as (j & w' & evs & R & _ & _ & _ & Hauth & _).
  rewrite R. unfold events_of. cbn [snd]. rewrite Hauth, Hc.
  destruct (api_attempts evs) as [|[r o] l]; [reflexivity|].
  rewrite andb_false_r. reflexivity.
Qed.

(** ** Token discovery *)

Lemma exchanges_app e1 e2 :
  exchanges (e1 ++ e2) = (exchanges e1 ++ exchanges e2)%list.
Proof. apply flat_map_app. Qed.

Lemma removelast_map {A B : Type} (f : A -> B) (l : list A) :
  removelast (map f l) = map f (removelast l).
Proof.
  induction l as [|a l IH]; [reflexivity|].
  destruct l as [|b l]; [reflexivity|].
  cbn [map removelast] in *. rewrite IH. reflexivity.
Qed.

(** one source of [find_csrf_token]: one GET of the source; what its answer
    yields decides *)
Lemma find_csrf_at_outcome url w :
  exists b w' evs req o,
    find_csrf_at url w = (Ok b, w', evs)
    /\ exchanges evs = [(req, o)]
    /\ req_method req = GET /\ req_url req = url
    /\ logged WARNING evs = []
    /\ match source_token o with
       | Some tok =>
           b = true /\ csrf_token w' = Some tok
           /\ session_headers w'
              = dict_set "X-CSRF-Token" tok (session_headers w)
       | None =>
           b = false /\ csrf_token w' = csrf_token w
           /\ session_headers w' = session_headers w
       end.
Proof.
  unfold find_csrf_at, install_csrf, try_except, bind, log, emit, get_world,
    lift, set_session_header, modify, session_get, session_request, ret,
    source_token.
  run_leaf.
  all: do 5 eexists; split; [reflexivity|]; split; [reflexivity|];
    split; [reflexivity|]; split; [reflexivity|]; split; [reflexivity|];
    simpl;
    repeat match goal with
           | H : ?x = _ |- context [?x] => rewrite H
           end;
    simpl; repeat split; reflexivity.
Qed.

Lemma find_csrf_in_outcome urls : forall w,
  exists b w' evs k,
    find_csrf_in urls w = (Ok b, w', evs)
    /\ map (fun ro => (req_method (fst ro), req_url (fst ro))) (exchanges evs)
       = map (fun url => (GET, url)) (firstn k urls)
    /\ logged WARNING evs = []
    /\ forallb yields_nothing (map snd (removelast (exchanges evs))) = true
    /\ match source_token (last (map snd (exchanges evs)) ONetworkError) with
       | Some tok =>
           b = true /\ (1 <= k <= List.length urls)%nat
           /\ csrf_token w' = Some tok
           /\ session_headers w'
              = dict_set "X-CSRF-Token" tok (session_headers w)
       | None =>
           b = false /\ k = List.length urls
           /\ csrf_token w' = csrf_token w
           /\ session_headers w' = session_headers w
       end.
Proof.
  induction urls as [|url urls IH]; intros w; cbn [find_csrf_in].
  - exists false, w, [], 0%nat. repeat split.
  - destruct (find_csrf_at_outcome url w)
      as (b & w1 & e1 & req & o & R1 & X1 & Hm & Hu & W1 & H1).
    rewrite bind_run, R1.
    destruct (source_token o) as [tok|] eqn:Ho.
    + destruct H1 as (-> & Hc & Hh).
      exists true, w1, (e1 ++ [])%list, 1%nat. split; [reflexivity|].
      rewrite app_nil_r, X1. cbn [map fst snd firstn removelast last forallb].
      rewrite Hm, Hu, Ho. repeat split; try assumption; simpl; lia.
    + destruct H1 as (-> & Hc1 & Hh1).
      destruct (IH w1) as (b2 & w2 & e2 & k & R2 & Q2 & W2 & F2 & H2).
      rewrite R2.
      exists b2, w2, (e1 ++ e2)%list, (S k). split; [reflexivity|].
      rewrite exchanges_app, logged_app, X1, W1, W2.
      cbn [app map fst snd firstn]. rewrite Hm, Hu, Q2.
      split; [reflexivity|]. split; [reflexivity|].
      destruct (exchanges e2) as [|x2 l2] eqn:E2.
      * cbn [removelast map forallb last] in *. rewrite Ho.
        split; [reflexivity|].
        cbn [source_token] in H2. destruct H2 as (-> & -> & Hc2 & Hh2).
        repeat split; try reflexivity; congruence.
      * split.
        { change (removelast ((req, o) :: x2 :: l2))
            with ((req, o) :: removelast (x2 :: l2)).
          cbn [map forallb snd]. unfold yields_nothing at 1. rewrite Ho.
          exact F2. }
        change (last (o :: map snd (x2 :: l2)) ONetworkError)
          with (last (map snd (x2 :: l2)) ONetworkError).
        destruct (source_token (last (map snd (x2 :: l2)) ONetworkError)).
        -- destruct H2 as (-> & Hk & Hc2 & Hh2).
           repeat split; try (simpl; lia); congruence.
        -- destruct H2 as (-> & -> & Hc2 & Hh2).
           repeat split; try reflexivity; congruence.
Qed.

(** X5: [find_csrf_token] never raises.  It sends GET requests to its four
    sources in their fixed order and stops at the first answer that yields a
    token: an answer with status 200 whose header [X-CSRF-Token] (under any
    capitalisation) is not empty, or else whose text has a match of the
    pattern.  Every answer before the last one yields nothing.  When the
    last answer yields a token, the collector holds that token, the session
    header [X-CSRF-Token] is set to it and no warning is logged; when it
    yields nothing, the four sources were all requested, the warning is
    logged once, and the token and the session headers are as before. *)
Theorem find_csrf_token_outcome w :
  let run := find_csrf_token w in
  let answers := map snd (exchanges (events_of run)) in
  result_of run = Ok tt
  /\ (exists k,
        map (fun ro => (req_method (fst ro), req_url (fst ro)))
          (exchanges (events_of run))
        = map (fun url => (GET, url)) (firstn k (csrf_sources w))
        /\ (1 <= k <= 4)%nat
        /\ (source_token (last answers ONetworkError) = None -> k = 4%nat))
  /\ forallb yields_nothing (removelast answers) = true
  /\ match source_token (last answers ONetworkError) with
     | Some tok =>
         csrf_token (world_of run) = Some tok
         /\ session_headers (world_of run)
            = dict_set "X-CSRF-Token" tok (session_headers w)
         /\ logged WARNING (events_of run) = []
     | None =>
         csrf_token (world_of run) = csrf_token w
         /\ session_headers (world_of run) = session_headers w
         /\ logged WARNING (events_of run) = [MCsrfNotFound]
     end.
Proof.
  destruct (find_csrf_in_outcome (csrf_sources w) w)
    as (b & w1 & e1 & k & R & Q & W & F & H).
  assert (E : find_csrf_token w
              = (Ok tt, w1,
                 (e1 ++ (if b then [] else [EvLog WARNING MCsrfNotFound]))%list)).
  { unfold find_csrf_token, bind, get_world. rewrite R.
    destruct b; reflexivity. }
  assert (X : exchanges (e1 ++ (if b then []
                                else [EvLog WARNING MCsrfNotFound]))
              = exchanges e1).
  { rewrite exchanges_app. destruct b; apply app_nil_r. }
  intros run answers. subst run answers. rewrite E.
  unfold result_of, world_of, events_of. cbn [fst snd].
  rewrite X, logged_app, W.
  rewrite <- removelast_map in F.
  split; [reflexivity|].
  destruct (source_token (last (map snd (exchanges e1)) ONetworkError)).
  - destruct H as (-> & Hk & Hc & Hh).
    split; [exists k; split; [assumption|]; split; [exact Hk|discriminate]|].
    split; [assumption|]. repeat split; assumption.
  - destruct H as (-> & -> & Hc & Hh).
    split; [exists 4%nat; split; [assumption|]; split; [simpl; lia|reflexivity]|].
    split; [assumption|]. repeat split; assumption.
Qed.

(** ** The access check and the run coordinator *)

Lemma falsy_fetches_app (l1 l2 : list (Request * json)) :
  forallb (fun f => negb (truthy (snd f))) (l1 ++ l2)
  = forallb (fun f => negb (truthy (snd f))) l1
    && forallb (fun f => negb (truthy (snd f))) l2.
Proof. apply forallb_app. Qed.

Lemma make_request_counts url params max_retries w j w' evs :
  make_request url params max_retries w = (Ok j, w', evs) ->
  stats w' = stats w \/ stats w' = bump_errors (stats w).
Proof.
  intros R.
  destruct (make_request_spec url params max_retries w)
    as (j0 & w0 & evs0 & R0 & _ & _ & _ & _ & Hverdict & _).
  rewrite R in R0. injection R0 as <- <- <-.
  destruct Hverdict as [(_ & _ & _ & ->) | (init & req & o & _ & _ & _ & Hlast)];
    [left; reflexivity|].
  destruct (fetched_body o); [destruct Hlast as [_ ->]; left; reflexivity|].
  destruct Hlast as [_ Hlast].
  destruct (tls_failure o); [left; assumption|right; apply Hlast].
Qed.

Lemma test_api_access_in_outcome urls : forall w,
  exists b w' evs n,
    test_api_access_in urls w = (Ok b, w', evs)
    /\ cfg w' = cfg w
    /\ writes evs = []
    /\ (n <= List.length urls)%nat
    /\ stats w' = Nat.iter n bump_errors (stats w)
    /\ Forall (fun ro => In (req_url (fst ro)) urls
                         /\ req_params (fst ro) = [])
         (api_attempts evs)
    /\ if b : bool
       then exists u req body init pre,
              In u urls
              /\ evs = (pre ++ [EvLog INFO (MApiAccessible u)])%list
              /\ fetches evs = (init ++ [(req, body)])%list
              /\ req_url req = u /\ truthy body = true
              /\ forallb (fun f => negb (truthy (snd f))) init = true
       else (exists pre, evs = (pre ++ [EvLog ERROR MNoApiAccessible])%list)
            /\ forallb (fun f => negb (truthy (snd f))) (fetches evs) = true.
Proof.
  induction urls as [|url urls IH]; intros w; cbn [test_api_access_in].
  - exists false, w, [EvLog ERROR MNoApiAccessible], 0%nat.
    repeat split; try constructor. exists []. reflexivity.
  - destruct (make_request_fetch url [] 3 w)
      as (j & w1 & e1 & R1 & Hc1 & Hev1 & Hf1).
    pose proof (make_request_counts _ _ _ _ _ _ _ R1) as Hs1.
    destruct (request_event_facts _ _ _ Hev1) as (Hw1 & _ & _ & _ & Ha1).
    assert (Hatt1 : Forall (fun ro => In (req_url (fst ro)) (url :: urls)
                                      /\ req_params (fst ro) = [])
                      (api_attempts e1)).
    { eapply Forall_impl; [|exact Ha1]. intros ro [-> ->].
      split; [left; reflexivity|reflexivity]. }
    rewrite bind_run, R1.
    destruct (truthy j) eqn:Hj.
    + destruct Hf1 as [[_ ->] | (req & Hf & Hu & _ & Hst)]; [discriminate|].
      exists true, w1, (e1 ++ [EvLog INFO (MApiAccessible url)])%list, 0%nat.
      split; [reflexivity|]. split; [assumption|].
      rewrite writes_app, api_attempts_app, fetches_app, Hw1, Hf, !app_nil_r.
      split; [reflexivity|]. split; [lia|]. split; [exact Hst|].
      split; [assumption|].
      exists url, req, j, [], e1.
      repeat split; auto. left. reflexivity.
    + destruct (IH w1) as (b & w2 & e2 & n & R2 & Hc2 & Hw2 & Hn & Hs2 & Ha2 & H2).
      rewrite R2.
      assert (Hfalsy : forallb (fun f => negb (truthy (snd f))) (fetches e1)
                       = true).
      { destruct Hf1 as [[-> _] | (req & -> & _)]; [reflexivity|].
        simpl. rewrite Hj. reflexivity. }
      assert (Hstats : exists n', (n' <= S (List.length urls))%nat
                /\ stats w2 = Nat.iter n' bump_errors (stats w)).
      { destruct Hs1 as [Hs1|Hs1].
        - exists n. rewrite Hs2, Hs1. split; [lia|reflexivity].
        - exists (S n). rewrite Hs2, Hs1, Nat.iter_succ_r.
          split; [lia|reflexivity]. }
      destruct Hstats as (n' & Hn' & Hs').
      exists b, w2, (e1 ++ e2)%list, n'.
      split; [reflexivity|]. split; [congruence|].
      rewrite writes_app, api_attempts_app, fetches_app, Hw1, Hw2.
      split; [reflexivity|]. split; [exact Hn'|]. split; [exact Hs'|].
      split.
      { apply Forall_app. split; [assumption|].
        eapply Forall_impl; [|exact Ha2]. intros ro [Hin Hp].
        split; [right; assumption|assumption]. }
      destruct b.
      * destruct H2 as (u & req & body & init & pre & Hin & -> & Hfe & Hu & Hb & Hi).
        exists u, req, body, (fetches e1 ++ init)%list, (e1 ++ pre)%list.
        split; [right; assumption|]. split; [apply app_assoc|].
        split; [rewrite Hfe; apply app_assoc|].
        split; [assumption|]. split; [assumption|].
        rewrite falsy_fetches_app, Hfalsy, Hi. reflexivity.
      * destruct H2 as ((pre & ->) & Hfe).
        split; [exists (e1 ++ pre)%list; apply app_assoc|].
        rewrite falsy_fetches_app, Hfalsy, Hfe. reflexivity.
Qed.

(** X6: [test_api_access] never raises, writes no file and leaves the
    configuration alone; its API requests go to the three test URLs, without
    query parameters, and it counts at most three errors.  It returns [True]
    exactly when a body that was handed back is true in Python's sense: that
    body is the last one, every earlier one is false, and the run ends with
    the log record that names the URL it came from.  Otherwise every body
    handed back is false (an empty object or [null] does not count as
    access) and the run ends with the record at ERROR. *)
Theorem test_api_access_outcome w :
  let run := test_api_access w in
  exists b n,
    result_of run = Ok b
    /\ cfg (world_of run) = cfg w
    /\ writes (events_of run) = []
    /\ (n <= 3)%nat
    /\ stats (world_of run) = Nat.iter n bump_errors (stats w)
    /\ Forall (fun ro => In (req_url (fst ro)) (test_urls w)
                         /\ req_params (fst ro) = [])
         (api_attempts (events_of run))
    /\ if b : bool
       then exists u req body init pre,
              In u (test_urls w)
              /\ events_of run = (pre ++ [EvLog INFO (MApiAccessible u)])%list
              /\ fetches (events_of run) = (init ++ [(req, body)])%list
              /\ req_url req = u /\ truthy body = true
              /\ forallb (fun f => negb (truthy (snd f))) init = true
       else (exists pre,
               events_of run = (pre ++ [EvLog ERROR MNoApiAccessible])%list)
            /\ forallb (fun f => negb (truthy (snd f))) (fetches (events_of run))
               = true.
Proof.
  destruct (test_api_access_in_outcome (test_urls w) w)
    as (b & w' & evs & n & R & Hc & Hw & Hn & Hs & Ha & H).
  assert (E : test_api_access w
              = (Ok b, w', EvLog INFO MTestingAccess :: evs)).
  { unfold test_api_access, bind, log, emit, get_world. rewrite R. reflexivity. }
  intros run. subst run. rewrite E.
  unfold result_of, world_of, events_of. cbn [fst snd].
  exists b, n. split; [reflexivity|]. split; [assumption|].
  change (EvLog INFO MTestingAccess :: evs)
    with ([EvLog INFO MTestingAccess] ++ evs)%list.
  rewrite writes_app, api_attempts_app, fetches_app. cbn [writes api_attempts fetches flat_map app].
  split; [assumption|]. split; [exact Hn|]. split; [assumption|].
  split; [assumption|].
  destruct b.
  - destruct H as (u & req & body & init & pre & Hin & -> & Hfe & Hu & Hb & Hi).
    exists u, req, body, init, (EvLog INFO MTestingAccess :: pre).
    repeat split; assumption.
  - destruct H as ((pre & ->) & Hfe).
    split; [exists (EvLog INFO MTestingAccess :: pre); reflexivity|assumption].
Qed.

Lemma test_api_access_run w :
  exists b w1 e1,
    test_api_access w = (Ok b, w1, e1) /\ cfg w1 = cfg w /\ writes e1 = [].
Proof.
  destruct (test_api_access_in_outcome (test_urls w) w)
    as (b & w' & evs & n & R & Hc & Hw & _).
  exists b, w', (EvLog INFO MTestingAccess :: evs).
  split; [|split; assumption].
  unfold test_api_access, bind, log, emit, get_world. rewrite R. reflexivity.
Qed.

Lemma run_full_collection_abort w w1 e1 :
  test_api_access w = (Ok false, w1, e1) ->
  run_full_collection w
  = (Ok false, w1,
     ([EvLog INFO MRunStart] ++ e1 ++ [EvLog ERROR MAccessAbort])%list).
Proof.
  intros R. unfold run_full_collection, bind, try_except, log, emit.
  rewrite R. reflexivity.
Qed.

Lemma no_write_no_summary c evs : writes evs = [] -> summary_writes c evs = [].
Proof. unfold summary_writes. intros ->. reflexivity. Qed.

(** X7: [run_full_collection] never raises.  It returns [True] exactly when
    it has written the summary report, once and with the statistics it ends
    with; when it returns [False] no summary report is written.  When the
    access check fails, nothing at all is written and no request is sent
    beyond those of the check. *)
Theorem run_full_collection_verdict w :
  let run := run_full_collection w in
  exists b,
    result_of run = Ok b
    /\ (b = true
        <-> summary_writes (cfg w) (events_of run) = [summary (world_of run)])
    /\ (b = false -> summary_writes (cfg w) (events_of run) = [])
    /\ (result_of (test_api_access w) = Ok false ->
        b = false
        /\ writes (events_of run) = []
        /\ requests (events_of run) = requests (events_of (test_api_access w))).
Proof.
  destruct (test_api_access_run w) as (b1 & w1 & e1 & R1 & Hc1 & Hw1).
  intros run. subst run. rewrite R1.
  unfold result_of at 2, events_of at 5. cbn [fst snd].
  destruct b1.
  - rewrite (run_full_collection_run w w1 e1 R1).
    destruct (collection_steps_same_config (cfg w) w1 Hc1) as [Hc2 Hev2].
    apply not_summary_writes in Hev2.
    destruct (collection_steps w1) as [[rs w2] e2].
    unfold world_of, events_of, same_config in Hc2, Hev2. cbn [fst snd] in *.
    destruct rs as [[]|x].
    + destruct (generate_summary_report_run w2) as (logs & -> & Hw & Hl).
      unfold result_of, world_of, events_of. cbn [fst snd].
      exists true. split; [reflexivity|].
      change (EvWrite (summary_file w2) (summary w2) :: logs)
        with ([EvWrite (summary_file w2) (summary w2)] ++ logs)%list.
      rewrite !summary_writes_app, Hev2, (no_write_no_summary _ e1 Hw1),
        (no_write_no_summary _ logs Hw).
      unfold summary_writes, summary_file. rewrite Hc2. simpl.
      rewrite String.eqb_refl. simpl.
      split; [split; reflexivity|]. split; discriminate.
    + unfold result_of, world_of, events_of. cbn [fst snd].
      exists false. split; [reflexivity|].
      rewrite !summary_writes_app, Hev2, (no_write_no_summary _ e1 Hw1).
      simpl. split; [split; discriminate|]. split; [reflexivity|discriminate].
  - rewrite (run_full_collection_abort w w1 e1 R1).
    unfold result_of, world_of, events_of. cbn [fst snd].
    exists false. split; [reflexivity|].
    rewrite !summary_writes_app, !writes_app, !requests_app, Hw1,
      (no_write_no_summary _ e1 Hw1).
    simpl. rewrite app_nil_r.
    split; [split; discriminate|]. split; [reflexivity|].
    intros _. repeat split.
Qed.

(** ** Statistics of the paginated collector *)

Lemma page_step_counts endpoint data_key page_size page total_pages all w :
  exists r w' evs,
    page_step endpoint data_key page_size page total_pages all w = (r, w', evs)
    /\ (stats w' = stats w
        \/ (stats w' = bump_errors (stats w) /\ exists d, r = Ok (Break d))).
Proof.
  destruct (make_request_fetch (base_url (cfg w) ++ endpoint)
              (page_params page page_size) 3 w)
    as (j & w1 & e1 & R1 & _ & _ & Hf).
  pose proof (make_request_counts _ _ _ _ _ _ _ R1) as Hs.
  assert (Hj : stats w1 = stats w
               \/ (stats w1 = bump_errors (stats w) /\ truthy j = false)).
  { destruct Hf as [[_ ->] | (req & _ & _ & _ & Hst)]; [|left; assumption].
    destruct Hs as [Hs|Hs]; [left; assumption|right; split; [assumption|reflexivity]]. }
  clear Hf Hs.
  unfold page_step, bind at 1 2, get_world. rewrite R1. cbv beta iota.
  destruct (truthy j) eqn:Tj; cbv beta iota delta [negb].
  - assert (Hst : stats w1 = stats w)
      by (destruct Hj as [H|[_ H]]; [assumption|discriminate]).
    unfold read_totals, take_items, bind, log, emit, lift, ret, sleep.
    run_leaf.
    all: do 3 eexists; split; [reflexivity|]; left; assumption.
  - do 3 eexists. split; [reflexivity|]. cbn [fst snd].
    destruct Hj as [H|[H _]]; [left; assumption|].
    right. split; [assumption|]. eexists. reflexivity.
Qed.

Lemma page_loop_counts endpoint data_key page_size fuel :
  forall page total_pages all w,
    let run := page_loop endpoint data_key page_size fuel page total_pages all w in
    stats (world_of run) = stats w
    \/ stats (world_of run) = bump_errors (stats w).
Proof.
  induction fuel as [|fuel IH]; intros page total_pages all w; cbn [page_loop].
  - left. reflexivity.
  - destruct (page_step_counts endpoint data_key page_size page total_pages all w)
      as (r & w1 & e1 & R1 & Hs1).
    cbv zeta. rewrite bind_run, R1.
    destruct r as [[d|tp d]|x].
    + unfold ret, world_of. cbn [fst snd].
      destruct Hs1 as [H|[H _]]; [left|right]; assumption.
    + specialize (IH (page + 1) tp d w1). cbv zeta in IH.
      destruct (page_loop endpoint data_key page_size fuel (page + 1) tp d w1)
        as [[r2 w2] e2].
      unfold world_of in *. cbn [fst snd] in *.
      destruct Hs1 as [H|[_ (d0 & Hd)]]; [|discriminate].
      rewrite <- H. exact IH.
    + unfold world_of. cbn [fst snd].
      destruct Hs1 as [H|[H (d0 & Hd)]]; [left; assumption|discriminate].
Qed.

Lemma collect_paginated_data_stats endpoint data_key page_size w :
  let run := collect_paginated_data endpoint data_key page_size w in
  stats (world_of run) = stats w
  \/ stats (world_of run) = bump_errors (stats w).
Proof.
  destruct (page_step_counts endpoint data_key page_size 1 JNull [] w)
    as (r & w1 & e1 & R1 & Hs1).
  intros run. subst run.
  unfold collect_paginated_data, bind, log, emit, ret. rewrite R1.
  destruct r as [[d|tp d]|x].
  - unfold world_of. cbn [fst snd].
    destruct Hs1 as [H|[H _]]; [left|right]; assumption.
  - pose proof (page_loop_counts endpoint data_key page_size (pages_left tp)
                  2 tp d w1) as Hloop.
    cbv zeta in Hloop.
    destruct (page_loop endpoint data_key page_size (pages_left tp) 2 tp d w1)
      as [[r2 w2] e2].
    unfold world_of in *. cbn [fst snd] in *.
    destruct Hs1 as [H|[_ (d0 & Hd)]]; [|discriminate].
    rewrite <- H.
    destruct r2; cbn [fst snd]; exact Hloop.
  - unfold world_of. cbn [fst snd].
    destruct Hs1 as [H|[H (d0 & Hd)]]; [left; assumption|discriminate].
Qed.

(** X8: a call of [collect_paginated_data] touches no dataset counter and
    counts at most one error, however many pages it requests: the statistics
    it leaves are the ones it found, or those with one more error. *)
Theorem collect_paginated_data_counts endpoint data_key page_size w :
  let run := collect_paginated_data endpoint data_key page_size w in
  stats (world_of run) = stats w
  \/ stats (world_of run) = bump_errors (stats w).
Proof. apply collect_paginated_data_stats. Qed.

(** ** The resource collectors *)

Lemma bind_get_world {A : Type} (f : World -> M A) w :
  bind get_world f w = f w w.
Proof.
  unfold bind, get_world. destruct (f w w) as [[r w2] e2]. reflexivity.
Qed.

(** a listing followed by [save_dataset], as the four collectors have it *)
Lemma collect_and_save endpoint what page_size file record w :
  let listing := collect_paginated_data endpoint what page_size w in
  let run :=
    bind (collect_paginated_data endpoint what page_size)
      (fun data =>
         bind (save_dataset data file what record) (fun _ => ret data)) w in
  bodies_wf (events_of run) = true ->
  result_of run = Ok (items_fetched (events_of run))
  /\ result_of listing = Ok (items_fetched (events_of run))
  /\ dataset_saved file record w run.
Proof.
  intros listing run. subst listing run.
  destruct (collect_paginated_data_spec endpoint what page_size w)
    as (r & w1 & e1 & R & Hcfg & Hok).
  pose proof (collect_paginated_data_stats endpoint what page_size w) as Hst.
  cbv zeta in Hst. rewrite R in Hst. unfold world_of in Hst. cbn [fst snd] in Hst.
  rewrite bind_run, R.
  destruct r as [d|x].
  - destruct Hok as (k & Hd & _ & _ & _ & Hw1). cbn [app] in Hd.
    rewrite bind_run, save_dataset_run.
    unfold dataset_saved, dataset_write, result_of, world_of, events_of.
    destruct d as [|d0 d]; cbv beta iota delta [is_nil]; cbn [fst snd ret];
      intros _; rewrite ?app_nil_r, ?items_fetched_app, ?writes_app, <- ?Hd, ?Hw1;
      cbn [items_fetched fetches api_attempts flat_map writes app];
      rewrite ?app_nil_r.
    + repeat split; try assumption. exists (stats w1). split; [assumption|reflexivity].
    + rewrite Hcfg. repeat split; try assumption.
      exists (stats w1). split; [assumption|reflexivity].
  - unfold events_of. cbn [snd]. destruct Hok as [_ Hbad].
    intros H. rewrite H in Hbad. discriminate.
Qed.

Lemma collect_then_save endpoint what page_size file record w :
  let run :=
    bind (collect_paginated_data endpoint what page_size)
      (fun data => save_dataset data file what record) w in
  bodies_wf (events_of run) = true ->
  result_of run = Ok tt /\ dataset_saved file record w run.
Proof.
  intros run. subst run.
  destruct (collect_paginated_data_spec endpoint what page_size w)
    as (r & w1 & e1 & R & Hcfg & Hok).
  pose proof (collect_paginated_data_stats endpoint what page_size w) as Hst.
  cbv zeta in Hst. rewrite R in Hst. unfold world_of in Hst. cbn [fst snd] in Hst.
  rewrite bind_run, R.
  destruct r as [d|x].
  - destruct Hok as (k & Hd & _ & _ & _ & Hw1). cbn [app] in Hd.
    rewrite save_dataset_run.
    unfold dataset_saved, dataset_write, result_of, world_of, events_of.
    destruct d as [|d0 d]; cbv beta iota delta [is_nil]; cbn [fst snd];
      intros _; rewrite ?app_nil_r, ?items_fetched_app, ?writes_app, <- ?Hd, ?Hw1;
      cbn [items_fetched fetches api_attempts flat_map writes app];
      rewrite ?app_nil_r.
    + repeat split; try assumption. exists (stats w1). split; [assumption|reflexivity].
    + rewrite Hcfg. repeat split; try assumption.
      exists (stats w1). split; [assumption|reflexivity].
  - unfold events_of. cbn [snd]. destruct Hok as [_ Hbad].
    intros H. rewrite H in Hbad. discriminate.
Qed.

(** X9: each of the three collectors of site resources that return nothing
    ([collect_structured_contents], [collect_content_folders],
    [collect_site_pages]), when the listings it gets are well formed, returns
    normally; it writes its file, with exactly the records it fetched, when
    there is at least one record, and then sets its own counter to their
    number; with no record it writes nothing and leaves its counter.  No
    other dataset counter changes, and at most one error is counted. *)
Theorem site_collectors_save collector file record w :
  In (collector, file, record) site_collectors ->
  let run := collector w in
  bodies_wf (events_of run) = true ->
  result_of run = Ok tt /\ dataset_saved file record w run.
Proof.
  intros Hin.
  destruct Hin as [H | [H | [H | []]]]; injection H as <- <- <-;
    [unfold collect_structured_contents | unfold collect_content_folders
    | unfold collect_site_pages]; rewrite bind_get_world.
  - apply (collect_then_save (site_endpoint w "structured-contents")
             "conteudos estruturados" 20 "structured_contents.json"
             set_structured_contents w).
  - apply (collect_then_save (site_endpoint w "structured-content-folders")
             "pastas de conteudo" 10 "content_folders.json"
             set_content_folders w).
  - apply (collect_then_save (site_endpoint w "site-pages")
             "paginas do site" 10 "site_pages.json" set_site_pages w).
Qed.

(** X10: [collect_document_folders], when the listings it gets are well
    formed, returns exactly the folder records it fetched, which are the
    ones it has written to [document_folders.json] (nothing is written and
    the counter is left alone when there is none); no other dataset counter
    changes, and at most one error is counted. *)
Theorem collect_document_folders_returns w :
  let run := collect_document_folders w in
  bodies_wf (events_of run) = true ->
  result_of run = Ok (items_fetched (events_of run))
  /\ dataset_saved "document_folders.json" set_document_folders w run.
Proof.
  intros run. subst run. unfold collect_document_folders.
  rewrite bind_get_world. intros Hwf.
  destruct (collect_and_save (site_endpoint w "document-folders")
              "pastas de documentos" 20 "document_folders.json"
              set_document_folders w Hwf) as (Hr & _ & Hs).
  split; assumption.
Qed.

(** ** Construction *)

Lemma mkdirs_app e1 e2 : mkdirs (e1 ++ e2) = (mkdirs e1 ++ mkdirs e2)%list.
Proof. apply flat_map_app. Qed.

Lemma printed_app e1 e2 : printed (e1 ++ e2) = (printed e1 ++ printed e2)%list.
Proof. apply flat_map_app. Qed.

Lemma helper_facts evs :
  forallb helper_event evs = true ->
  api_attempts evs = [] /\ writes evs = [] /\ sleeps evs = []
  /\ mkdirs evs = [] /\ printed evs = [].
Proof.
  intros H.
  split; [apply executor_no_api, helper_executor, H|].
  split.
  { apply (request_event_facts "" []). apply executor_request_events.
    apply helper_executor, H. }
  split; [apply helper_no_sleep, H|].
  unfold mkdirs, printed.
  induction evs as [|ev evs IH]; simpl in *; [split; reflexivity|].
  apply andb_true_iff in H. destruct H as [Hev H].
  destruct (IH H) as [-> ->].
  destruct ev; simpl in *; try discriminate; split; reflexivity.
Qed.

(** X11: the constructor ([__init__] past the field assignments).  With an
    empty output directory it raises [FileNotFoundError] when it creates the
    directory, after the log record about the certificate check and before
    any authentication: nothing is sent and the collector is as it was.
    Otherwise it creates the directory and returns; with a user name and a
    password its events are then exactly those of one run of
    [authenticate_comprehensive] from the state it was given, whatever that
    run achieves, and it ends in the state this run leaves, with all
    statistics at zero; without one of them it sends no request and only
    sets the statistics to zero.  In no case does it send an API request,
    write a file or sleep, and the configuration is as given. *)
Theorem init_collector_outcome w :
  let run := init_collector w in
  let auth := authenticate_comprehensive w in
  let ssl_log :=
    EvLog INFO (if verify_ssl (cfg w) then MSslEnabled else MSslDisabled) in
  let created := EvMkdir (output_dir (cfg w)) in
  (if String.eqb (output_dir (cfg w)) "" then
     result_of run = Raise FileNotFoundError
     /\ events_of run = [ssl_log]
     /\ world_of run = w
   else if has_credentials w then
     result_of run = Ok tt
     /\ events_of run = ([ssl_log; created] ++ events_of auth)%list
     /\ world_of run = set_stats stats_zero (world_of auth)
   else
     result_of run = Ok tt
     /\ events_of run = [ssl_log; created]
     /\ world_of run = set_stats stats_zero w)
  /\ cfg (world_of run) = cfg w
  /\ api_attempts (events_of run) = []
  /\ writes (events_of run) = []
  /\ sleeps (events_of run) = [].
Proof.
  intros run auth ssl_log created. subst run auth ssl_log created.
  destruct (authenticate_comprehensive_spec w)
    as (w' & evs & k & R & (Hcfg & _ & Hh) & Hn & _).
  destruct (helper_facts evs Hh) as (Ha & Hw & Hs & Hm & _).
  unfold init_collector, bind, get_world, log, emit, when, modify, raise.
  destruct (String.eqb (output_dir (cfg w)) "").
  - unfold result_of, world_of, events_of. cbn [fst snd app].
    destruct (verify_ssl (cfg w)); repeat split.
  - destruct (has_credentials w).
    + rewrite R. unfold result_of, world_of, events_of, ret. cbn [fst snd app].
      rewrite app_nil_r.
      change (?a :: ?b :: evs) with ([a; b] ++ evs)%list.
      rewrite api_attempts_app, writes_app, sleeps_app, Ha, Hw, Hs.
      destruct (verify_ssl (cfg w)); repeat split; assumption.
    + unfold result_of, world_of, events_of, ret. cbn [fst snd app].
      destruct (verify_ssl (cfg w)); repeat split.
Qed.

(** ** The command line: runs that collect nothing *)

(** X12: with credentials, at least one resource selected and [--dry-run],
    [main] only prints: the banner and the list of the selected resources.
    No collector is built, so no directory is created, no request is sent,
    no file is written and nothing is logged at any level: every event of
    the run is a printed line; the server is left as it was and the process
    ends with status 0. *)
Theorem main_dry_run a server :
  opt_truthy (arg_username a) = true ->
  opt_truthy (arg_password a) = true ->
  existsb snd (collect_options a) = true ->
  arg_dry_run a = true ->
  let run := main a server in
  fst (fst run) = 0
  /\ snd (fst run) = server
  /\ requests (snd run) = []
  /\ writes (snd run) = []
  /\ mkdirs (snd run) = []
  /\ logged INFO (snd run) = []
  /\ last (printed (snd run)) PStarting
     = PDryRun (selected (collect_options a))
  /\ (forall lvl, logged lvl (snd run) = [])
  /\ snd run = map EvPrint (printed (snd run)).
Proof.
  intros Hu Hp Hsel Hdry. unfold main.
  rewrite Hu, Hp, Hsel, Hdry. cbv beta iota zeta delta [negb orb].
  destruct (opt_truthy (arg_csrf_token a)), (arg_verify_ssl a);
    repeat split.
Qed.

(** X13: when [documents] is the only resource selected, no folder list is
    at hand: the run sends no request, prints the warning that no folder was
    found, and goes on to write the summary report, which is the only file
    written; it returns normally and leaves the statistics as they were. *)
Theorem run_selected_documents_only opts out w :
  option_on "structured_contents" opts = false ->
  option_on "content_folders" opts = false ->
  option_on "site_pages" opts = false ->
  option_on "document_folders" opts = false ->
  option_on "documents" opts = true ->
  let run := run_selected opts out w in
  result_of run = Ok tt
  /\ world_of run = w
  /\ requests (events_of run) = []
  /\ writes (events_of run) = [(summary_file w, summary w)]
  /\ printed (events_of run)
     = [PStarting;
        PSelected (List.length (selected opts)) (List.length opts);
        PNoFoldersWarning; PNoFoldersHint; PReport; PFinished out].
Proof.
  intros H1 H2 H3 H4 H5. unfold run_selected.
  rewrite H1, H2, H3, H4, H5. repeat split.
Qed.

(** ** The command line: a run that collects *)

Section Reported.

Variable c : Config.
Variable out : string.

Lemma reported_bind {A : Type} (m : M A) (f : A -> M unit) w :
  keeps (same_config c) (not_summary c) m ->
  (forall a w1, same_config c w1 -> reported c out (f a w1)) ->
  same_config c w -> reported c out (bind m f w).
Proof.
  intros Hm Hf Hw. rewrite bind_run.
  destruct (Hm w Hw) as [Hw1 He1].
  destruct (m w) as [[r w1] e1]. unfold world_of, events_of in *.
  cbn [fst snd] in *.
  destruct r as [a|x].
  - destruct (Hf a w1 Hw1)
      as [(x & w2 & pre & -> & Hpre) | (w2 & pre & Hw2 & Hpre & ->)].
    + left. exists x, w2, (e1 ++ pre)%list. split; [reflexivity|].
      apply Forall_app. split; assumption.
    + right. exists w2, (e1 ++ pre)%list. split; [assumption|].
      split; [apply Forall_app; split; assumption|].
      rewrite <- app_assoc. reflexivity.
  - left. exists x, w1, e1. split; [reflexivity|assumption].
Qed.

Ltac config_side :=
  first [ exact (same_config_write c)
        | (unfold same_config; intros; simpl; first [assumption | exact Logic.I]) ].

Ltac keeps_print :=
  apply keeps_emit; exact Logic.I.

Lemma step_keeps (b : bool) what (m : M unit) :
  keeps (same_config c) (not_summary c) m ->
  keeps (same_config c) (not_summary c)
    (when b (bind (emit (EvPrint (PStep what))) (fun _ => m))).
Proof.
  intros Hm. destruct b; [|apply keeps_ret].
  apply keeps_bind; [keeps_print|intros _; exact Hm].
Qed.

Lemma run_selected_reported opts w :
  same_config c w -> reported c out (run_selected opts out w).
Proof.
  intros Hw. unfold run_selected.
  apply reported_bind; [keeps_print| |assumption]. clear w Hw. intros _ w Hw.
  apply reported_bind; [keeps_print| |assumption]. clear w Hw. intros _ w Hw.
  apply reported_bind;
    [apply step_keeps; apply collect_structured_contents_keeps; config_side
    | |assumption].
  clear w Hw. intros _ w Hw.
  apply reported_bind;
    [apply step_keeps; apply collect_content_folders_keeps; config_side
    | |assumption].
  clear w Hw. intros _ w Hw.
  apply reported_bind;
    [apply step_keeps; apply collect_site_pages_keeps; config_side
    | |assumption].
  clear w Hw. intros _ w Hw.
  apply reported_bind; [| |assumption].
  { destruct (option_on "document_folders" opts); [|apply keeps_ret].
    apply keeps_bind; [keeps_print|intros _].
    apply collect_document_folders_keeps; config_side. }
  clear w Hw. intros folders w Hw.
  apply reported_bind; [| |assumption].
  { destruct (option_on "documents" opts && negb (is_nil folders)).
    - apply keeps_bind; [keeps_print|intros _].
      apply collect_documents_from_folders_keeps; config_side.
    - destruct (option_on "documents" opts && is_nil folders);
        [|apply keeps_ret].
      apply keeps_bind; [keeps_print|intros _; keeps_print]. }
  clear w Hw. intros _ w Hw.
  right. exists w, []. split; [assumption|]. split; [constructor|].
  destruct (generate_summary_report_run w) as (logs & E & _).
  unfold bind, emit. rewrite E. reflexivity.
Qed.

Lemma init_collector_same_config :
  keeps (same_config c) (not_summary c) init_collector.
Proof.
  intros w Hw. unfold init_collector. rewrite bind_get_world.
  match goal with
  | |- _ (world_of (?m w)) /\ _ =>
      cut (keeps (same_config c) (not_summary c) m);
        [intros H; exact (H w Hw)|]
  end.
  apply keeps_bind; [apply keeps_emit; exact Logic.I|intros _].
  apply keeps_bind.
  { destruct (String.eqb (output_dir (cfg w)) "");
      [apply keeps_raise|apply keeps_emit; exact Logic.I]. }
  intros _. apply keeps_bind.
  - destruct (has_credentials w); [|apply keeps_ret].
    apply authenticate_comprehensive_keeps; config_side.
  - intros _. apply keeps_modify. config_side.
Qed.

End Reported.

(** X14: a run of [main] with credentials, at least one resource selected
    and no [--dry-run] builds the collector and runs the selected steps
    inside one [try], and ends as that block ends, leaving the server as the
    block left it.  When the constructor and every step returned, the events
    are the banner and those of the block, the summary report is written
    exactly once, the closing line is the last line printed and the status
    is 0.  When the constructor or a step raised [e], the events are the
    banner, those of the block up to the exception, the line that prints [e]
    and, with [--verbose], the traceback; no summary report is written and
    the status is 1. *)
Theorem main_exit_status a server :
  opt_truthy (arg_username a) = true ->
  opt_truthy (arg_password a) = true ->
  existsb snd (collect_options a) = true ->
  arg_dry_run a = false ->
  let w0 := fresh_collector (arg_base_url a) (arg_site_id a)
              (arg_username a) (arg_password a) (arg_csrf_token a)
              (arg_output_dir a) (arg_verify_ssl a) server in
  let c := cfg w0 in
  let steps :=
    bind init_collector
      (fun _ => run_selected (collect_options a) (arg_output_dir a)) w0 in
  let banner :=
    [EvPrint (PUsingCredentials (opt_str (arg_username a)));
     EvPrint (if opt_truthy (arg_csrf_token a)
              then PCsrfGiven (str_take 10 (opt_str (arg_csrf_token a)))
              else PCsrfAutomatic);
     EvPrint (if arg_verify_ssl a then PSslOn else PSslOff)] in
  let run := main a server in
  snd (fst run) = remote (world_of steps)
  /\ match result_of steps with
     | Ok _ =>
         fst (fst run) = 0
         /\ snd run = (banner ++ events_of steps)%list
         /\ (exists content, summary_writes c (snd run) = [content])
         /\ last (printed (snd run)) PStarting = PFinished (arg_output_dir a)
     | Raise e =>
         fst (fst run) = 1
         /\ snd run
            = (banner ++ events_of steps
                 ++ EvPrint (PExecutionError e)
                 :: (if arg_verbose a then [EvPrint PTraceback] else []))%list
         /\ summary_writes c (snd run) = []
         /\ In (PExecutionError e) (printed (snd run))
     end.
Proof.
  intros Hu Hp Hsel Hdry w0 c steps banner run. subst run. unfold main.
  rewrite Hu, Hp, Hsel, Hdry. cbv beta iota zeta delta [negb orb].
  fold w0. fold banner.
  assert (Hbanner : summary_writes c banner = []) by reflexivity.
  assert (Hrun : reported c (arg_output_dir a) steps).
  { apply reported_bind; [apply init_collector_same_config| |reflexivity].
    intros _ w1 Hw1. apply run_selected_reported. exact Hw1. }
  change (bind init_collector
            (fun _ => run_selected (collect_options a) (arg_output_dir a)) w0)
    with steps.
  destruct Hrun as [(x & w1 & pre & E & Hpre) | (w1 & pre & Hw1 & Hpre & E)];
    rewrite E; unfold result_of, world_of, events_of; cbn [fst snd].
  - split; [reflexivity|]. split; [reflexivity|]. split; [reflexivity|].
    apply not_summary_writes in Hpre.
    split.
    + change (pre ++ EvPrint (PExecutionError x)
                :: (if arg_verbose a then [EvPrint PTraceback] else []))%list
        with (pre ++ [EvPrint (PExecutionError x)]
                ++ (if arg_verbose a then [EvPrint PTraceback] else []))%list.
      rewrite !summary_writes_app, Hbanner, Hpre.
      destruct (arg_verbose a); reflexivity.
    + rewrite !printed_app. apply in_or_app. right.
      apply in_or_app. right. left. reflexivity.
  - split; [reflexivity|]. split; [reflexivity|]. split; [reflexivity|].
    apply not_summary_writes in Hpre.
    destruct (generate_summary_report_run w1) as (logs & -> & Hw & Hl).
    cbn [snd].
    change (pre ++ EvPrint PReport
              :: (EvWrite (summary_file w1) (summary w1) :: logs)
              ++ [EvPrint (PFinished (arg_output_dir a))])%list
      with (pre ++ [EvPrint PReport]
              ++ ([EvWrite (summary_file w1) (summary w1)] ++ logs)
              ++ [EvPrint (PFinished (arg_output_dir a))])%list.
    split.
    + exists (summary w1).
      rewrite !summary_writes_app, Hbanner, Hpre,
        (no_write_no_summary _ logs Hw).
      unfold summary_writes, summary_file. unfold same_config in Hw1.
      rewrite Hw1. simpl. rewrite String.eqb_refl. reflexivity.
    + rewrite !app_assoc, printed_app. cbn [printed flat_map app].
      apply last_last.
Qed.

(** ** The authentication strategies *)

(** X15: [try_oauth2] never raises and sends exactly one request: a POST of
    the password grant, with the user name and the password, to the token
    endpoint.  It returns [True] exactly when it has put the header
    [Authorization: Bearer <token>] on the session, for a token that is true
    in Python's sense; when it returns [False] the session headers are
    untouched.  The configuration, the statistics and the CSRF token are
    never changed. *)
Theorem try_oauth2_outcome w :
  let run := try_oauth2 w in
  exists b req,
    result_of run = Ok b
    /\ requests (events_of run) = [req]
    /\ req_method req = POST
    /\ req_url req = (base_url (cfg w) ++ "/o/oauth2/token")%string
    /\ req_data req
       = [("grant_type", Some "password"); ("username", username (cfg w));
          ("password", password (cfg w)); ("client_id", Some "headless-server")]
    /\ cfg (world_of run) = cfg w
    /\ stats (world_of run) = stats w
    /\ csrf_token (world_of run) = csrf_token w
    /\ if b : bool
       then exists access_token,
              truthy access_token = true
              /\ session_headers (world_of run)
                 = dict_set "Authorization" ("Bearer " ++ py_str access_token)
                     (session_headers w)
       else session_headers (world_of run) = session_headers w.
Proof.
  unfold try_oauth2, try_except, bind, log, emit, get_world, lift,
    set_session_header, modify, session_request, ret,
    result_of, world_of, events_of.
  run_leaf.
  all: do 2 eexists; cbn [fst snd];
    repeat (split; [reflexivity|]);
    first [ reflexivity
          | eexists; split; [eassumption|reflexivity] ].
Qed.

(** X16: [try_jsonws_login] never raises and sends exactly one request: a
    POST of the user name and the password to the JSON-WS endpoint.  It
    returns [True] exactly when that request is answered with status 200,
    whatever the body says.  It changes nothing in the collector or its
    session. *)
Theorem try_jsonws_login_outcome w :
  let run := try_jsonws_login w in
  exists b req o,
    result_of run = Ok b
    /\ In (EvHttp req o) (events_of run)
    /\ requests (events_of run) = [req]
    /\ req_method req = POST
    /\ req_url req = (base_url (cfg w) ++ "/api/jsonws/user/authenticate")%string
    /\ dict_get "login" (req_data req) = Some (username (cfg w))
    /\ dict_get "password" (req_data req) = Some (password (cfg w))
    /\ (b = true <-> exists r, o = OResponse r /\ status_code r = 200)
    /\ cfg (world_of run) = cfg w
    /\ stats (world_of run) = stats w
    /\ csrf_token (world_of run) = csrf_token w
    /\ session_headers (world_of run) = session_headers w.
Proof.
  unfold try_jsonws_login, try_except, bind, log, emit, get_world, lift,
    session_request, ret, result_of, world_of, events_of.
  run_leaf.
  all: do 3 eexists; cbn [fst snd];
    split; [reflexivity|]; split; [simpl; eauto|];
    repeat (split; [reflexivity|]);
    split; [|repeat split].
  all: split; intros H; try discriminate;
    try (destruct H as (r0 & H & Hs); try discriminate;
         injection H as <-; rewrite Hs in *; discriminate).
  all: try (eexists; split; [reflexivity|]; apply Z.eqb_eq; assumption).
  all: reflexivity.
Qed.

(** X17: [try_web_login] never raises.  It sends at most three requests, in
    this order: a GET of the login page, a POST of the login form to the same
    URL, a GET of the current user; it stops after the first one unless the
    login page came with status 200, and it does not return [True] without
    having posted the form.  The form carries the user name, the password
    and [rememberMe=false].  The configuration, the statistics and the
    session headers are left as they are; the CSRF token is left as it is or
    replaced by a non-empty token read from the login page, also when the
    login then fails. *)
Theorem try_web_login_outcome w :
  let run := try_web_login w in
  let login_url := (base_url (cfg w) ++ "/c/portal/login")%string in
  exists b k,
    result_of run = Ok b
    /\ (1 <= k <= 3)%nat
    /\ map (fun r => (req_method r, req_url r)) (requests (events_of run))
       = firstn k [(GET, login_url); (POST, login_url);
                   (GET, current_user_url w)]
    /\ (b = true -> (2 <= k)%nat)
    /\ Forall (fun r => req_method r = POST ->
                 dict_get "login" (req_data r) = Some (username (cfg w))
                 /\ dict_get "password" (req_data r) = Some (password (cfg w))
                 /\ dict_get "rememberMe" (req_data r) = Some (Some "false"))
         (requests (events_of run))
    /\ cfg (world_of run) = cfg w
    /\ stats (world_of run) = stats w
    /\ session_headers (world_of run) = session_headers w
    /\ (csrf_token (world_of run) = csrf_token w
        \/ exists tok, str_truthy tok = true
                       /\ csrf_token (world_of run) = Some tok).
Proof.
  unfold try_web_login, try_except, bind, log, emit, get_world, lift, when,
    modify, session_get, session_request, ret, current_user_url,
    result_of, world_of, events_of.
  run_leaf.
  all: eexists; cbn [fst snd];
    first [ exists 1%nat; split; [reflexivity|]; split; [lia|];
            split; [reflexivity|]
          | exists 2%nat; split; [reflexivity|]; split; [lia|];
            split; [reflexivity|]
          | exists 3%nat; split; [reflexivity|]; split; [lia|];
            split; [reflexivity|] ].
  all: split; [intros; first [lia | discriminate]|].
  all: split;
    [repeat constructor; simpl; intros; try discriminate; repeat split
    |].
  all: repeat (split; [reflexivity|]).
  all: first [ left; reflexivity
             | right; eexists; (split; [|reflexivity]); assumption ].
Qed.

(** ** The requests of the executor *)

Lemma api_headers_json session w :
  dict_get "Accept" (merge_headers session (api_headers w))
  = Some "application/json"
  /\ dict_get "Content-Type" (merge_headers session (api_headers w))
     = Some "application/json".
Proof.
  assert (H : forall extra : list (string * string),
    dict_get "Accept"
      (merge_headers session
         (("Accept", "application/json")
          :: ("Content-Type", "application/json") :: extra)) = Some "application/json"
    /\ dict_get "Content-Type"
         (merge_headers session
            (("Accept", "application/json")
             :: ("Content-Type", "application/json") :: extra))
       = Some "application/json"
    \/ dict_get "Accept" extra <> None \/ dict_get "Content-Type" extra <> None).
  { intros extra.
    destruct (dict_get "Accept" extra) eqn:Ha; [right; left; discriminate|].
    destruct (dict_get "Content-Type" extra) eqn:Hc; [right; right; discriminate|].
    left. unfold merge_headers. cbn [fold_left fst snd].
    change (fold_left (fun acc kv => dict_set (fst kv) (snd kv) acc) extra ?s)
      with (merge_headers s extra).
    rewrite !merge_headers_get by assumption.
    split.
    - rewrite dict_get_set_other by reflexivity. apply dict_get_set_same.
    - apply dict_get_set_same. }
  unfold api_headers.
  destruct (csrf_token w) as [tok|]; [destruct (str_truthy tok)|].
  - destruct (H [("X-CSRF-Token", tok)]) as [H0|[H0|H0]];
      [exact H0 | exfalso; apply H0; reflexivity
      | exfalso; apply H0; reflexivity].
  - destruct (H []) as [H0|[H0|H0]];
      [exact H0 | exfalso; apply H0; reflexivity
      | exfalso; apply H0; reflexivity].
  - destruct (H []) as [H0|[H0|H0]];
      [exact H0 | exfalso; apply H0; reflexivity
      | exfalso; apply H0; reflexivity].
Qed.

(** the first event of an attempt is its request *)
Lemma request_attempt_request url params max_retries attempt w :
  exists o rest,
    events_of (request_attempt url params max_retries attempt w)
    = EvHttp (mkRequest GET url params
                (merge_headers (session_headers w) (api_headers w)) []
                (Some 30) (verify_ssl (cfg w))) o :: rest.
Proof.
  unfold request_attempt, reauthenticate, backoff_or_give_up, try_except, bind,
    log, emit, sleep, get_world, lift, when, inc_errors, modify,
    session_request, ret, events_of.
  repeat (first [run_auth | break_match]; simpl in *; try discriminate).
  all: repeat match goal with
         | H : (_, _) = (_, _) |- _ => inversion H; subst; clear H
         end.
  all: do 2 eexists; reflexivity.
Qed.

Lemma request_attempts_shape url params max_retries n : forall attempt w,
  Forall (fun ro => api_request_shape (verify_ssl (cfg w)) url params (fst ro))
    (api_attempts
       (events_of (request_attempts url params max_retries n attempt w))).
Proof.
  induction n as [|n IH]; intros attempt w; cbn [request_attempts].
  - constructor.
  - destruct (request_attempt_spec url params max_retries attempt w)
      as (r & w1 & req & o & rest & Hrun & Hurl & Hpar & Hapi & Hcfg & Hex & _).
    destruct (request_attempt_request url params max_retries attempt w)
      as (o' & rest' & Hfirst).
    rewrite Hrun in Hfirst. unfold events_of in Hfirst. cbn [snd] in Hfirst.
    injection Hfirst as Hreq _ _.
    assert (Hshape : api_request_shape (verify_ssl (cfg w)) url params req).
    { rewrite Hreq. unfold api_request_shape. cbn.
      destruct (api_headers_json (session_headers w) w) as [Ha Hc].
      repeat split; assumption. }
    rewrite bind_run, Hrun.
    destruct r as [j|].
    + unfold ret, events_of. cbn [snd app].
      rewrite (api_attempts_attempt req o rest [] Hapi Hex).
      constructor; [exact Hshape|constructor].
    + specialize (IH (attempt + 1) w1). rewrite Hcfg in IH.
      destruct (request_attempts url params max_retries n (attempt + 1) w1)
        as [[r2 w2] e2].
      unfold events_of in *. cbn [snd app] in *.
      rewrite (api_attempts_attempt req o rest e2 Hapi Hex).
      constructor; assumption.
Qed.

(** X18: every API request that [make_request url params] sends, first
    attempt or retry, is a GET of [url] with [params], without form data,
    with a timeout of 30 seconds and the certificate check of the
    configuration; its [Accept] and [Content-Type] headers are
    [application/json], whatever the session headers say. *)
Theorem make_request_requests url params max_retries w :
  Forall (fun ro => api_request_shape (verify_ssl (cfg w)) url params (fst ro))
    (api_attempts (events_of (make_request url params max_retries w))).
Proof.
  assert (Hcsrf : exists w0 e0,
    when (negb (opt_truthy (csrf_token w))) find_csrf_token w = (Ok tt, w0, e0)
    /\ cfg w0 = cfg w /\ api_attempts e0 = []).
  { destruct (negb (opt_truthy (csrf_token w))); cbn [when].
    - destruct (find_csrf_token_spec w) as (w0 & e0 & R & (Hc & _ & Hh) & _).
      exists w0, e0. split; [assumption|]. split; [assumption|].
      apply executor_no_api, helper_executor, Hh.
    - exists w, []. repeat split. }
  destruct Hcsrf as (w0 & e0 & R0 & Hc0 & Ha0).
  unfold make_request. rewrite bind_get_world, bind_run, R0.
  pose proof (request_attempts_shape url params max_retries
                (Z.to_nat max_retries) 0 w0) as H.
  rewrite Hc0 in H.
  destruct (request_attempts url params max_retries (Z.to_nat max_retries) 0 w0)
    as [[r w1] e1].
  unfold events_of in *. cbn [snd] in *.
  rewrite api_attempts_app, Ha0. exact H.
Qed.

(** ** The first page of a listing *)

(** the run of [collect_paginated_data] whose first body is an object that
    reports records: what the first step does with the items decides *)
Lemma first_page_run endpoint data_key page_size w req kvs :
  let run := collect_paginated_data endpoint data_key page_size w in
  hd_error (fetches (events_of run)) = Some (req, JObj kvs) ->
  exists w1 e1,
    make_request (base_url (cfg w) ++ endpoint) (page_params 1 page_size) 3 w
    = (Ok (JObj kvs), w1, e1)
    /\ fetches e1 = [(req, JObj kvs)]
    /\ req_params req = page_params 1 page_size
    /\ stats w1 = stats w
    /\ pages_failed e1 = [].
Proof.
  intros run. subst run.
  destruct (make_request_fetch (base_url (cfg w) ++ endpoint)
              (page_params 1 page_size) 3 w)
    as (j & w1 & e1 & R1 & Hc1 & Hev1 & Hf).
  destruct (request_event_facts _ _ _ Hev1) as (_ & _ & Hpf1 & _ & _).
  destruct (first_fetch endpoint data_key page_size w j w1 e1 R1)
    as (tail & Hevs & Hnone).
  intros Hhd. rewrite Hevs, fetches_start, fetches_app in Hhd.
  destruct Hf as [(Hfe & Hj)|(req0 & Hfe & _ & Hpar & Hst)].
  - rewrite Hfe, (Hnone Hfe Hj) in Hhd. discriminate.
  - rewrite Hfe in Hhd. cbn [app hd_error] in Hhd.
    injection Hhd as -> ->.
    exists w1, e1. repeat split; assumption.
Qed.

(** X19: when the first page of a listing is an object that reports records
    and whose [lastPage] is missing or is a number not above 1, and its
    [items] is an array, [collect_paginated_data] returns exactly these
    items after this one page: no second page is requested, no page is
    reported as failed and no error is counted. *)
Theorem collect_paginated_data_single_page
    endpoint data_key page_size w req kvs items n :
  let run := collect_paginated_data endpoint data_key page_size w in
  hd_error (fetches (events_of run)) = Some (req, JObj kvs) ->
  truthy (JObj kvs) = true ->
  py_eq_int (field kvs "totalCount" (JNum 0)) 0 = false ->
  field kvs "items" (JArr []) = JArr items ->
  field kvs "lastPage" (JNum 1) = JNum n -> n <= 1 ->
  result_of run = Ok items
  /\ pages_fetched (events_of run) = [1]
  /\ pages_collected (events_of run) = [(1, List.length items)]
  /\ pages_failed (events_of run) = []
  /\ stats (world_of run) = stats w.
Proof.
  intros run Hhd Tj Z0 Hitems Hlast Hn.
  destruct (first_page_run endpoint data_key page_size w req kvs Hhd)
    as (w1 & e1 & R1 & Hfe & Hpar & Hst & Hpf).
  assert (Hz : (1 =? 1) && py_eq_int (field kvs "totalCount" (JNum 0)) 0 = false)
    by (rewrite Z0; reflexivity).
  pose proof (page_step_items endpoint data_key page_size 1 JNull [] w kvs
                w1 e1 R1 Tj Hz) as Hs.
  cbv zeta in Hs. rewrite take_items_object in Hs.
  change (1 =? 1) with true in Hs. cbv beta iota in Hs.
  rewrite Hitems, Hlast in Hs. cbn [py_iter py_int_ge] in Hs.
  assert (Hge : (1 >=? n) = true) by (apply Z.geb_le; lia).
  rewrite Hge in Hs. cbv beta iota zeta in Hs.
  assert (Hpc : pages_collected e1 = [] /\ pages_fetched e1 = [1]).
  { destruct (make_request_fetch (base_url (cfg w) ++ endpoint)
                (page_params 1 page_size) 3 w)
      as (j' & w' & e' & R' & _ & Hev & _).
    rewrite R1 in R'. injection R' as <- <- <-.
    destruct (request_event_facts _ _ _ Hev) as (_ & Hc & _).
    split; [assumption|].
    unfold pages_fetched. rewrite Hfe. cbn [flat_map fst snd app].
    unfold page_of. rewrite Hpar, Tj. reflexivity. }
  destruct Hpc as [Hpc Hpg].
  subst run. unfold collect_paginated_data, bind, log, emit, ret.
  rewrite Hs. unfold result_of, world_of, events_of. cbn [fst snd app].
  split; [reflexivity|].
  match goal with
  | |- context [pages_fetched ?evs] =>
      replace evs
        with ([EvLog INFO (MCollectStart data_key)] ++ e1
              ++ [EvLog INFO
                    (MTotals data_key (field kvs "totalCount" (JNum 0)) (JNum n));
                  EvLog INFO (MPageCollected 1 (JNum n) (List.length items));
                  EvLog INFO (MCollectDone data_key (List.length items))])%list
        by (cbn [app]; rewrite <- app_assoc; reflexivity)
  end.
  rewrite !pages_fetched_app, !pages_collected_app, !pages_failed_app,
    Hpg, Hpc, Hpf.
  repeat split; try reflexivity. assumption.
Qed.

(** X20: when the first page of a listing is an object that reports records
    and whose [items] is an array, but whose [lastPage] is a string, the
    comparison of the page number with it raises: [collect_paginated_data]
    raises [TypeError] after it has logged the page as collected, and
    returns no record. *)
Theorem collect_paginated_data_last_page_string
    endpoint data_key page_size w req kvs items s :
  let run := collect_paginated_data endpoint data_key page_size w in
  hd_error (fetches (events_of run)) = Some (req, JObj kvs) ->
  truthy (JObj kvs) = true ->
  py_eq_int (field kvs "totalCount" (JNum 0)) 0 = false ->
  field kvs "items" (JArr []) = JArr items ->
  field kvs "lastPage" (JNum 1) = JStr s ->
  result_of run = Raise TypeError
  /\ In (EvLog INFO (MPageCollected 1 (JStr s) (List.length items)))
       (events_of run).
Proof.
  intros run Hhd Tj Z0 Hitems Hlast.
  destruct (first_page_run endpoint data_key page_size w req kvs Hhd)
    as (w1 & e1 & R1 & Hfe & Hpar & Hst & Hpf).
  assert (Hz : (1 =? 1) && py_eq_int (field kvs "totalCount" (JNum 0)) 0 = false)
    by (rewrite Z0; reflexivity).
  pose proof (page_step_items endpoint data_key page_size 1 JNull [] w kvs
                w1 e1 R1 Tj Hz) as Hs.
  cbv zeta in Hs. rewrite take_items_object in Hs.
  change (1 =? 1) with true in Hs. cbv beta iota in Hs.
  rewrite Hitems, Hlast in Hs. cbn [py_iter py_int_ge] in Hs.
  cbv beta iota zeta in Hs.
  subst run. unfold collect_paginated_data, bind, log, emit, ret.
  rewrite Hs. unfold result_of, events_of. cbn [fst snd app].
  split; [reflexivity|].
  right. apply in_or_app. right. right. left. reflexivity.
Qed.

(** ** The base URL *)

Lemma rstrip_slash_spec s :
  (exists t, s = (rstrip_slash s ++ t)%string
             /\ str_forallb (fun c => Ascii.eqb c "/") t = true)
  /\ (rstrip_slash s = ""
      \/ exists p c, rstrip_slash s = (p ++ String c "")%string
                     /\ c <> "/"%char).
Proof.
  induction s as [|c s [(t & IHt & IHs) IHe]]; cbn [rstrip_slash].
  - split; [exists ""; split; reflexivity|left; reflexivity].
  - destruct (rstrip_slash s) as [|c' r] eqn:E.
    + destruct (Ascii.eqb c "/") eqn:Ec; cbn [andb String.eqb].
      * split; [|left; reflexivity].
        exists (String c t). split; [rewrite IHt at 1; reflexivity|].
        cbn [str_forallb]. rewrite Ec, IHs. reflexivity.
      * split.
        -- exists t. split; [rewrite IHt at 1; reflexivity|assumption].
        -- right. exists "", c. split; [reflexivity|].
           intros ->. discriminate.
    + assert (Hne : (Ascii.eqb c "/" && String.eqb (String c' r) "") = false)
        by (rewrite andb_false_r; reflexivity).
      rewrite Hne. split.
      * exists t. split; [rewrite IHt at 1; reflexivity|assumption].
      * right. destruct IHe as [H|(p & c0 & H & Hc)]; [discriminate|].
        exists (String c p), c0. rewrite H. split; [reflexivity|assumption].
Qed.

(** X21: the base URL a fresh collector keeps is the one it was given
    without its trailing slashes: what was cut off consists of slashes only,
    and what is kept is empty or ends with another character, so that the
    URLs built by appending a path that starts with a slash never have a
    doubled slash there. *)
Theorem fresh_collector_base_url base site user pass csrf out verify server :
  let kept := base_url (cfg (fresh_collector base site user pass csrf out
                              verify server)) in
  (exists cut, base = (kept ++ cut)%string
               /\ str_forallb (fun c => Ascii.eqb c "/") cut = true)
  /\ (kept = ""
      \/ exists p c, kept = (p ++ String c "")%string /\ c <> "/"%char).
Proof. apply rstrip_slash_spec. Qed.

End Properties.

(** ** The properties on concrete runs *)

Example b64encode_rfc :
  b64encode (map N_of_ascii (list_ascii_of_string "Aladdin:open sesame"))
  = "QWxhZGRpbjpvcGVuIHNlc2FtZQ==".
Proof. reflexivity. Qed.

(** Five records on three pages are collected in order. *)
Lemma collect_paginated_data_pages_witness :
  let run := @collect_paginated_data three_pages "/o/records" "records" 2
               (collector_on three_pages tt) in
  bodies_wf (events_of run) = true
  /\ exists result k,
       result_of run = Ok result
       /\ pages_fetched (events_of run) = first_pages k
       /\ result = items_fetched (events_of run)
       /\ List.length result
          = list_sum (map snd (pages_collected (events_of run)))
       /\ (pages_failed (events_of run) = []
           \/ pages_failed (events_of run) = [(ERROR, Z.of_nat k + 1)])
       /\ In 1 (pages_attempted (events_of run))
       /\ Forall (fun p => In p (pages_fetched (events_of run))
                           \/ pages_failed (events_of run) = [(ERROR, p)])
            (pages_attempted (events_of run))
       /\ (pages_failed (events_of run) = []
           \/ In (Z.of_nat k + 1) (pages_attempted (events_of run))).
Proof.
  intros run. split; [vm_compute; reflexivity|].
  apply (@collect_paginated_data_pages three_pages).
  vm_compute. reflexivity.
Defined.

(** C1, as stated, fails: when the fetch of the second page fails, the page is
    reported at level ERROR and no warning at all is logged. *)
Lemma failing_page_logged_as_error :
  let evs := events_of (@collect_paginated_data second_page_tls "/o/records"
                          "records" 2 (collector_on second_page_tls tt)) in
  pages_failed evs = [(ERROR, 2)] /\ logged WARNING evs = [].
Proof. vm_compute. split; reflexivity. Qed.

(** An empty listing: one request, for page 1, and no error. *)
Lemma collect_paginated_data_empty_witness :
  let w := collector_on empty_listing tt in
  let run := @collect_paginated_data empty_listing "/o/records" "records" 20 w in
  option_map (fun f => zero_total (snd f)) (hd_error (fetches (events_of run)))
  = Some true
  /\ result_of run = Ok []
  /\ Forall (fun req => page_of req = None \/ page_of req = Some 1)
       (requests (events_of run))
  /\ pages_failed (events_of run) = []
  /\ stats (world_of run) = stats w.
Proof.
  intros w run. split; [vm_compute; reflexivity|].
  apply (@collect_paginated_data_empty empty_listing).
  vm_compute. reflexivity.
Defined.

(** Two 403 in a row: one re-authentication run, after the first one. *)
Lemma make_request_reauthentication_witness :
  let w := collector_on (scripted not_found) denied_twice in
  let evs := events_of (@make_request (scripted not_found) "/o/records" [] 3 w) in
  has_credentials w = true
  /\ map (fun ro => denied (snd ro)) (api_attempts evs) = [true; true; false]
  /\ auth_runs evs = 1%nat.
Proof.
  intros w evs. split; [reflexivity|]. split; [vm_compute; reflexivity|].
  destruct (@make_request_reauthentication (scripted not_found) "/o/records"
              [] 3 w eq_refl) as [H _].
  fold evs in H. rewrite H. vm_compute. reflexivity.
Defined.

(** Three failures with a budget of three: sleeps of 1 and 2 seconds, one
    error counted, no result. *)
Lemma make_request_backoff_witness :
  let w := collector_on always_500 tt in
  let run := @make_request always_500 "/o/records" [] 3 w in
  0 < 3
  /\ sleeps (events_of run) = [inject_Z 1; inject_Z 2]
  /\ result_of run = Ok JNull
  /\ errors (stats (world_of run)) = errors (stats w) + 1.
Proof.
  intros w run.
  destruct (@make_request_backoff always_500 "/o/records" [] 3 w eq_refl)
    as (Hs & _ & Hall).
  destruct Hall as (Hr & _ & He); [vm_compute; reflexivity|].
  split; [reflexivity|]. split; [|split; assumption].
  fold run in Hs. rewrite Hs. vm_compute. reflexivity.
Defined.

(** C5, with a transport that raises a certificate error on every request:
    the call makes one attempt, does not sleep and returns [None]; the four
    listings are attempted once each, in order, nothing is written and the
    resource collectors run through to the end; the error counter stays
    at 0. *)
Lemma tls_failure_is_not_counted_witness :
  let w := collector_on broken_tls tt in
  let call := @make_request broken_tls "https://portal.example/o/records"
                (page_params 1 20) 3 w in
  let run := @collection_steps broken_tls w in
  (map snd (api_attempts (events_of call)) = [OSSLError]
   /\ result_of call = Ok JNull
   /\ sleeps (events_of call) = []
   /\ errors (stats (world_of call)) = 0)
  /\ (result_of run = Ok tt
      /\ map (fun ro => req_url (fst ro)) (api_attempts (events_of run))
         = ["https://portal.example/o/headless-delivery/v1.0/sites/37101/structured-contents";
            "https://portal.example/o/headless-delivery/v1.0/sites/37101/structured-content-folders";
            "https://portal.example/o/headless-delivery/v1.0/sites/37101/site-pages";
            "https://portal.example/o/headless-delivery/v1.0/sites/37101/document-folders"]
      /\ writes (events_of run) = []
      /\ errors (stats (world_of run)) = 0).
Proof.
  intros w call run.
  split; [|vm_compute; repeat split; reflexivity].
  split; [vm_compute; reflexivity|].
  assert (Hatt : exists req, In (req, OSSLError) (api_attempts (events_of call))).
  { eexists. vm_compute. left. reflexivity. }
  destruct Hatt as (req & Hin).
  destruct (@tls_failure_is_not_counted broken_tls
              "https://portal.example/o/records" (page_params 1 20) 3 w req Hin)
    as (Hr & _ & Hstats).
  split; [exact Hr|]. split; [vm_compute; reflexivity|].
  fold call in Hstats. rewrite Hstats. reflexivity.
Defined.

(** C8, on a command line without a password and on one that selects no
    resource. *)
Lemma main_configuration_error_status_witness :
  (opt_truthy (arg_username no_password) = false
   \/ opt_truthy (arg_password no_password) = false
   \/ existsb snd (collect_options no_password) = false)
  /\ fst (fst (@main always_500 no_password tt)) = 0
  /\ @main always_500 nothing_selected tt
     = (0, tt,
        [EvPrint (PUsingCredentials "user"); EvPrint PCsrfAutomatic;
         EvPrint PSslOff; EvPrint PNothingSelected;
         EvPrint PNothingSelectedHint; EvPrint PNothingSelectedHelp]).
Proof.
  split; [right; left; reflexivity|].
  split; [|reflexivity].
  apply (@main_configuration_error_status always_500 no_password tt).
  right; left; reflexivity.
Defined.

(** C10, on a concrete collector: user [user], password [secret], a server
    that answers every request with status 500. *)
Lemma basic_credential_persists_witness :
  basic_credential (Some "user") (Some "secret") = Ok "Basic dXNlcjpzZWNyZXQ="
  /\ dict_get "Authorization"
       (session_headers
          (world_of (@try_basic_auth always_500 (collector_on always_500 tt))))
     = Some "Basic dXNlcjpzZWNyZXQ=".
Proof.
  split; [reflexivity|].
  pose proof (proj2 (@basic_credential_persists always_500
                       (collector_on always_500 tt))) as H.
  change (basic_credential _ _) with (@Ok string "Basic dXNlcjpzZWNyZXQ=") in H.
  cbv iota in H.
  destruct H as (_ & Hheader & _).
  exact Hheader.
Defined.

(** C10 as first stated does not hold for any user name: with a user name
    that is not ASCII the credential cannot be encoded, [try_basic_auth]
    returns [false] without a request, and the session has no
    [Authorization] header. *)
Lemma accented_user_installs_no_header :
  let run := @try_basic_auth always_500 (accented_collector always_500 tt) in
  result_of run = Ok false
  /\ requests (events_of run) = []
  /\ dict_get "Authorization" (session_headers (world_of run)) = None
  /\ logged DEBUG (events_of run) = [MStrategyFailed Basic UnicodeEncodeError].
Proof. vm_compute. repeat split. Qed.



(** C7, on a server where the listing of site pages always fails: the error
    is counted, the steps return, and the summary report is written with the
    count. *)
Lemma run_full_collection_summary_witness :
  let w := collector_on pages_unavailable tt in
  let run := @run_full_collection pages_unavailable w in
  result_of (@test_api_access pages_unavailable w) = Ok true
  /\ result_of run = Ok true
  /\ errors (stats (world_of run)) = 1
  /\ summary_writes (cfg w) (events_of run) = [summary (world_of run)].
Proof.
  intros w run.
  split; [vm_compute; reflexivity|].
  pose proof (@run_full_collection_summary pages_unavailable w eq_refl) as H.
  cbv zeta in H.
  assert (Hs : result_of
                 (@collection_steps pages_unavailable
                    (world_of (@test_api_access pages_unavailable w)))
               = Ok tt) by (vm_compute; reflexivity).
  rewrite Hs in H. destruct H as (Hr & Hsum & _).
  split; [exact Hr|]. split; [vm_compute; reflexivity|].
  fold run in Hsum. rewrite Hsum. vm_compute. reflexivity.
Defined.

(** C7 as first stated has the summary attempted after an uncaught error.
    When the listing of structured contents is answered with a JSON array,
    reading the totals raises; the run catches the error, logs it and returns
    [False], and no file is written: the summary report is skipped. *)
Lemma uncaught_error_skips_summary :
  let w := collector_on array_for_contents tt in
  let run := @run_full_collection array_for_contents w in
  result_of (@test_api_access array_for_contents w) = Ok true
  /\ result_of run = Ok false
  /\ logged ERROR (events_of run) = [MRunError AttributeError]
  /\ writes (events_of run) = [].
Proof. vm_compute. repeat split. Qed.

(** X2, on a server that denies the first two attempts and answers the third
    with a body. *)
Lemma make_request_success_witness :
  let w := collector_on (scripted not_found) denied_twice in
  let run := @make_request (scripted not_found) "/o/records" [] 3 w in
  result_of run = Ok (JObj [("ok", JBool true)])
  /\ List.length (api_attempts (events_of run)) = 3%nat
  /\ stats (world_of run) = stats w.
Proof.
  intros w run.
  assert (Hatt : exists req,
            In (req, http 200 (Some (JObj [("ok", JBool true)])))
              (api_attempts (events_of run))).
  { eexists. vm_compute. right. right. left. reflexivity. }
  destruct Hatt as (req & Hin).
  destruct (@make_request_success (scripted not_found) "/o/records" [] 3 w
              req _ (JObj [("ok", JBool true)]) Hin eq_refl)
    as (Hr & Hs & _).
  split; [exact Hr|]. split; [vm_compute; reflexivity|exact Hs].
Defined.

(** X3, with a budget of zero attempts. *)
Lemma make_request_no_budget_witness :
  let w := collector_on always_500 tt in
  let run := @make_request always_500 "/o/records" [] 0 w in
  0 <= 0
  /\ result_of run = Ok JNull
  /\ requests (events_of run) = [].
Proof.
  intros w run. split; [lia|].
  destruct (@make_request_no_budget always_500 "/o/records" [] 0 w)
    as (Hr & _); [lia|].
  split; [exact Hr|vm_compute; reflexivity].
Defined.

(** X4, on a collector without credentials and a server that answers every
    request with status 403. *)
Lemma make_request_without_credentials_witness :
  let env := stateless (fun _ => http 403 None) in
  let w := anonymous_collector env tt in
  has_credentials w = false
  /\ auth_runs (events_of (@make_request env "/o/records" [] 3 w)) = 0%nat
  /\ List.length
       (api_attempts (events_of (@make_request env "/o/records" [] 3 w)))
     = 3%nat.
Proof.
  intros env w. split; [reflexivity|].
  split; [|vm_compute; reflexivity].
  apply (@make_request_without_credentials env). reflexivity.
Defined.

(** X9, on a listing of five records on three pages: the file of the
    structured contents holds the five records and the counter is 5. *)
Lemma site_collectors_save_witness :
  let w := collector_on three_pages tt in
  let run := @collect_structured_contents three_pages w in
  bodies_wf (events_of run) = true
  /\ map fst (writes (events_of run)) = ["out/structured_contents.json"]
  /\ structured_contents (stats (world_of run)) = 5
  /\ @dataset_saved three_pages unit "structured_contents.json"
       set_structured_contents w run.
Proof.
  intros w run.
  split; [vm_compute; reflexivity|].
  split; [vm_compute; reflexivity|].
  split; [vm_compute; reflexivity|].
  apply (@site_collectors_save three_pages
           (@collect_structured_contents three_pages)
           "structured_contents.json" set_structured_contents w).
  - left. reflexivity.
  - vm_compute. reflexivity.
Defined.

(** X10, on a listing of two records on one page. *)
Lemma collect_document_folders_returns_witness :
  let w := collector_on one_page tt in
  let run := @collect_document_folders one_page w in
  bodies_wf (events_of run) = true
  /\ result_of run = Ok [record 1; record 2]
  /\ map fst (writes (events_of run)) = ["out/document_folders.json"].
Proof.
  intros w run.
  split; [vm_compute; reflexivity|].
  destruct (@collect_document_folders_returns one_page w) as (Hr & _);
    [vm_compute; reflexivity|].
  split; [|vm_compute; reflexivity].
  fold run in Hr. rewrite Hr. vm_compute. reflexivity.
Defined.

(** X12, on [--all --dry-run]. *)
Lemma main_dry_run_witness :
  arg_dry_run dry_run_all = true
  /\ fst (fst (@main always_500 dry_run_all tt)) = 0
  /\ requests (snd (@main always_500 dry_run_all tt)) = [].
Proof.
  split; [reflexivity|].
  destruct (@main_dry_run always_500 dry_run_all tt)
    as (Hs & _ & Hr & _); try reflexivity.
  split; assumption.
Defined.

(** X13, on [--documents] alone. *)
Lemma run_selected_documents_only_witness :
  let w := collector_on always_500 tt in
  let opts := collect_options documents_only in
  let run := @run_selected always_500 opts "out" w in
  option_on "documents" opts = true
  /\ option_on "document_folders" opts = false
  /\ result_of run = Ok tt
  /\ requests (events_of run) = []
  /\ map fst (writes (events_of run)) = ["out/summary_report.json"].
Proof.
  intros w opts run.
  split; [reflexivity|]. split; [reflexivity|].
  destruct (@run_selected_documents_only always_500 opts "out" w)
    as (Hr & _ & Hq & Hw & _); try reflexivity.
  split; [exact Hr|]. split; [exact Hq|].
  fold run in Hw. rewrite Hw. reflexivity.
Defined.

(** X14, on [--all] against a server whose listing of site pages fails: the
    block returns, the run goes through and the status is 0. *)
Lemma main_exit_status_witness :
  arg_dry_run all_selected = false
  /\ fst (fst (@main pages_unavailable all_selected tt)) = 0
  /\ last (printed (snd (@main pages_unavailable all_selected tt))) PStarting
     = PFinished (arg_output_dir all_selected).
Proof.
  split; [reflexivity|].
  pose proof (@main_exit_status pages_unavailable all_selected tt
                eq_refl eq_refl eq_refl eq_refl) as H.
  cbv zeta in H. destruct H as [_ H].
  destruct (result_of _) eqn:E in H.
  - destruct H as (Hs & _ & _ & Hlast). split; [exact Hs|exact Hlast].
  - vm_compute in E. discriminate E.
Defined.

(** X19, on a listing of two records on one page. *)
Lemma collect_paginated_data_single_page_witness :
  let w := collector_on one_page tt in
  let run := @collect_paginated_data one_page "/o/records" "records" 20 w in
  exists req,
    hd_error (fetches (events_of run))
    = Some (req, envelope 2 1 [record 1; record 2])
    /\ result_of run = Ok [record 1; record 2]
    /\ pages_fetched (events_of run) = [1].
Proof.
  intros w run.
  assert (H : exists req,
            hd_error (fetches (events_of run))
            = Some (req, envelope 2 1 [record 1; record 2])).
  { eexists. vm_compute. reflexivity. }
  destruct H as (req & H). exists req. split; [exact H|].
  destruct (@collect_paginated_data_single_page one_page "/o/records"
              "records" 20 w req
              [("items", JArr [record 1; record 2]); ("totalCount", JNum 2);
               ("lastPage", JNum 1)]
              [record 1; record 2] 1 H)
    as (Hr & Hp & _);
    [reflexivity | reflexivity | reflexivity | reflexivity | lia |].
  split; assumption.
Defined.

(** X20, on a listing whose [lastPage] is the text [1]. *)
Lemma collect_paginated_data_last_page_string_witness :
  let w := collector_on last_page_text tt in
  let run := @collect_paginated_data last_page_text "/o/records" "records" 20 w in
  exists req,
    hd_error (fetches (events_of run))
    = Some (req, JObj [("items", JArr [record 1]); ("totalCount", JNum 1);
                       ("lastPage", JStr "1")])
    /\ result_of run = Raise TypeError.
Proof.
  intros w run.
  assert (H : exists req,
            hd_error (fetches (events_of run))
            = Some (req, JObj [("items", JArr [record 1]);
                               ("totalCount", JNum 1);
                               ("lastPage", JStr "1")])).
  { eexists. vm_compute. reflexivity. }
  destruct H as (req & H). exists req. split; [exact H|].
  destruct (@collect_paginated_data_last_page_string last_page_text
              "/o/records" "records" 20 w req
              [("items", JArr [record 1]); ("totalCount", JNum 1);
               ("lastPage", JStr "1")]
              [record 1] "1" H)
    as (Hr & _); [reflexivity | reflexivity | reflexivity | reflexivity |].
  exact Hr.
Defined.
